(** * Data Analyst Jobs Dashboard: loader and filter/aggregate pipeline

    A shallow embedding of [dashboard.py]: the loader [load_data] with its
    fallback [create_sample_data], the sidebar filter chain that builds
    [filtered_df], and the aggregates computed from it ([hired_pct],
    [easy_pct], [avg_jobs_per_day], [daily_pattern]).

    Modelling conventions.
    - A DataFrame is its list of column names and its rows in order; a row
      is its index label together with a finite map from column name to
      cell.  Boolean-mask selection [df[mask]] keeps the rows whose mask
      is true, with their labels.
    - A cell is a missing value ([NaN], which also stands for [NaT] and
      [None]), a text, a timestamp (nanoseconds since the epoch) or an
      integer.  A text is its UTF-8 bytes, whose order is the order of the
      code points.
    - pandas holds a timestamp, and the difference of two, as a 64-bit
      number of nanoseconds: a moment outside this range is no timestamp
      ([pd.to_datetime] with [errors='coerce'] gives [NaT]), and a
      difference or a month start outside it raises.
    - Python floats are read as exact rationals: a theorem says of a figure
      which quotient it is and between which bounds it lies, and nothing
      about the sum of several figures, where the rounded values and the
      exact ones part.
    - Calls that can raise return a [result]; [try]/[except] is a match on
      it, and the messages shown with [st.warning] and [st.error] are
      returned next to the value.
    - pandas is read as of its releases 1.x and 2.x: [astype(str)] turns a
      missing value into the text "nan", [reindex] without [fill_value]
      gives [NaN] to a new label, [value_counts] leaves missing values out.
    - What pandas and numpy do inside (parsing a text as a date, printing
      a non-text cell, the dtype test of the [.str] accessor, the random
      generator) is a parameter of the development. *)

From Stdlib Require Import Ascii String QArith Lqa.
From Stdlib Require OrderedTypeEx.
From stdpp Require Import base option list gmap strings sorting.

Local Open Scope string_scope.
Local Open Scope Z_scope.

(** ** Cells, rows, frames *)

Inductive cell : Type :=
  | NaN
  | Str (s : string)
  | Time (t : Z)
  | Int (z : Z).

#[global] Instance cell_eq_dec : EqDecision cell.
Proof. solve_decision. Defined.

Definition cell_to_sum (c : cell) : unit + string + Z + Z :=
  match c with
  | NaN => inl (inl (inl tt))
  | Str s => inl (inl (inr s))
  | Time t => inl (inr t)
  | Int z => inr z
  end.

Definition cell_of_sum (x : unit + string + Z + Z) : cell :=
  match x with
  | inl (inl (inl _)) => NaN
  | inl (inl (inr s)) => Str s
  | inl (inr t) => Time t
  | inr z => Int z
  end.

#[global] Instance cell_countable : Countable cell.
Proof. apply (inj_countable' cell_to_sum cell_of_sum). by intros []. Defined.

(** [pd.isna] *)
Definition isna (c : cell) : bool :=
  match c with NaN => true | _ => false end.

Abbreviation row := (gmap string cell).

Record DataFrame : Type := mkDataFrame {
  columns : list string;
  records : list (nat * row)
}.

(** the cell of a row under a column; a row without the key reads as missing *)
Definition at_col (r : nat * row) (c : string) : cell := default NaN (r.2 !! c).

(** [c in df.columns] *)
Definition has_column (df : DataFrame) (c : string) : bool :=
  bool_decide (c ∈ columns df).

(** [len(df)] *)
Definition len (df : DataFrame) : nat := length (records df).

(** [df.empty]: some axis has length zero *)
Definition empty (df : DataFrame) : bool :=
  match columns df, records df with
  | _ :: _, _ :: _ => false
  | _, _ => true
  end.

(** [df[mask]] for a boolean mask computed row by row *)
Definition getitem_mask (df : DataFrame) (mask : nat * row → bool) : DataFrame :=
  {| columns := columns df;
     records := filter (λ r, mask r = true) (records df) |}.

(** ** Exceptions *)

Inductive exn : Type :=
  | FileNotFoundError
  | KeyError (key : string)
  | AttributeError
  | ZeroDivisionError
  | OutOfBoundsDatetime
  | OtherError (msg : string).

#[global] Instance exn_eq_dec : EqDecision exn.
Proof. solve_decision. Defined.

Inductive result (A : Type) : Type :=
  | Ok (a : A)
  | Raise (e : exn).
Arguments Ok {A} a.
Arguments Raise {A} e.

#[global] Instance result_ret : MRet result := λ A a, Ok a.

#[global] Instance result_bind : MBind result := λ A B k m,
  match m with
  | Ok a => k a
  | Raise e => Raise e
  end.

(** [str(e)] *)
Definition exn_str (e : exn) : string :=
  match e with
  | FileNotFoundError => "file not found"
  | KeyError k => "'" +:+ k +:+ "'"
  | AttributeError => "Can only use .str accessor with string values!"
  | ZeroDivisionError => "division by zero"
  | OutOfBoundsDatetime => "Result is too large for pandas.Timedelta."
  | OtherError m => m
  end.

(** [df[c]] as a Series, in row order *)
Definition getitem (df : DataFrame) (c : string) : result (list cell) :=
  if has_column df c then Ok ((λ r, at_col r c) <$> records df)
  else Raise (KeyError c).

Definition add_column (cols : list string) (c : string) : list string :=
  if bool_decide (c ∈ cols) then cols else cols ++ [c].

(** [df[c] = series], the series having the frame's own index *)
Definition setitem (df : DataFrame) (c : string) (vals : list cell) : DataFrame :=
  {| columns := add_column (columns df) c;
     records := zip_with (λ r v, (r.1, <[c := v]> r.2)) (records df) vals |}.

(** [df[c] = scalar] *)
Definition setitem_scalar (df : DataFrame) (c : string) (v : cell) : DataFrame :=
  {| columns := add_column (columns df) c;
     records := (λ r, (r.1, <[c := v]> r.2)) <$> records df |}.

(** [df.dropna(subset=[a, b])] *)
Definition dropna2 (df : DataFrame) (a b : string) : result DataFrame :=
  _ ← getitem df a ;
  _ ← getitem df b ;
  Ok (getitem_mask df (λ r, negb (isna (at_col r a)) && negb (isna (at_col r b)))).

(** ** Text *)

(** The characters that [str.isspace] accepts, each as its UTF-8 bytes:
    U+0009 to U+000D, U+001C to U+0020, U+0085, U+00A0, U+1680, U+2000 to
    U+200A, U+2028, U+2029, U+202F, U+205F and U+3000. *)
Definition bytes (codes : list nat) : string :=
  foldr (λ n s, String (ascii_of_nat n) s) EmptyString codes.

Definition white_space : list string :=
  bytes <$>
    [ [9]; [10]; [11]; [12]; [13]; [28]; [29]; [30]; [31]; [32];
      [194; 133]; [194; 160];
      [225; 154; 128];
      [226; 128; 128]; [226; 128; 129]; [226; 128; 130]; [226; 128; 131];
      [226; 128; 132]; [226; 128; 133]; [226; 128; 134]; [226; 128; 135];
      [226; 128; 136]; [226; 128; 137]; [226; 128; 138];
      [226; 128; 168]; [226; 128; 169]; [226; 128; 175];
      [226; 129; 159];
      [227; 128; 128] ]%nat.

(** [str.isspace] on a character of one, of two and of three bytes *)
Definition is_space (a : ascii) : bool :=
  bool_decide (String a EmptyString ∈ white_space).

Definition is_space2 (a b : ascii) : bool :=
  bool_decide (String a (String b EmptyString) ∈ white_space).

Definition is_space3 (a b c : ascii) : bool :=
  bool_decide (String a (String b (String c EmptyString)) ∈ white_space).

(** [s.lstrip()]: the white-space characters at the start are left out. *)
Fixpoint lstrip (s : string) : string :=
  match s with
  | String a s1 =>
      if is_space a then lstrip s1
      else match s1 with
           | String b s2 =>
               if is_space2 a b then lstrip s2
               else match s2 with
                    | String c s3 => if is_space3 a b c then lstrip s3 else s
                    | EmptyString => s
                    end
           | EmptyString => s
           end
  | EmptyString => s
  end.

(** [s.rstrip()]: nothing is left of a text of white space only; any other
    text keeps its first byte, and what follows is stripped in turn. *)
Fixpoint rstrip (s : string) : string :=
  match s with
  | EmptyString => EmptyString
  | String a s' =>
      if bool_decide (lstrip s = EmptyString) then EmptyString
      else String a (rstrip s')
  end.

(** [s.strip()] *)
Definition strip (s : string) : string := rstrip (lstrip s).

(** [s.split(sep)] for a one-character separator: never the empty list *)
Fixpoint split (sep : ascii) (s : string) : list string :=
  match s with
  | EmptyString => [EmptyString]
  | String a s' =>
      if bool_decide (a = sep) then EmptyString :: split sep s'
      else match split sep s' with
           | [] => [String a EmptyString]
           | w :: ws => String a w :: ws
           end
  end.

(** ** Dates *)

Definition ns_per_day : Z := 86400 * 1000000000.

(** [Timestamp.min.value] and [Timestamp.max.value]; [Timedelta] has the
    same two bounds.  The least 64-bit number stands for [NaT]. *)
Definition timestamp_min : Z := - (2 ^ 63 - 1).
Definition timestamp_max : Z := 2 ^ 63 - 1.

(** The number of nanoseconds is one that pandas can hold. *)
Definition in_bounds (t : Z) : bool :=
  (timestamp_min <=? t) && (t <=? timestamp_max).

(** [Timestamp.date()], as a day number since 1970-01-01 *)
Definition date_of (t : Z) : Z := t / ns_per_day.

(** [datetime(y, m, d)] for the two dates of the sample, as timestamps *)
Definition datetime_2023_01_01 : Z := 19358 * ns_per_day.
Definition datetime_2023_12_31 : Z := 19722 * ns_per_day.



(** ** The loader *)

Inductive message : Type :=
  | Warning (text : string)
  | Error (text : string).

Definition not_found_warning : string :=
  "⚠️ Data file not found. Using sample data for demonstration.".

Definition load_error (e : exn) : string := "❌ Error loading data: " +:+ exn_str e.

Definition possible_files : list string :=
  [ "DataAnalystjobs2023.xlsx";
    "dataanalystjobs2023.xlsx";
    "data_analyst_jobs_2023.xlsx";
    "DataAnalystJobs2023.xlsx" ].

Definition job_titles : list string :=
  [ "Data Analyst"; "Business Analyst"; "Data Scientist";
    "Business Intelligence Analyst"; "Marketing Analyst";
    "Financial Analyst"; "Research Analyst"; "Operations Analyst" ].

Definition cities : list string :=
  [ "New York"; "San Francisco"; "Chicago"; "Boston"; "Seattle";
    "Los Angeles"; "Austin"; "Denver"; "Atlanta"; "Miami" ].

Definition companies : list string :=
  [ "Google"; "Microsoft"; "Amazon"; "Meta"; "Apple";
    "Netflix"; "Uber"; "Airbnb"; "Spotify"; "Tesla" ].

Definition n_jobs : nat := 1000.

Section Loader.

(** [pd.to_datetime] on a text or a number: the moment it stands for, in
    nanoseconds since the epoch, or nothing when the value does not parse. *)
Variable parse_datetime : cell → option Z.

(** [str(x)] for a cell that is neither a text nor missing. *)
Variable repr : cell → string.

(** The dtype test of the [.str] accessor on a Series: when it fails pandas
    raises [AttributeError]. *)
Variable str_accessor_ok : list cell → bool.

(** The seeded generator: [rng k i] is the [i]-th number drawn by the
    [k]-th call into [np.random] after [np.random.seed(42)]. *)
Variable rng : nat → nat → nat.

(** A moment as a timestamp, [NaT] when it is out of bounds. *)
Definition coerce (t : Z) : cell := if in_bounds t then Time t else NaN.

(** [pd.to_datetime(x, errors='coerce')] on one cell *)
Definition to_datetime (c : cell) : cell :=
  match c with
  | NaN => NaN
  | Time t => coerce t
  | _ => match parse_datetime c with Some t => coerce t | None => NaN end
  end.

(** one cell of [series.astype(str)] *)
Definition astype_str (c : cell) : cell :=
  match c with
  | Str s => Str s
  | NaN => Str "nan"
  | _ => Str (repr c)
  end.

(** [series.str.<method>()]: the method on the texts, missing elsewhere *)
Definition str_accessor {A} (col : list cell) (f : string → A) : result (list (option A)) :=
  if str_accessor_ok col
  then Ok ((λ c, match c with Str s => Some (f s) | _ => None end) <$> col)
  else Raise AttributeError.

(** [series.str.strip()] *)
Definition str_strip (col : list cell) : result (list cell) :=
  v ← str_accessor col strip;
  Ok (from_option Str NaN <$> (v : list (option string))).

(** [series.str.split(',').str[0]]; the second [.str] works on the lists
    the first one made and has nothing to refuse. *)
Definition str_split_first (col : list cell) : result (list cell) :=
  parts ← str_accessor col (split ",");
  Ok ((λ p, match p with
             | Some l => from_option Str NaN (l !! 0%nat)
             | None => NaN
             end) <$> (parts : list (option (list string)))).

(** [np.random.choice(options, n)], the [k]-th call into the generator:
    numpy returns elements of [options], so the number drawn is read
    modulo their count. *)
Definition choice (k : nat) (options : list string) (n : nat) : list string :=
  (λ i, nth (rng k i mod length options)%nat options "") <$> seq 0 n.

(** [np.random.randint(low, high, n)], the [k]-th call into the generator:
    integers from [low] up to but not including [high]. *)
Definition randint (k : nat) (low high : Z) (n : nat) : list Z :=
  (λ i, low + Z.of_nat (rng k i) mod (high - low)) <$> seq 0 n.

(** [pd.date_range(start, end, periods=n)]: [n] evenly spaced timestamps,
    the first on [start] and the last on [end]. *)
Definition date_range (start stop : Z) (n : nat) : list Z :=
  (λ i, start + Z.of_nat i * (stop - start) / (Z.of_nat n - 1)) <$> seq 0 n.

Definition sample_columns : list string :=
  [ "Job Title"; "Company"; "City"; "Job Location"; "Date"; "Hired";
    "Easy Apply"; "Salary_Min"; "Salary_Max" ].

Definition sample_row (i : nat) (title company city location : string)
    (date : Z) (hired easy : string) (smin smax : Z) : nat * row :=
  (i, <["Job Title" := Str title]> (<["Company" := Str company]>
      (<["City" := Str city]> (<["Job Location" := Str location]>
      (<["Date" := Time date]> (<["Hired" := Str hired]>
      (<["Easy Apply" := Str easy]> (<["Salary_Min" := Int smin]>
      (<["Salary_Max" := Int smax]> ∅))))))))).

(** [create_sample_data()] *)
Definition create_sample_data : DataFrame :=
  let d := "" in
  let title := choice 0%nat job_titles n_jobs in
  let company := choice 1%nat companies n_jobs in
  let city := choice 2%nat cities n_jobs in
  let loc_city := choice 3%nat cities n_jobs in
  let location :=
    imap (λ i c, c +:+ ", " +:+ nth (rng (4 + i) 0 mod 5)%nat ["NY"; "CA"; "TX"; "FL"; "WA"] d)
         loc_city in
  let date := date_range datetime_2023_01_01 datetime_2023_12_31 n_jobs in
  let hired := choice (4 + n_jobs)%nat ["Yes"; "No"] n_jobs in
  let easy := choice (5 + n_jobs)%nat ["Yes"; "No"] n_jobs in
  let smin := randint (6 + n_jobs)%nat 50000 120000 n_jobs in
  let smax := randint (7 + n_jobs)%nat 70000 150000 n_jobs in
  {| columns := sample_columns;
     records :=
       (λ i, sample_row i (nth i title d) (nth i company d) (nth i city d)
               (nth i location d) (nth i date 0) (nth i hired d) (nth i easy d)
               (nth i smin 0) (nth i smax 0))
       <$> seq 0 n_jobs |}.

(** The [for file_name in possible_files] loop: the first file that reads
    wins, a missing file moves on, any other error leaves the loop. *)
Fixpoint try_files (read_excel : string → result DataFrame) (names : list string)
    : result (option DataFrame) :=
  match names with
  | [] => Ok None
  | file_name :: rest =>
      match read_excel file_name with
      | Ok df => Ok (Some df)
      | Raise FileNotFoundError => try_files read_excel rest
      | Raise e => Raise e
      end
  end.

(** Lines 75-84: the preprocessing of a table that was read. *)
Definition preprocess (df : DataFrame) : result DataFrame :=
  date ← getitem df "Date";
  let df := setitem df "Date" (to_datetime <$> date) in
  df ← (if has_column df "Job Location"
        then loc ← getitem df "Job Location";
             city ← str_split_first loc;
             Ok (setitem df "City" city)
        else Ok (setitem_scalar df "City" (Str "Unknown")));
  df ← (if has_column df "Job Title"
        then title ← getitem df "Job Title";
             title ← str_strip title;
             Ok (setitem df "Job Title" title)
        else Ok (setitem_scalar df "Job Title" (Str "Data Analyst")));
  df ← (if has_column df "Hired"
        then hired ← getitem df "Hired";
             Ok (setitem df "Hired" (astype_str <$> hired))
        else Ok (setitem_scalar df "Hired" (Str "No")));
  df ← (if has_column df "Easy Apply"
        then easy ← getitem df "Easy Apply";
             Ok (setitem df "Easy Apply" (astype_str <$> easy))
        else Ok (setitem_scalar df "Easy Apply" (Str "No")));
  dropna2 df "Date" "Job Title".

(** The body of the outer [try] of [load_data], with the messages it shows. *)
Definition load_data_try (read_excel : string → result DataFrame)
    : result (list message * DataFrame) :=
  df ← try_files read_excel possible_files;
  match df with
  | None =>
      Ok ([Warning not_found_warning], create_sample_data)
  | Some df =>
      df ← preprocess df;
      Ok ([], df)
  end.

(** [load_data()]: [except Exception as e] shows the error and falls back. *)
Definition load_data (read_excel : string → result DataFrame)
    : result (list message * DataFrame) :=
  match load_data_try read_excel with
  | Ok r => Ok r
  | Raise e => Ok ([Error (load_error e)], create_sample_data)
  end.

End Loader.

(** ** The filter pipeline *)

(** [series.min()] and [series.max()] of a datetime column: missing values
    are skipped, and the result is [NaT] (here [None]) when nothing is left. *)
Definition series_min (col : list cell) : option Z :=
  foldr (λ c acc, match c with
                  | Time t => Some (from_option (Z.min t) t acc)
                  | _ => acc
                  end) None col.

Definition series_max (col : list cell) : option Z :=
  foldr (λ c acc, match c with
                  | Time t => Some (from_option (Z.max t) t acc)
                  | _ => acc
                  end) None col.



(** The [.dt] accessor needs a datetime column: timestamps and [NaT] only. *)
Definition is_datetime (c : cell) : bool :=
  match c with NaN | Time _ => true | _ => false end.

Definition dt_accessor (col : list cell) : result (list cell) :=
  if forallb is_datetime col then Ok col else Raise AttributeError.

(** [(d.dt.date >= start) & (d.dt.date <= end)] on one row; a comparison
    with [NaT] is false. *)
Definition date_mask (start stop : Z) (r : nat * row) : bool :=
  match at_col r "Date" with
  | Time t => ((start <=? date_of t) && (date_of t <=? stop))%Z
  | _ => false
  end.

(** [series.isin(selected)] on one row *)
Definition isin_mask (c : string) (selected : list cell) (r : nat * row) : bool :=
  bool_decide (at_col r c ∈ selected).

(** [series == value] on one row, for a text [value] *)
Definition eq_mask (c : string) (value : string) (r : nat * row) : bool :=
  bool_decide (at_col r c = Str value).

(** Lines 194-199: the date filter, applied when the picker gave two dates. *)
Definition filter_date (df : DataFrame) (date_range : list Z) : result DataFrame :=
  match date_range with
  | [start_date; end_date] =>
      col ← getitem df "Date";
      _ ← dt_accessor col;
      Ok (getitem_mask df (date_mask start_date end_date))
  | _ => Ok df
  end.

(** [if selected: df = df[df[c].isin(selected)]] *)
Definition filter_isin (df : DataFrame) (c : string) (selected : list cell)
    : result DataFrame :=
  match selected with
  | [] => Ok df
  | _ => _ ← getitem df c; Ok (getitem_mask df (isin_mask c selected))
  end.

(** [if value != "All": df = df[df[c] == value]] *)
Definition filter_eq (df : DataFrame) (c : string) (value : string)
    : result DataFrame :=
  if bool_decide (value ≠ "All")
  then _ ← getitem df c; Ok (getitem_mask df (eq_mask c value))
  else Ok df.

(** What the sidebar widgets return. *)
Record selection : Type := mkSelection {
  date_range_sel : list Z;
  selected_title : list cell;
  selected_city : list cell;
  selected_company : list cell;
  hired_filter : string;
  easy_filter : string
}.

(** Lines 173-181: the company widget exists only when the column does. *)
Definition company_selection (df : DataFrame) (sel : selection) : list cell :=
  if has_column df "Company" then selected_company sel else [].

(** Lines 191-211: [filtered_df]. *)
Definition filtered_df (df : DataFrame) (sel : selection) : result DataFrame :=
  let selected_company := company_selection df sel in
  filtered ← filter_date df (date_range_sel sel);
  filtered ← filter_isin filtered "Job Title" (selected_title sel);
  filtered ← filter_isin filtered "City" (selected_city sel);
  filtered ← filter_isin filtered "Company" selected_company;
  filtered ← filter_eq filtered "Hired" (hired_filter sel);
  filter_eq filtered "Easy Apply" (easy_filter sel).

(** ** Aggregates *)

(** [series.value_counts()]: each value that occurs with its count, missing
    values left out.  The Series is used below only through its labels
    ([.get], [.reindex]), so it is kept as a map from label to count. *)
Definition value_counts (col : list cell) : gmap cell nat :=
  foldr (λ c m, match c with
                | NaN => m
                | _ => <[c := S (default 0%nat (m !! c))]> m
                end) ∅ col.

(** [counts.sum()] *)
Definition counts_sum (m : gmap cell nat) : nat :=
  map_fold (λ _ n acc, (n + acc)%nat) 0%nat m.

Definition Q_of_nat (n : nat) : Q := inject_Z (Z.of_nat n).

(** [series.value_counts(normalize=True)]: [counts / counts.sum()] *)
Definition value_counts_normalize (col : list cell) : gmap cell Q :=
  let counts := value_counts col in
  (λ n, Q_of_nat n / Q_of_nat (counts_sum counts))%Q <$> counts.

(** [series.get(label, default)] *)
Definition series_get {A} (m : gmap cell A) (label : cell) (d : A) : A :=
  default d (m !! label).

(** Line 235: [hired_pct]; line 243: [easy_pct]. *)
Definition yes_pct (df : DataFrame) (c : string) : result Q :=
  col ← getitem df c;
  Ok (series_get (value_counts_normalize col) (Str "Yes") 0 * 100)%Q.

Definition hired_pct (df : DataFrame) : result Q := yes_pct df "Hired".
Definition easy_pct (df : DataFrame) : result Q := yes_pct df "Easy Apply".

(** [(a - b).days] for two timestamps: the difference is a [Timedelta], and
    the subtraction raises when it is out of bounds; [NaT] on either side
    gives [nan]. *)
Definition timedelta_days (a b : option Z) : result (option Z) :=
  match a, b with
  | Some a, Some b =>
      if in_bounds (a - b) then Ok (Some ((a - b) / ns_per_day))
      else Raise OutOfBoundsDatetime
  | _, _ => Ok None
  end.

(** Python's [max(1, x)]: [x] when [x > 1], and [nan > 1] is false *)
Definition py_max_1 (x : option Z) : Z :=
  match x with
  | Some d => if (1 <? d)%Z then d else 1
  | None => 1
  end.

(** Python's [n / d] *)
Definition py_truediv (n d : Z) : result Q :=
  if (d =? 0)%Z then Raise ZeroDivisionError else Ok (inject_Z n / inject_Z d)%Q.

(** Line 251: [avg_jobs_per_day]. *)
Definition avg_jobs_per_day (df : DataFrame) : result Q :=
  col ← getitem df "Date";
  days ← timedelta_days (series_max col) (series_min col);
  py_truediv (Z.of_nat (len df)) (py_max_1 days).




(** ** What the claims speak of *)

(** A frame as the loader hands it to the pipeline: the columns the
    preprocessing sets are there, every date is a timestamp within bounds,
    every job title a text, and the two flags are texts. *)
Record loaded (df : DataFrame) : Prop := mkLoaded {
  loaded_columns :
    ∀ c, c ∈ ["Date"; "Job Title"; "City"; "Hired"; "Easy Apply"] → c ∈ columns df;
  loaded_date : ∀ r, r ∈ records df → ∃ t, at_col r "Date" = Time t;
  loaded_title : ∀ r, r ∈ records df → ∃ s, at_col r "Job Title" = Str s;
  loaded_hired : ∀ r, r ∈ records df → ∃ s, at_col r "Hired" = Str s;
  loaded_easy : ∀ r, r ∈ records df → ∃ s, at_col r "Easy Apply" = Str s;
  loaded_bounds :
    ∀ r t, r ∈ records df → at_col r "Date" = Time t →
           timestamp_min ≤ t ≤ timestamp_max
}.

(** The index labels of a list of rows. *)
Definition labels (rs : list (nat * row)) : list nat := rs.*1.

(** The moment [t] that a date cell stands for: the cell is a timestamp, or
    a text or a number that parses, and pandas can hold the moment. *)
Definition reads_as (parse_datetime : cell → option Z) (c : cell) (t : Z) : Prop :=
  (c = Time t
   ∨ ((∃ s, c = Str s) ∨ (∃ z, c = Int z)) ∧ parse_datetime c = Some t)
  ∧ timestamp_min ≤ t ≤ timestamp_max.

#[global] Instance reads_dec parse_datetime c :
  Decision (∃ t, reads_as parse_datetime c t).
Proof.
  unfold reads_as. destruct c as [|s|t|z].
  - right. intros (t & [[H|[[[s H]|[z H]] _]] _]); discriminate H.
  - destruct (parse_datetime (Str s)) as [t|] eqn:Hp.
    + destruct (decide (timestamp_min ≤ t ≤ timestamp_max)) as [Hb|Hb].
      * left. exists t. split; [right; split; [left; by exists s|done]|done].
      * right. intros (t' & [[H|[_ H]] Hb']); [discriminate H|].
        injection H as <-. by apply Hb.
    + right. intros (t' & [[H|[_ H]] _]); discriminate H.
  - destruct (decide (timestamp_min ≤ t ≤ timestamp_max)) as [Hb|Hb].
    + left. exists t. split; [by left|done].
    + right. intros (t' & [[H|[[[s H]|[z H]] _]] Hb']); [|discriminate H..].
      injection H as <-. by apply Hb.
  - destruct (parse_datetime (Int z)) as [t|] eqn:Hp.
    + destruct (decide (timestamp_min ≤ t ≤ timestamp_max)) as [Hb|Hb].
      * left. exists t. split; [right; split; [right; by exists z|done]|done].
      * right. intros (t' & [[H|[_ H]] Hb']); [discriminate H|].
        injection H as <-. by apply Hb.
    + right. intros (t' & [[H|[_ H]] _]); discriminate H.
Defined.

(** A row of the table read from the file survives [dropna]: its date
    stands for a moment pandas can hold, and its job title (when the table
    has the column) is a text. *)
Definition survives (parse_datetime : cell → option Z) (raw : DataFrame)
    (r : nat * row) : Prop :=
  (∃ t, reads_as parse_datetime (at_col r "Date") t)
  ∧ (has_column raw "Job Title" = true → ∃ s, at_col r "Job Title" = Str s).

#[global] Instance survives_dec parse_datetime raw r :
  Decision (survives parse_datetime raw r).
Proof.
  unfold survives. apply and_dec; [apply _|].
  destruct (has_column raw "Job Title").
  - destruct (at_col r "Job Title") as [|s| |].
    + right. intros H. by destruct (H eq_refl).
    + left. eauto.
    + right. intros H. by destruct (H eq_refl).
    + right. intros H. by destruct (H eq_refl).
  - left. intros H. discriminate H.
Defined.

(** What the loader makes of a flag: "No" when the table has no such
    column; otherwise the text of the cell as it is, "nan" for a missing
    cell, and the printed form of any other cell. *)
Definition flag_kept (repr : cell → string) (raw : DataFrame) (c : string)
    (r r' : nat * row) : Prop :=
  (has_column raw c = false → at_col r' c = Str "No")
  ∧ (has_column raw c = true →
       (∀ s, at_col r c = Str s → at_col r' c = Str s)
       ∧ (at_col r c = NaN → at_col r' c = Str "nan")
       ∧ (∀ t, at_col r c = Time t → at_col r' c = Str (repr (Time t)))
       ∧ (∀ z, at_col r c = Int z → at_col r' c = Str (repr (Int z)))).

(** A run of white-space characters. *)
Inductive spaces : string → Prop :=
  | spaces_nil : spaces EmptyString
  | spaces_cons w s : w ∈ white_space → spaces s → spaces (w +:+ s).

Definition starts_with_space (s : string) : Prop :=
  ∃ w rest, w ∈ white_space ∧ s = w +:+ rest.

Definition ends_with_space (s : string) : Prop :=
  ∃ w front, w ∈ white_space ∧ s = front +:+ w.

(** [t] is [s] without the white space at its two ends: [s] is [t] between
    two runs of white-space characters, and [t] neither starts nor ends
    with one. *)
Definition trimmed_of (s t : string) : Prop :=
  ∃ l r, s = l +:+ t +:+ r ∧ spaces l ∧ spaces r
         ∧ ¬ starts_with_space t ∧ ¬ ends_with_space t.

(** The six predicates of a selection on one row; a dimension whose
    selection is empty or "All" (or whose picker gave no two dates) holds,
    and so does the company dimension on a frame without that column. *)
Definition date_ok (date_range : list Z) (r : nat * row) : Prop :=
  match date_range with
  | [start_date; end_date] =>
      ∃ t, at_col r "Date" = Time t ∧ start_date ≤ date_of t ≤ end_date
  | _ => True
  end.

Definition isin_ok (c : string) (selected : list cell) (r : nat * row) : Prop :=
  selected = [] ∨ at_col r c ∈ selected.

Definition eq_ok (c : string) (value : string) (r : nat * row) : Prop :=
  value = "All" ∨ at_col r c = Str value.

Definition passes (df : DataFrame) (sel : selection) (r : nat * row) : Prop :=
  date_ok (date_range_sel sel) r
  ∧ isin_ok "Job Title" (selected_title sel) r
  ∧ isin_ok "City" (selected_city sel) r
  ∧ (has_column df "Company" = true → isin_ok "Company" (selected_company sel) r)
  ∧ eq_ok "Hired" (hired_filter sel) r
  ∧ eq_ok "Easy Apply" (easy_filter sel) r.

(** The number of rows whose cell under [c] is [v]. *)
Definition count_eq (df : DataFrame) (c : string) (v : cell) : nat :=
  length (filter (λ r, at_col r c = v) (records df)).

(** [count / total * 100], and 0 when [total] is 0. *)
Definition pct (count total : nat) : Q :=
  match total with
  | O => 0%Q
  | _ => (Q_of_nat count / Q_of_nat total * 100)%Q
  end.

(** [t] is the earliest, and the latest, timestamp of the frame. *)
Definition earliest (df : DataFrame) (t : Z) : Prop :=
  (∃ r, r ∈ records df ∧ at_col r "Date" = Time t)
  ∧ ∀ r u, r ∈ records df → at_col r "Date" = Time u → t ≤ u.

Definition latest (df : DataFrame) (t : Z) : Prop :=
  (∃ r, r ∈ records df ∧ at_col r "Date" = Time t)
  ∧ ∀ r u, r ∈ records df → at_col r "Date" = Time u → u ≤ t.


(** The selection with nothing chosen and the date picker on [lo], [hi]. *)
Definition select_all (lo hi : Z) : selection :=
  {| date_range_sel := [lo; hi];
     selected_title := [];
     selected_city := [];
     selected_company := [];
     hired_filter := "All";
     easy_filter := "All" |}.

(** The same selection with a date picker that holds fewer than two dates. *)
Definition with_dates (sel : selection) (dates : list Z) : selection :=
  {| date_range_sel := dates;
     selected_title := selected_title sel;
     selected_city := selected_city sel;
     selected_company := selected_company sel;
     hired_filter := hired_filter sel;
     easy_filter := easy_filter sel |}.

(** One frame is cut out of another: same columns, some of its rows, in order. *)
Definition subframe (out df : DataFrame) : Prop :=
  columns out = columns df ∧ records out `sublist_of` records df.

(** ** A small workbook, for the examples *)

(** Its dates are date cells or empty, its other cells texts or empty, so
    that nothing below depends on how a text would parse as a date or on
    how a number prints; the [.str] accessor is taken to accept a column
    that holds a text. *)

Definition parse_none : cell → option Z := λ _, None.
Definition repr_blank : cell → string := λ _, "".
Definition str_ok_text : list cell → bool :=
  existsb (λ c, match c with Str _ => true | _ => false end).
Definition rng_zero : nat → nat → nat := λ _ _, 0%nat.

Definition workbook_columns : list string :=
  ["Date"; "Job Title"; "Job Location"; "Hired"; "Easy Apply"].

Definition workbook_row (i : nat) (date title location hired easy : cell) : nat * row :=
  (i, <["Date" := date]> (<["Job Title" := title]> (<["Job Location" := location]>
      (<["Hired" := hired]> (<["Easy Apply" := easy]> ∅))))).

(** 2300-01-01, a moment past [Timestamp.max]. *)
Definition datetime_2300_01_01 : Z := 120530 * ns_per_day.

(** 2023-01-01 was a Sunday, 2023-01-02 a Monday. *)
Definition workbook : DataFrame :=
  {| columns := workbook_columns;
     records :=
       [ workbook_row 0%nat (Time datetime_2023_01_01) (Str " Data Analyst ")
           (Str "Austin, TX") (Str "Yes") (Str "No");
         workbook_row 1%nat NaN (Str "Data Scientist")
           (Str "Boston, MA") (Str "No") (Str "Yes");
         workbook_row 2%nat (Time (datetime_2023_01_01 + ns_per_day)) (Str "   ")
           (Str "Denver") (Str "Maybe") NaN;
         workbook_row 3%nat (Time (datetime_2023_01_01 + 2 * ns_per_day)) NaN
           NaN (Str "Yes") (Str "Yes");
         workbook_row 4%nat (Time datetime_2300_01_01) (Str "Data Engineer")
           (Str "Miami, FL") (Str "No") (Str "No") ] |}.

Definition read_workbook (file_name : string) : result DataFrame :=
  if bool_decide (file_name = "DataAnalystjobs2023.xlsx") then Ok workbook
  else Raise FileNotFoundError.

Definition read_nothing (file_name : string) : result DataFrame :=
  Raise FileNotFoundError.

Definition read_broken (file_name : string) : result DataFrame :=
  if bool_decide (file_name = "dataanalystjobs2023.xlsx")
  then Raise (OtherError "File is not a zip file")
  else Raise FileNotFoundError.

(** The workbook as [load_data] returns it. *)
Definition denver_row : nat * row :=
  (2%nat, list_to_map
     [ ("Date", Time (datetime_2023_01_01 + ns_per_day)); ("Job Title", Str "");
       ("Job Location", Str "Denver"); ("City", Str "Denver");
       ("Hired", Str "Maybe"); ("Easy Apply", Str "nan") ]).

Definition workbook_loaded : DataFrame :=
  {| columns := workbook_columns ++ ["City"];
     records :=
       [ (0%nat, list_to_map
            [ ("Date", Time datetime_2023_01_01); ("Job Title", Str "Data Analyst");
              ("Job Location", Str "Austin, TX"); ("City", Str "Austin");
              ("Hired", Str "Yes"); ("Easy Apply", Str "No") ]);
         denver_row ] |}.


(** A selection on the loaded workbook: both days, hired only. *)
Definition picked : selection :=
  {| date_range_sel := [19358; 19359];
     selected_title := [];
     selected_city := [Str "Austin"; Str "Denver"];
     selected_company := [Str "Google"];
     hired_filter := "Yes";
     easy_filter := "All" |}.

Definition workbook_picked : DataFrame :=
  {| columns := workbook_columns ++ ["City"];
     records :=
       [ (0%nat, list_to_map
            [ ("Date", Time datetime_2023_01_01); ("Job Title", Str "Data Analyst");
              ("Job Location", Str "Austin, TX"); ("City", Str "Austin");
              ("Hired", Str "Yes"); ("Easy Apply", Str "No") ]) ] |}.

(** A date picker in which only the start date was picked. *)
Definition half_picked : selection := with_dates picked [19359].

(** ** Row-wise reading of the column assignments *)

(** [df[c] = f(row)]: what a column assignment does to each row. *)
Definition assign (df : DataFrame) (c : string) (f : nat * row → cell) : DataFrame :=
  {| columns := add_column (columns df) c;
     records := (λ r, (r.1, <[c := f r]> r.2)) <$> records df |}.

Definition strip_cell (c : cell) : cell :=
  match c with Str s => Str (strip s) | _ => NaN end.

Definition split_first_cell (c : cell) : cell :=
  match c with Str s => from_option Str NaN (split "," s !! 0%nat) | _ => NaN end.

(** The preprocessing of lines 75-81 on one row of the table [raw]. *)
Definition city_of (raw : DataFrame) (r : nat * row) : cell :=
  if has_column raw "Job Location" then split_first_cell (at_col r "Job Location")
  else Str "Unknown".

Definition title_of (raw : DataFrame) (r : nat * row) : cell :=
  if has_column raw "Job Title" then strip_cell (at_col r "Job Title")
  else Str "Data Analyst".

Definition flag_of (repr : cell → string) (raw : DataFrame) (c : string)
    (r : nat * row) : cell :=
  if has_column raw c then astype_str repr (at_col r c) else Str "No".

Definition norm_row (parse_datetime : cell → option Z) (repr : cell → string)
    (raw : DataFrame) (r : nat * row) : nat * row :=
  let r := (r.1, <["Date" := to_datetime parse_datetime (at_col r "Date")]> r.2) in
  let r := (r.1, <["City" := city_of raw r]> r.2) in
  let r := (r.1, <["Job Title" := title_of raw r]> r.2) in
  let r := (r.1, <["Hired" := flag_of repr raw "Hired" r]> r.2) in
  (r.1, <["Easy Apply" := flag_of repr raw "Easy Apply" r]> r.2).

(** The mask of [dropna(subset=['Date', 'Job Title'])]. *)
Definition notna_mask (r : nat * row) : bool :=
  negb (isna (at_col r "Date")) && negb (isna (at_col r "Job Title")).

(** ** More of the dashboard: inputs for the examples *)

(** The two-letter codes drawn for the sample's job locations (line 121). *)
Definition sample_states : list string := ["NY"; "CA"; "TX"; "FL"; "WA"].

(** The first record of the sample when the generator always draws 0. *)
Definition sample_first : nat * row :=
  sample_row 0 "Data Analyst" "Google" "New York" "New York, NY"
    datetime_2023_01_01 "Yes" "Yes" 50000 70000.

(** A workbook none of whose rows has a date. *)
Definition blank_workbook : DataFrame :=
  {| columns := workbook_columns;
     records :=
       [ workbook_row 0%nat NaN (Str "Data Analyst") (Str "Austin, TX")
           (Str "Yes") (Str "No") ] |}.

Definition read_blank (file_name : string) : result DataFrame :=
  if bool_decide (file_name = "DataAnalystJobs2023.xlsx") then Ok blank_workbook
  else Raise FileNotFoundError.

(** [c in s] for a character *)
Fixpoint has_char (c : ascii) (s : string) : bool :=
  match s with
  | EmptyString => false
  | String a s' => bool_decide (a = c) || has_char c s'
  end.

(** The first record of the loaded workbook. *)
Definition austin_row : nat * row :=
  (0%nat, list_to_map
     [ ("Date", Time datetime_2023_01_01); ("Job Title", Str "Data Analyst");
       ("Job Location", Str "Austin, TX"); ("City", Str "Austin");
       ("Hired", Str "Yes"); ("Easy Apply", Str "No") ]).

(** ** The sidebar options (lines 157-181) *)

(** [series.unique()]: the values in the order of their first appearance,
    a missing value once. *)
Fixpoint unique {A} `{EqDecision A} (col : list A) : list A :=
  match col with
  | [] => []
  | c :: col => c :: filter (λ x, x ≠ c) (unique col)
  end.

Definition is_text (c : cell) : bool :=
  match c with Str _ => true | _ => false end.

Definition as_text (c : cell) : option string :=
  match c with Str s => Some s | _ => None end.

(** Python's [sorted] on texts: ascending by code point, stable. *)
Fixpoint insert_sorted (s : string) (l : list string) : list string :=
  match l with
  | [] => [s]
  | x :: l' => if String.leb s x then s :: l else x :: insert_sorted s l'
  end.

Definition sort_strings (l : list string) : list string :=
  foldr insert_sorted [] l.

Section Sidebar.

(** What [sorted] returns on two or more values none of which is a text. *)
Variable sorted_without_text : list cell → result (list cell).

(** The message of the [TypeError] that [sorted] raises on a list. *)
Variable type_error_text : list cell → string.

(** Python's [sorted] on the values of a column: texts are put in order; a
    text next to a value of another type cannot be compared, and whatever
    the order of the comparisons one of them crosses the two types and
    raises [TypeError]; fewer than two values need no comparison. *)
Definition py_sorted (l : list cell) : result (list cell) :=
  if forallb is_text l then Ok (Str <$> sort_strings (omap as_text l))
  else if existsb is_text l then Raise (OtherError (type_error_text l))
  else match l with
       | [] | [_] => Ok l
       | _ => sorted_without_text l
       end.

(** [sorted(df[c].unique())] *)
Definition sidebar_options (df : DataFrame) (c : string) : result (list cell) :=
  col ← getitem df c;
  py_sorted (unique col).

End Sidebar.

(** One text before another in Python's order of texts. *)
Definition str_lt (a b : string) : Prop := String.ltb a b = true.


(** A workbook in which one job location is missing. *)
Definition patchy_workbook : DataFrame :=
  {| columns := workbook_columns;
     records :=
       [ workbook_row 0%nat (Time datetime_2023_01_01) (Str "Data Analyst")
           (Str "Austin, TX") (Str "Yes") (Str "No");
         workbook_row 1%nat (Time datetime_2023_01_01) (Str "Data Scientist")
           NaN (Str "No") (Str "Yes") ] |}.

Definition read_patchy (file_name : string) : result DataFrame :=
  if bool_decide (file_name = "DataAnalystjobs2023.xlsx") then Ok patchy_workbook
  else Raise FileNotFoundError.

Definition patchy_loaded : DataFrame :=
  {| columns := workbook_columns ++ ["City"];
     records :=
       [ austin_row;
         (1%nat, list_to_map
            [ ("Date", Time datetime_2023_01_01); ("Job Title", Str "Data Scientist");
              ("Job Location", NaN); ("City", NaN);
              ("Hired", Str "No"); ("Easy Apply", Str "Yes") ]) ] |}.

Definition sorted_unused : list cell → result (list cell) := Ok.
Definition type_error_float_str : list cell → string :=
  λ _, "'<' not supported between instances of 'float' and 'str'".

(** ** The indicators (lines 218-256) *)

(** What the four [st.metric] calls show, as numbers: the figures, and the
    change against the unfiltered frame, which is shown only when the
    filter removed something. *)
Record indicators : Type := mkIndicators {
  total_jobs : nat;
  total_delta : option Z;
  hired_rate : Q;
  hired_delta : option Q;
  easy_rate : Q;
  easy_delta : option Q;
  jobs_per_day : Q
}.

Definition no_matches_warning : string :=
  "⚠️ No data matches your selected filters. Please adjust your criteria.".

(** [value - base if total_jobs != len(df) else None] *)
Definition delta_pct (df : DataFrame) (total_jobs : nat) (c : string) (value : Q)
    : result (option Q) :=
  if bool_decide (total_jobs ≠ len df)
  then base ← yes_pct df c; Ok (Some (value - base)%Q)
  else Ok None.

(** Lines 218-256: the warning for an empty result, the indicators otherwise. *)
Definition key_indicators (df filtered : DataFrame) : result (message + indicators) :=
  if bool_decide (len filtered = 0%nat) then Ok (inl (Warning no_matches_warning))
  else
    let total_jobs := len filtered in
    let total_delta :=
      if bool_decide (total_jobs ≠ len df)
      then Some (Z.of_nat total_jobs - Z.of_nat (len df))
      else None in
    hired ← hired_pct filtered;
    hired_delta ← delta_pct df total_jobs "Hired" hired;
    easy ← easy_pct filtered;
    easy_delta ← delta_pct df total_jobs "Easy Apply" easy;
    avg ← avg_jobs_per_day filtered;
    Ok (inr (mkIndicators total_jobs total_delta hired hired_delta easy easy_delta avg)).

(** ** The cross-tabulation (lines 356-357) *)

(** [pd.crosstab(easy, hired, normalize='index') * 100] on two columns of
    texts: a row for every easy-apply value and a column for every hired
    value that occurs, both in ascending order; a cell is the number of
    records with the two values over the sum of its row, times 100. *)
Definition crosstab_texts (easy hired : list string)
    : list (string * list (string * Q)) :=
  let pairs := zip easy hired in
  let index := sort_strings (unique easy) in
  let cols := sort_strings (unique hired) in
  (λ e, let count := λ h, length (filter (λ p, p = (e, h)) pairs) in
        let total := sum_list (count <$> cols) in
        (e, (λ h, (h, (Q_of_nat (count h) / Q_of_nat total * 100)%Q)) <$> cols))
  <$> index.

Section Crosstab.

(** What [pd.crosstab] returns when a flag is not a text; the loader's
    [astype(str)] leaves no such flag. *)
Variable crosstab_other :
  list cell → list cell → result (list (string * list (string * Q))).

(** Line 357: [crosstab]. *)
Definition crosstab_pct (df : DataFrame) : result (list (string * list (string * Q))) :=
  easy ← getitem df "Easy Apply";
  hired ← getitem df "Hired";
  if forallb is_text easy && forallb is_text hired
  then Ok (crosstab_texts (omap as_text easy) (omap as_text hired))
  else crosstab_other easy hired.

End Crosstab.

(** The text of a cell. *)
Definition text_at (c : string) (r : nat * row) : string :=
  match at_col r c with Str s => s | _ => "" end.

(** The number of rows with the given easy-apply and hired values, and with
    the given easy-apply value. *)
Definition count_both (df : DataFrame) (e h : string) : nat :=
  length (filter (λ r, at_col r "Easy Apply" = Str e ∧ at_col r "Hired" = Str h)
                 (records df)).

(** ** The summary statistics (lines 476-481) *)

(** [series.value_counts().get(label, 0)] *)
Definition label_count (df : DataFrame) (c label : string) : result nat :=
  col ← getitem df c;
  Ok (series_get (value_counts col) (Str label) 0%nat).

(** [series.value_counts(normalize=True).get(label, 0) * 100] *)
Definition label_pct (df : DataFrame) (c label : string) : result Q :=
  col ← getitem df c;
  Ok (series_get (value_counts_normalize col) (Str label) 0 * 100)%Q.

(** The four lines of "Hiring Statistics": a count and a percentage each. *)
Record hiring_statistics : Type := mkHiringStatistics {
  stat_hired : nat * Q;
  stat_not_hired : nat * Q;
  stat_easy : nat * Q;
  stat_regular : nat * Q
}.

Definition hiring_stats (df : DataFrame) : result hiring_statistics :=
  hired ← label_count df "Hired" "Yes";
  hired_pct ← label_pct df "Hired" "Yes";
  not_hired ← label_count df "Hired" "No";
  not_hired_pct ← label_pct df "Hired" "No";
  easy ← label_count df "Easy Apply" "Yes";
  easy_pct ← label_pct df "Easy Apply" "Yes";
  regular ← label_count df "Easy Apply" "No";
  regular_pct ← label_pct df "Easy Apply" "No";
  Ok (mkHiringStatistics (hired, hired_pct) (not_hired, not_hired_pct)
        (easy, easy_pct) (regular, regular_pct)).

(** ** The monthly trend (lines 375-377) *)

(** The year and the month (1 to 12) of a day number, in the proleptic
    Gregorian calendar. *)
Definition civil_from_days (days : Z) : Z * Z :=
  let z := days + 719468 in
  let era := z / 146097 in
  let doe := z - era * 146097 in
  let yoe := (doe - doe / 1460 + doe / 36524 - doe / 146096) / 365 in
  let doy := doe - (365 * yoe + yoe / 4 - yoe / 100) in
  let mp := (5 * doy + 2) / 153 in
  let m := if mp <? 10 then mp + 3 else mp - 9 in
  let y := yoe + era * 400 in
  (if m <=? 2 then y + 1 else y, m).

(** The day number of the first day of a month. *)
Definition days_from_civil (y m : Z) : Z :=
  let y := if m <=? 2 then y - 1 else y in
  let era := y / 400 in
  let yoe := y - era * 400 in
  let mp := if 2 <? m then m - 3 else m + 9 in
  let doy := (153 * mp + 2) / 5 in
  let doe := yoe * 365 + yoe / 4 - yoe / 100 + doy in
  era * 146097 + doe - 719468.

(** [Timestamp.to_period('M')], as the number of months since January 1970 *)
Definition to_period_month (t : Z) : Z :=
  let '(y, m) := civil_from_days (date_of t) in
  (y - 1970) * 12 + (m - 1).

(** [Period.to_timestamp()] of a month: its first day at midnight *)
Definition month_to_timestamp (p : Z) : Z :=
  days_from_civil (1970 + p / 12) (p mod 12 + 1) * ns_per_day.

(** [sorted] on integers *)
Fixpoint insert_sorted_Z (k : Z) (l : list Z) : list Z :=
  match l with
  | [] => [k]
  | x :: l' => if k <=? x then k :: l else x :: insert_sorted_Z k l'
  end.

Definition sort_Z (l : list Z) : list Z := foldr insert_sorted_Z [] l.

(** The month of a cell of a datetime column; [NaT] has none. *)
Definition dt_to_period_month (c : cell) : option Z :=
  match c with Time t => Some (to_period_month t) | _ => None end.

(** [df.groupby(df['Date'].dt.to_period('M')).size()]: the months that
    occur, in ascending order, each with the number of its records. *)
Definition monthly_sizes (df : DataFrame) : result (list (Z * nat)) :=
  col ← getitem df "Date";
  col ← dt_accessor col;
  let months := omap dt_to_period_month col in
  Ok ((λ p, (p, length (filter (λ q, q = p) months))) <$> sort_Z (unique months)).

(** Lines 375-377: [monthly_data], with the columns [Date] and [Job_Count];
    [.dt.to_timestamp()] raises when the first day of a month is no
    timestamp. *)
Definition monthly_data (df : DataFrame) : result (list (Z * nat)) :=
  sizes ← monthly_sizes df;
  if forallb (λ g, in_bounds (month_to_timestamp g.1)) (sizes : list (Z * nat))
  then Ok ((λ g, (month_to_timestamp g.1, g.2)) <$> sizes)
  else Raise OutOfBoundsDatetime.






(** ** The columns of the table (lines 423-428) *)

(** Python's [list.insert(i, x)] *)
Definition py_insert {A} (i : nat) (x : A) (l : list A) : list A :=
  take i l ++ x :: drop i l.

(** [key_columns], with ['Company'] put third when the frame has it *)
Definition key_columns (df : DataFrame) : list string :=
  let key_columns := ["Date"; "Job Title"; "City"; "Hired"; "Easy Apply"] in
  if has_column df "Company" then py_insert 2 "Company" key_columns
  else key_columns.

(** [df[cols]] for a list of column names: the frame cut down to these
    columns in the order given, [KeyError] when one of them is not there
    (pandas names all that are not; here the first one). *)
Definition getitem_columns (df : DataFrame) (cols : list string) : result DataFrame :=
  match List.find (λ c, negb (has_column df c)) cols with
  | Some c => Raise (KeyError c)
  | None =>
      Ok {| columns := cols;
            records := (λ r, (r.1, filter (λ kv, kv.1 ∈ cols) r.2)) <$> records df |}
  end.

(** [display_df[key_columns]] unless "Show All Columns" is ticked *)
Definition display_columns (df : DataFrame) (show_all : bool) : result DataFrame :=
  if show_all then Ok df else getitem_columns df (key_columns df).

(** The same selection with other job titles. *)
Definition with_titles (sel : selection) (titles : list cell) : selection :=
  {| date_range_sel := date_range_sel sel;
     selected_title := titles;
     selected_city := selected_city sel;
     selected_company := selected_company sel;
     hired_filter := hired_filter sel;
     easy_filter := easy_filter sel |}.

(** ** More inputs for the examples *)

Definition crosstab_unused :
    list cell → list cell → result (list (string * list (string * Q))) :=
  λ _ _, Ok [].

(** The loaded workbook cut down to its second record. *)
Definition workbook_denver : DataFrame :=
  {| columns := workbook_columns ++ ["City"]; records := [denver_row] |}.

(** The second record of the loaded patchy workbook: no city. *)
Definition nowhere_row : nat * row :=
  (1%nat, list_to_map
     [ ("Date", Time datetime_2023_01_01); ("Job Title", Str "Data Scientist");
       ("Job Location", NaN); ("City", NaN);
       ("Hired", Str "No"); ("Easy Apply", Str "Yes") ]).


(** A workbook with a company column; its first job title stands between a
    no-break space (U+00A0) and an em space (U+2003). *)
Definition staffed_columns : list string :=
  ["Date"; "Job Title"; "Company"; "Job Location"; "Hired"; "Easy Apply"].

Definition staffed_row (i : nat) (date title company location hired easy : cell)
    : nat * row :=
  (i, <["Date" := date]> (<["Job Title" := title]> (<["Company" := company]>
      (<["Job Location" := location]> (<["Hired" := hired]>
      (<["Easy Apply" := easy]> ∅)))))).

Definition padded_title : string :=
  bytes [194; 160]%nat +:+ "Data Analyst" +:+ bytes [226; 128; 131]%nat.

Definition staffed_first : nat * row :=
  staffed_row 0%nat (Time datetime_2023_01_01) (Str padded_title)
    (Str "Google") (Str "Austin, TX") (Str "Yes") NaN.

Definition staffed_workbook : DataFrame :=
  {| columns := staffed_columns;
     records :=
       [ staffed_first;
         staffed_row 1%nat (Time (datetime_2023_01_01 + ns_per_day))
           (Str "Data Scientist") (Str "Meta") (Str "Boston, MA")
           (Str "No") (Str "Yes");
         staffed_row 2%nat (Time (datetime_2023_01_01 + ns_per_day))
           (Str "Data Engineer") (Str "Google") (Str "Denver, CO")
           (Str "No") (Str "Yes") ] |}.

Definition read_staffed (file_name : string) : result DataFrame :=
  if bool_decide (file_name = "DataAnalystjobs2023.xlsx") then Ok staffed_workbook
  else Raise FileNotFoundError.

(** The records of the staffed workbook as [load_data] returns them. *)
Definition google_row : nat * row :=
  (0%nat, list_to_map
     [ ("Date", Time datetime_2023_01_01); ("Job Title", Str "Data Analyst");
       ("Company", Str "Google"); ("Job Location", Str "Austin, TX");
       ("City", Str "Austin"); ("Hired", Str "Yes"); ("Easy Apply", Str "nan") ]).

Definition meta_row : nat * row :=
  (1%nat, list_to_map
     [ ("Date", Time (datetime_2023_01_01 + ns_per_day));
       ("Job Title", Str "Data Scientist");
       ("Company", Str "Meta"); ("Job Location", Str "Boston, MA");
       ("City", Str "Boston"); ("Hired", Str "No"); ("Easy Apply", Str "Yes") ]).

Definition google_engineer_row : nat * row :=
  (2%nat, list_to_map
     [ ("Date", Time (datetime_2023_01_01 + ns_per_day));
       ("Job Title", Str "Data Engineer");
       ("Company", Str "Google"); ("Job Location", Str "Denver, CO");
       ("City", Str "Denver"); ("Hired", Str "No"); ("Easy Apply", Str "Yes") ]).

Definition staffed_loaded : DataFrame :=
  {| columns := staffed_columns ++ ["City"];
     records := [google_row; meta_row; google_engineer_row] |}.

(** Both days, one company. *)
Definition google_only : selection :=
  {| date_range_sel := [19358; 19359];
     selected_title := [];
     selected_city := [];
     selected_company := [Str "Google"];
     hired_filter := "All";
     easy_filter := "All" |}.

Definition staffed_google : DataFrame :=
  {| columns := staffed_columns ++ ["City"];
     records := [google_row; google_engineer_row] |}.

(** A workbook whose two postings are three centuries apart: 1950-01-01 and
    2250-01-01 are both timestamps, their difference is no [Timedelta]. *)
Definition datetime_1950_01_01 : Z := -7305 * ns_per_day.
Definition datetime_2250_01_01 : Z := 102268 * ns_per_day.

Definition archive_workbook : DataFrame :=
  {| columns := workbook_columns;
     records :=
       [ workbook_row 0%nat (Time datetime_1950_01_01) (Str "Data Analyst")
           (Str "Austin, TX") (Str "Yes") (Str "No");
         workbook_row 1%nat (Time datetime_2250_01_01) (Str "Data Scientist")
           (Str "Boston, MA") (Str "No") (Str "Yes") ] |}.

Definition read_archive (file_name : string) : result DataFrame :=
  if bool_decide (file_name = "DataAnalystjobs2023.xlsx") then Ok archive_workbook
  else Raise FileNotFoundError.

Definition archive_loaded : DataFrame :=
  {| columns := workbook_columns ++ ["City"];
     records :=
       [ (0%nat, list_to_map
            [ ("Date", Time datetime_1950_01_01); ("Job Title", Str "Data Analyst");
              ("Job Location", Str "Austin, TX"); ("City", Str "Austin");
              ("Hired", Str "Yes"); ("Easy Apply", Str "No") ]);
         (1%nat, list_to_map
            [ ("Date", Time datetime_2250_01_01); ("Job Title", Str "Data Scientist");
              ("Job Location", Str "Boston, MA"); ("City", Str "Boston");
              ("Hired", Str "No"); ("Easy Apply", Str "Yes") ]) ] |}.

(** A workbook with a posting of 1677-09-25: the day is a timestamp, the
    first day of its month is not. *)
Definition datetime_1677_09_25 : Z := -106748 * ns_per_day.

Definition early_workbook : DataFrame :=
  {| columns := workbook_columns;
     records :=
       [ workbook_row 0%nat (Time datetime_1677_09_25) (Str "Data Analyst")
           (Str "Austin, TX") (Str "Yes") (Str "No") ] |}.

Definition read_early (file_name : string) : result DataFrame :=
  if bool_decide (file_name = "DataAnalystjobs2023.xlsx") then Ok early_workbook
  else Raise FileNotFoundError.

Definition early_loaded : DataFrame :=
  {| columns := workbook_columns ++ ["City"];
     records :=
       [ (0%nat, list_to_map
            [ ("Date", Time datetime_1677_09_25); ("Job Title", Str "Data Analyst");
              ("Job Location", Str "Austin, TX"); ("City", Str "Austin");
              ("Hired", Str "Yes"); ("Easy Apply", Str "No") ]) ] |}.

(** * Proofs *)

(** ** Cells and columns *)

(** membership in a list that is written out *)
Ltac in_list := solve [repeat first [left | right]].

Lemma at_col_insert_eq i (m : row) c v : at_col (i, <[c := v]> m) c = v.
Proof. unfold at_col. simpl. by rewrite lookup_insert_eq. Qed.

Lemma at_col_insert_ne i (m : row) c c' v :
  c ≠ c' → at_col (i, <[c := v]> m) c' = at_col (i, m) c'.
Proof. intros Hne. unfold at_col. simpl. by rewrite lookup_insert_ne. Qed.

Lemma has_column_true df c : has_column df c = true ↔ c ∈ columns df.
Proof. unfold has_column. apply bool_decide_eq_true. Qed.

Lemma elem_of_add_column cols c c' : c' ∈ add_column cols c ↔ c' = c ∨ c' ∈ cols.
Proof.
  unfold add_column. case_bool_decide as Hc.
  - split; [auto|]. intros [->|]; done.
  - rewrite elem_of_app, list_elem_of_singleton. tauto.
Qed.

Lemma has_column_assign df c f c' :
  has_column (assign df c f) c' = bool_decide (c' = c) || has_column df c'.
Proof.
  unfold has_column. simpl.
  rewrite <- bool_decide_or. apply bool_decide_ext, elem_of_add_column.
Qed.

Lemma getitem_ok df c col :
  getitem df c = Ok col ↔
  has_column df c = true ∧ col = (λ r, at_col r c) <$> records df.
Proof.
  unfold getitem. destruct (has_column df c); split.
  - by intros [= <-].
  - by intros [_ ->].
  - done.
  - by intros [? _].
Qed.

Lemma getitem_has df c : has_column df c = true → ∃ col, getitem df c = Ok col.
Proof. intros H. unfold getitem. rewrite H. eauto. Qed.

Lemma setitem_fmap df c c' (g : cell → cell) :
  setitem df c (g <$> ((λ r, at_col r c') <$> records df))
  = assign df c (λ r, g (at_col r c')).
Proof.
  unfold setitem, assign. f_equal.
  rewrite <- list_fmap_compose, zip_with_fmap_r, zip_with_diag. done.
Qed.

Lemma setitem_scalar_assign df c v : setitem_scalar df c v = assign df c (λ _, v).
Proof. done. Qed.

Lemma elem_of_getitem_mask df mask r :
  r ∈ records (getitem_mask df mask) ↔ r ∈ records df ∧ mask r = true.
Proof. unfold getitem_mask. simpl. rewrite list_elem_of_filter. tauto. Qed.

Lemma columns_getitem_mask df mask : columns (getitem_mask df mask) = columns df.
Proof. done. Qed.

Lemma records_getitem_mask df mask :
  records (getitem_mask df mask) = filter (λ r, mask r = true) (records df).
Proof. done. Qed.

Lemma getitem_mask_sublist df mask :
  records (getitem_mask df mask) `sublist_of` records df.
Proof. apply sublist_filter. Qed.

Lemma getitem_mask_all df mask :
  (∀ r, r ∈ records df → mask r = true) → getitem_mask df mask = df.
Proof.
  intros Hall. destruct df as [cols rs]. unfold getitem_mask. simpl in *. f_equal.
  induction rs as [|r rs IH]; [done|].
  rewrite filter_cons_True by (apply Hall; left).
  f_equal. apply IH. intros r' Hr'. apply Hall. by right.
Qed.

(** ** The preprocessing, row by row *)

Section LoaderProofs.

Context (parse_datetime : cell → option Z) (repr : cell → string).
Context (str_accessor_ok : list cell → bool) (rng : nat → nat → nat).

Lemma str_strip_ok col v :
  str_strip str_accessor_ok col = Ok v → v = strip_cell <$> col.
Proof.
  unfold str_strip, str_accessor. destruct (str_accessor_ok col); [|done].
  simpl. intros [= <-]. rewrite <- list_fmap_compose.
  apply list_fmap_ext. by intros _ [] _.
Qed.

Lemma str_split_first_ok col v :
  str_split_first str_accessor_ok col = Ok v → v = split_first_cell <$> col.
Proof.
  unfold str_split_first, str_accessor. destruct (str_accessor_ok col); [|done].
  simpl. intros [= <-]. rewrite <- list_fmap_compose.
  apply list_fmap_ext. by intros _ [] _.
Qed.

Lemma has_column_assign_other df c f c' :
  c' ≠ c → has_column (assign df c f) c' = has_column df c'.
Proof. intros Hne. rewrite has_column_assign. by rewrite bool_decide_eq_false_2. Qed.

(** The five assignments of the preprocessing, one after the other. *)
Lemma assign_chain raw :
  records
    (assign (assign (assign (assign
      (assign raw "Date" (λ r, to_datetime parse_datetime (at_col r "Date")))
      "City" (city_of raw)) "Job Title" (title_of raw))
      "Hired" (flag_of repr raw "Hired")) "Easy Apply" (flag_of repr raw "Easy Apply"))
  = norm_row parse_datetime repr raw <$> records raw.
Proof.
  unfold assign. simpl. rewrite <- !list_fmap_compose.
  apply list_fmap_ext. by intros _ r _.
Qed.

Lemma bind_ok {A B} (m : result A) (k : A → result B) b :
  m ≫= k = Ok b → ∃ a, m = Ok a ∧ k a = Ok b.
Proof. destruct m as [a|e]; [eauto|done]. Qed.

Lemma city_step raw df df' :
  has_column df "Job Location" = has_column raw "Job Location" →
  (if has_column df "Job Location"
   then loc ← getitem df "Job Location";
        city ← str_split_first str_accessor_ok loc;
        Ok (setitem df "City" city)
   else Ok (setitem_scalar df "City" (Str "Unknown"))) = Ok df' →
  df' = assign df "City" (city_of raw).
Proof.
  intros Hcol. unfold city_of. rewrite <- Hcol.
  destruct (has_column df "Job Location") eqn:Hl.
  - intros (loc & Hloc & H)%bind_ok. apply getitem_ok in Hloc as [_ ->].
    apply bind_ok in H as (city & ->%str_split_first_ok & [= <-]).
    apply setitem_fmap.
  - by intros [= <-].
Qed.

Lemma title_step raw df df' :
  has_column df "Job Title" = has_column raw "Job Title" →
  (if has_column df "Job Title"
   then title ← getitem df "Job Title";
        title ← str_strip str_accessor_ok title;
        Ok (setitem df "Job Title" title)
   else Ok (setitem_scalar df "Job Title" (Str "Data Analyst"))) = Ok df' →
  df' = assign df "Job Title" (title_of raw).
Proof.
  intros Hcol. unfold title_of. rewrite <- Hcol.
  destruct (has_column df "Job Title") eqn:Hl.
  - intros (loc & Hloc & H)%bind_ok. apply getitem_ok in Hloc as [_ ->].
    apply bind_ok in H as (city & ->%str_strip_ok & [= <-]).
    apply setitem_fmap.
  - by intros [= <-].
Qed.

Lemma flag_step raw df c df' :
  has_column df c = has_column raw c →
  (if has_column df c
   then flag ← getitem df c; Ok (setitem df c (astype_str repr <$> flag))
   else Ok (setitem_scalar df c (Str "No"))) = Ok df' →
  df' = assign df c (flag_of repr raw c).
Proof.
  intros Hcol. unfold flag_of. rewrite <- Hcol.
  destruct (has_column df c) eqn:Hl.
  - intros (flag & Hflag & [= <-])%bind_ok. apply getitem_ok in Hflag as [_ ->].
    apply setitem_fmap.
  - by intros [= <-].
Qed.

(** What [preprocess] returns when it returns: the rows of the table,
    normalised one by one, that pass the [dropna] mask. *)
Lemma preprocess_ok raw df :
  preprocess parse_datetime repr str_accessor_ok raw = Ok df →
  has_column raw "Date" = true
  ∧ (∀ c, c ∈ ["Date"; "Job Title"; "City"; "Hired"; "Easy Apply"] → c ∈ columns df)
  ∧ records df
    = filter (λ r, notna_mask r = true) (norm_row parse_datetime repr raw <$> records raw).
Proof.
  unfold preprocess.
  intros (date & Hdate & H)%bind_ok. apply getitem_ok in Hdate as [Hdate ->].
  rewrite setitem_fmap in H.
  apply bind_ok in H as (df2 & H2 & H). apply (city_step raw) in H2 as ->;
    [|by apply has_column_assign_other].
  apply bind_ok in H as (df3 & H3 & H). apply (title_step raw) in H3 as ->;
    [|by rewrite !has_column_assign_other].
  apply bind_ok in H as (df4 & H4 & H). apply (flag_step raw) in H4 as ->;
    [|by rewrite !has_column_assign_other].
  apply bind_ok in H as (df5 & H5 & H). apply (flag_step raw) in H5 as ->;
    [|by rewrite !has_column_assign_other].
  unfold dropna2 in H.
  apply bind_ok in H as (? & _ & H). apply bind_ok in H as (? & _ & [= <-]).
  split; [done|]. split.
  - intros c Hc. rewrite columns_getitem_mask. apply has_column_true.
    rewrite !has_column_assign.
    repeat (apply elem_of_cons in Hc as [->|Hc]; [by rewrite ?orb_true_r|]).
    by apply elem_of_nil in Hc.
  - rewrite records_getitem_mask, assign_chain. done.
Qed.

End LoaderProofs.

(** ** Trimming *)

Lemma append_cons a w rest : String a w +:+ rest = String a (w +:+ rest).
Proof. reflexivity. Qed.

Lemma append_nil_l rest : "" +:+ rest = rest.
Proof. reflexivity. Qed.

Lemma append_nil_r s : s +:+ "" = s.
Proof. induction s as [|a s IH]; [done|]. by rewrite append_cons, IH. Qed.

Lemma append_assoc' a b c : (a +:+ b) +:+ c = a +:+ b +:+ c.
Proof. induction a as [|x a IH]; [done|]. by rewrite !append_cons, IH. Qed.

(** a text written out, taken apart *)
Ltac unstring H := rewrite ?append_cons, ?append_nil_l in H; simplify_eq.

(** A white-space character is one, two or three bytes. *)
Lemma white_space_bytes w :
  w ∈ white_space →
  (∃ a, w = String a "" ∧ is_space a = true)
  ∨ (∃ a b, w = String a (String b "") ∧ is_space a = false ∧ is_space2 a b = true)
  ∨ (∃ a b c, w = String a (String b (String c ""))
       ∧ is_space a = false ∧ is_space2 a b = false ∧ is_space3 a b c = true).
Proof.
  intros Hw. unfold white_space in Hw. simpl in Hw.
  repeat (apply elem_of_cons in Hw as [->|Hw];
    [first [ left; eexists; split; [reflexivity|]; by vm_compute
           | right; left; eexists _, _; split; [reflexivity|]; by vm_compute
           | right; right; eexists _, _, _; split; [reflexivity|]; by vm_compute ]|]).
  by apply elem_of_nil in Hw.
Qed.

Lemma lstrip_white w rest : w ∈ white_space → lstrip (w +:+ rest) = lstrip rest.
Proof.
  intros [(a & -> & H1)|[(a & b & -> & H1 & H2)|(a & b & c & -> & H1 & H2 & H3)]]%white_space_bytes.
  - change (String a "" +:+ rest) with (String a rest). simpl. by rewrite H1.
  - change (String a (String b "") +:+ rest) with (String a (String b rest)).
    simpl. by rewrite H1, H2.
  - change (String a (String b (String c "")) +:+ rest)
      with (String a (String b (String c rest))).
    simpl. by rewrite H1, H2, H3.
Qed.

Lemma lstrip_cases s :
  (lstrip s = s ∧ ¬ starts_with_space s)
  ∨ (∃ w rest, w ∈ white_space ∧ s = w +:+ rest ∧ lstrip s = lstrip rest).
Proof.
  assert (∀ a rest, is_space a = true →
    ∃ w rest', w ∈ white_space ∧ String a rest = w +:+ rest'
      ∧ lstrip (String a rest) = lstrip rest') as Hone.
  { intros a rest Ha. exists (String a ""), rest.
    split; [by apply bool_decide_eq_true in Ha|]. split; [done|].
    simpl. by rewrite Ha. }
  destruct s as [|a [|b [|c s]]].
  - left. split; [done|].
    intros (w & rest & Hw & Hs). destruct w; [|done].
    revert Hw. apply (bool_decide_unpack _). by vm_compute.
  - destruct (is_space a) eqn:Ha; [right; by apply Hone|].
    left. split; [simpl; by rewrite Ha|].
    intros (w & rest & Hw & Hs).
    apply white_space_bytes in Hw
      as [(a' & -> & H1)|[(a' & b' & -> & H1 & H2)|(a' & b' & c' & -> & H1 & H2 & H3)]];
      unstring Hs; congruence.
  - destruct (is_space a) eqn:Ha; [right; by apply Hone|].
    destruct (is_space2 a b) eqn:Hab.
    { right. exists (String a (String b "")), "".
      split; [by apply bool_decide_eq_true in Hab|]. split; [done|].
      simpl. by rewrite Ha, Hab. }
    left. split; [simpl; by rewrite Ha, Hab|].
    intros (w & rest & Hw & Hs).
    apply white_space_bytes in Hw
      as [(a' & -> & H1)|[(a' & b' & -> & H1 & H2)|(a' & b' & c' & -> & H1 & H2 & H3)]];
      unstring Hs; congruence.
  - destruct (is_space a) eqn:Ha; [right; by apply Hone|].
    destruct (is_space2 a b) eqn:Hab.
    { right. exists (String a (String b "")), (String c s).
      split; [by apply bool_decide_eq_true in Hab|]. split; [done|].
      simpl. by rewrite Ha, Hab. }
    destruct (is_space3 a b c) eqn:Habc.
    { right. exists (String a (String b (String c ""))), s.
      split; [by apply bool_decide_eq_true in Habc|]. split; [done|].
      simpl. by rewrite Ha, Hab, Habc. }
    left. split; [simpl; by rewrite Ha, Hab, Habc|].
    intros (w & rest & Hw & Hs).
    apply white_space_bytes in Hw
      as [(a' & -> & H1)|[(a' & b' & -> & H1 & H2)|(a' & b' & c' & -> & H1 & H2 & H3)]];
      unstring Hs; congruence.
Qed.

Lemma white_space_length w rest :
  w ∈ white_space → (String.length rest < String.length (w +:+ rest))%nat.
Proof.
  intros [(a & -> & _)|[(a & b & -> & _)|(a & b & c & -> & _)]]%white_space_bytes;
    rewrite !append_cons, append_nil_l; simpl; lia.
Qed.

Lemma lstrip_spec s :
  ∃ l, s = l +:+ lstrip s ∧ spaces l ∧ ¬ starts_with_space (lstrip s).
Proof.
  remember (String.length s) as n eqn:Hn. revert s Hn.
  induction (lt_wf n) as [n _ IH]. intros s ->.
  destruct (lstrip_cases s) as [[Heq Hno]|(w & rest & Hw & -> & Heq)].
  - exists "". rewrite Heq. split; [done|]. split; [constructor|done].
  - destruct (IH (String.length rest) (white_space_length w rest Hw) rest eq_refl)
      as (l & Hl & Hsp & Hno).
    exists (w +:+ l). rewrite Heq. split; [|split; [by constructor|done]].
    rewrite Hl at 1. by rewrite append_assoc'.
Qed.

Lemma spaces_lstrip s : spaces s → lstrip s = "".
Proof. induction 1 as [|w s Hw _ IH]; [done|]. by rewrite lstrip_white. Qed.

Lemma spaces_app l r : spaces l → spaces r → spaces (l +:+ r).
Proof.
  induction 1 as [|w s Hw _ IH]; intros Hr; [done|].
  rewrite append_assoc'. constructor; auto.
Qed.

Lemma rstrip_spec s :
  ∃ r, s = rstrip s +:+ r ∧ spaces r ∧ ¬ ends_with_space (rstrip s).
Proof.
  assert (¬ ends_with_space "") as Hnil.
  { intros (w & front & Hw & Hs). destruct front; [|done].
    rewrite append_nil_l in Hs. subst w.
    revert Hw. apply (bool_decide_unpack _). by vm_compute. }
  induction s as [|a s IH].
  - exists "". split; [done|]. split; [constructor|done].
  - cbn [rstrip]. case_bool_decide as Hall.
    + exists (String a s). split; [done|]. split; [|done].
      destruct (lstrip_spec (String a s)) as (l & Hl & Hsp & _).
      rewrite Hall in Hl. rewrite Hl. by rewrite append_nil_r.
    + destruct IH as (r & Hr & Hsp & Hno). exists r.
      split; [rewrite append_cons; by rewrite <- Hr|]. split; [done|].
      intros (w & front & Hw & Hs). destruct front as [|b front].
      * rewrite append_nil_l in Hs. apply Hall. rewrite Hr at 1.
        rewrite <- append_cons, Hs. apply spaces_lstrip. by constructor.
      * rewrite append_cons in Hs. injection Hs as _ Hs. apply Hno. by exists w, front.
Qed.

Lemma starts_with_space_app t r : starts_with_space t → starts_with_space (t +:+ r).
Proof.
  intros (w & rest & Hw & ->). exists w, (rest +:+ r). split; [done|].
  by rewrite append_assoc'.
Qed.

Lemma strip_trimmed s : trimmed_of s (strip s).
Proof.
  unfold strip. destruct (lstrip_spec s) as (l & Hl & Hsl & Hnl).
  destruct (rstrip_spec (lstrip s)) as (r & Hr & Hsr & Hnr).
  exists l, r. split; [by rewrite <- Hr|]. split; [done|]. split; [done|].
  split; [|done]. intros Hstart. apply Hnl. rewrite Hr.
  by apply starts_with_space_app.
Qed.

Example strip_padded_title : strip padded_title = "Data Analyst".
Proof. vm_compute. reflexivity. Qed.
Example strip_blank : strip "   " = "".
Proof. vm_compute. reflexivity. Qed.
(** U+00E0 is the bytes 195 160: the second is no white space of its own. *)
Example strip_accent : strip (bytes [32; 195; 160; 32]%nat) = bytes [195; 160]%nat.
Proof. vm_compute. reflexivity. Qed.

(** ** The rows of a table after the preprocessing *)

Section NormRow.

Context (parse_datetime : cell → option Z) (repr : cell → string).
Context (raw : DataFrame).

Lemma norm_row_label r : (norm_row parse_datetime repr raw r).1 = r.1.
Proof. done. Qed.

Lemma norm_row_date r :
  at_col (norm_row parse_datetime repr raw r) "Date"
  = to_datetime parse_datetime (at_col r "Date").
Proof.
  destruct r as [i m]. unfold norm_row. cbn [fst snd].
  rewrite !at_col_insert_ne by done. apply at_col_insert_eq.
Qed.

Lemma norm_row_title r :
  at_col (norm_row parse_datetime repr raw r) "Job Title" = title_of raw r.
Proof.
  destruct r as [i m]. unfold norm_row. cbn [fst snd].
  rewrite !at_col_insert_ne by done. rewrite at_col_insert_eq.
  unfold title_of. by rewrite !at_col_insert_ne.
Qed.

Lemma norm_row_hired r :
  at_col (norm_row parse_datetime repr raw r) "Hired" = flag_of repr raw "Hired" r.
Proof.
  destruct r as [i m]. unfold norm_row. cbn [fst snd].
  rewrite !at_col_insert_ne by done. rewrite at_col_insert_eq.
  unfold flag_of. by rewrite !at_col_insert_ne.
Qed.

Lemma norm_row_easy r :
  at_col (norm_row parse_datetime repr raw r) "Easy Apply"
  = flag_of repr raw "Easy Apply" r.
Proof.
  destruct r as [i m]. unfold norm_row. cbn [fst snd].
  rewrite at_col_insert_eq.
  unfold flag_of. by rewrite !at_col_insert_ne.
Qed.

Lemma in_bounds_true t : in_bounds t = true ↔ timestamp_min ≤ t ≤ timestamp_max.
Proof. unfold in_bounds. rewrite andb_true_iff, !Z.leb_le. tauto. Qed.

Lemma coerce_cases t :
  (coerce t = Time t ∧ timestamp_min ≤ t ≤ timestamp_max)
  ∨ (coerce t = NaN ∧ ¬ timestamp_min ≤ t ≤ timestamp_max).
Proof.
  unfold coerce. destruct (in_bounds t) eqn:Hb; [left|right]; (split; [done|]).
  - by apply in_bounds_true.
  - rewrite <- in_bounds_true. by rewrite Hb.
Qed.

(** [to_datetime] gives the moment the cell stands for, and [NaT] to a cell
    that stands for none. *)
Lemma to_datetime_cases c :
  (to_datetime parse_datetime c = NaN ∧ ¬ ∃ t, reads_as parse_datetime c t)
  ∨ ∃ t, to_datetime parse_datetime c = Time t ∧ reads_as parse_datetime c t.
Proof.
  unfold to_datetime, reads_as. destruct c as [|s|t|z].
  - left. split; [done|]. intros (t & [[H|[[[s H]|[z H]] _]] _]); discriminate H.
  - destruct (parse_datetime (Str s)) as [t|] eqn:Hp.
    + destruct (coerce_cases t) as [[-> Hb]|[-> Hb]].
      * right. exists t. split; [done|]. split; [|done]. right. eauto.
      * left. split; [done|]. intros (t' & [[H|[_ H]] Hb']); [discriminate H|].
        injection H as <-. by apply Hb.
    + left. split; [done|]. intros (t' & [[H|[_ H]] _]); discriminate H.
  - destruct (coerce_cases t) as [[-> Hb]|[-> Hb]].
    + right. exists t. split; [done|]. split; [by left|done].
    + left. split; [done|].
      intros (t' & [[H|[[[s H]|[z H]] _]] Hb']); [|discriminate H..].
      injection H as <-. by apply Hb.
  - destruct (parse_datetime (Int z)) as [t|] eqn:Hp.
    + destruct (coerce_cases t) as [[-> Hb]|[-> Hb]].
      * right. exists t. split; [done|]. split; [|done]. right. eauto.
      * left. split; [done|]. intros (t' & [[H|[_ H]] Hb']); [discriminate H|].
        injection H as <-. by apply Hb.
    + left. split; [done|]. intros (t' & [[H|[_ H]] _]); discriminate H.
Qed.

Lemma reads_as_unique c t u :
  reads_as parse_datetime c t → reads_as parse_datetime c u → t = u.
Proof.
  intros [[->|[Hc Ht]] _] [[Hu|[Hc' Hu]] _].
  - by injection Hu.
  - by destruct Hc' as [[? ?]|[? ?]].
  - subst c. by destruct Hc as [[? ?]|[? ?]].
  - congruence.
Qed.

Lemma flag_of_text c r : ∃ s, flag_of repr raw c r = Str s.
Proof.
  unfold flag_of, astype_str. destruct (has_column raw c); [|eauto].
  destruct (at_col r c); eauto.
Qed.

Lemma notna_norm_row r :
  notna_mask (norm_row parse_datetime repr raw r) = true ↔
  survives parse_datetime raw r.
Proof.
  unfold notna_mask, survives. rewrite andb_true_iff, !negb_true_iff.
  rewrite norm_row_date, norm_row_title. unfold title_of.
  destruct (to_datetime_cases (at_col r "Date")) as [[-> Hno]|(t & -> & Ht)]; simpl.
  - split; [by intros [? _]|by intros [? _]].
  - destruct (has_column raw "Job Title"); simpl.
    + destruct (at_col r "Job Title") as [|s| |]; simpl.
      * split; [by intros [_ ?]|]. intros [_ H]. by destruct (H eq_refl).
      * split; [|done]. intros _. split; [eauto|eauto].
      * split; [by intros [_ ?]|]. intros [_ H]. by destruct (H eq_refl).
      * split; [by intros [_ ?]|]. intros [_ H]. by destruct (H eq_refl).
    + split; [|done]. intros _. split; [eauto|]. intros H. discriminate H.
Qed.

End NormRow.

(** ** The loader's outcomes *)

Section LoadData.

Context (parse_datetime : cell → option Z) (repr : cell → string).
Context (str_accessor_ok : list cell → bool) (rng : nat → nat → nat).

Local Abbreviation preprocess' := (preprocess parse_datetime repr str_accessor_ok).
Local Abbreviation load_data' := (load_data parse_datetime repr str_accessor_ok rng).
Local Abbreviation sample := (create_sample_data rng).

Lemma try_files_none read_excel names :
  (∀ f, f ∈ names → read_excel f = Raise FileNotFoundError) →
  try_files read_excel names = Ok None.
Proof.
  induction names as [|f names IH]; intros Hall; [done|]. simpl.
  rewrite (Hall f) by left. apply IH. intros g Hg. apply Hall. by right.
Qed.

Lemma try_files_raise read_excel before f after e :
  (∀ g, g ∈ before → read_excel g = Raise FileNotFoundError) →
  read_excel f = Raise e → e ≠ FileNotFoundError →
  try_files read_excel (before ++ f :: after) = Raise e.
Proof.
  intros Hbefore Hf He. induction before as [|g before IH]; simpl.
  - rewrite Hf. by destruct e.
  - rewrite (Hbefore g) by left. apply IH. intros h Hh. apply Hbefore. by right.
Qed.

Lemma load_data_file read_excel raw df :
  try_files read_excel possible_files = Ok (Some raw) →
  preprocess' raw = Ok df →
  load_data' read_excel = Ok ([], df).
Proof.
  intros Hread Hpre. unfold load_data, load_data_try.
  rewrite Hread. simpl. by rewrite Hpre.
Qed.

Lemma load_data_file_raise read_excel raw e :
  try_files read_excel possible_files = Ok (Some raw) →
  preprocess' raw = Raise e →
  load_data' read_excel = Ok ([Error (load_error e)], sample).
Proof.
  intros Hread Hpre. unfold load_data, load_data_try.
  rewrite Hread. simpl. by rewrite Hpre.
Qed.

(** The three ways [load_data] returns. *)
Lemma load_data_cases read_excel :
  (∃ raw df, try_files read_excel possible_files = Ok (Some raw)
     ∧ preprocess' raw = Ok df ∧ load_data' read_excel = Ok ([], df))
  ∨ load_data' read_excel = Ok ([Warning not_found_warning], sample)
  ∨ (∃ e, load_data' read_excel = Ok ([Error (load_error e)], sample)).
Proof.
  unfold load_data, load_data_try.
  destruct (try_files read_excel possible_files) as [[raw|]|e]; simpl.
  - destruct (preprocess' raw) as [df|e] eqn:Hpre; simpl; [left|right; right]; eauto.
  - right. by left.
  - right. right. eauto.
Qed.

Lemma date_range_between start stop n i :
  start ≤ stop → (i < n)%nat →
  start ≤ nth i (date_range start stop n) 0 ≤ stop.
Proof.
  intros Hle Hi. unfold date_range.
  rewrite nth_lookup, list_lookup_fmap, lookup_seq_lt by done. simpl.
  assert (0 ≤ Z.of_nat i * (stop - start) / (Z.of_nat n - 1) ≤ stop - start) as Hq.
  { destruct (decide (Z.of_nat n - 1 = 0)) as [->|Hn].
    - rewrite Z.div_0_r. lia.
    - split.
      + apply Z.div_pos; nia.
      + apply Z.div_le_upper_bound; nia. }
  lia.
Qed.

Lemma sample_rows r :
  r ∈ records sample →
  ∃ i title company city location date hired easy smin smax,
    r = sample_row i title company city location date hired easy smin smax
    ∧ datetime_2023_01_01 ≤ date ≤ datetime_2023_12_31.
Proof.
  unfold create_sample_data. cbv zeta. cbn [records].
  intros (i & -> & Hi%elem_of_seq)%list_elem_of_fmap.
  do 10 eexists. split; [reflexivity|].
  apply date_range_between; [done|lia].
Qed.

Lemma sample_loaded : loaded sample.
Proof.
  split.
  - intros c Hc. unfold create_sample_data. cbv zeta. cbn [columns].
    unfold sample_columns.
    repeat (apply elem_of_cons in Hc as [->|Hc]; [in_list|]).
    by apply elem_of_nil in Hc.
  - intros r (i & ? & ? & ? & ? & date & ? & ? & ? & ? & -> & _)%sample_rows.
    exists date. unfold sample_row.
    rewrite !at_col_insert_ne by done. apply at_col_insert_eq.
  - intros r (i & title & ? & ? & ? & date & ? & ? & ? & ? & -> & _)%sample_rows.
    exists title. unfold sample_row. apply at_col_insert_eq.
  - intros r (i & title & ? & ? & ? & date & hired & ? & ? & ? & -> & _)%sample_rows.
    exists hired. unfold sample_row.
    rewrite !at_col_insert_ne by done. apply at_col_insert_eq.
  - intros r (i & title & ? & ? & ? & date & hired & easy & ? & ? & -> & _)%sample_rows.
    exists easy. unfold sample_row.
    rewrite !at_col_insert_ne by done. apply at_col_insert_eq.
  - intros r t (i & ? & ? & ? & ? & date & ? & ? & ? & ? & -> & Hd)%sample_rows.
    unfold sample_row. rewrite !at_col_insert_ne by done.
    rewrite at_col_insert_eq. intros [= <-]. revert Hd.
    unfold datetime_2023_01_01, datetime_2023_12_31, ns_per_day,
      timestamp_min, timestamp_max. lia.
Qed.

Lemma preprocess_rows raw df r' :
  preprocess' raw = Ok df → r' ∈ records df →
  ∃ r, r ∈ records raw ∧ r' = norm_row parse_datetime repr raw r
       ∧ survives parse_datetime raw r.
Proof.
  intros (_ & _ & Hrec)%preprocess_ok. rewrite Hrec.
  intros [Hmask (r & -> & Hr)%list_elem_of_fmap]%list_elem_of_filter.
  exists r. by rewrite <- notna_norm_row.
Qed.

Lemma preprocess_loaded raw df : preprocess' raw = Ok df → loaded df.
Proof.
  intros Hpre. split.
  - by apply preprocess_ok in Hpre as (_ & ? & _).
  - intros r' (r & _ & -> & Hdate & _)%(preprocess_rows raw); [|done].
    rewrite norm_row_date.
    destruct (to_datetime_cases parse_datetime (at_col r "Date"))
      as [[_ Hno]|(t & -> & _)]; [done|eauto].
  - intros r' (r & _ & -> & _ & Htitle)%(preprocess_rows raw); [|done].
    rewrite norm_row_title. unfold title_of.
    destruct (has_column raw "Job Title"); [|eauto].
    destruct (Htitle eq_refl) as [s ->]. simpl. eauto.
  - intros r' (r & _ & -> & _)%(preprocess_rows raw); [|done].
    rewrite norm_row_hired. apply flag_of_text.
  - intros r' (r & _ & -> & _)%(preprocess_rows raw); [|done].
    rewrite norm_row_easy. apply flag_of_text.
  - intros r' t (r & _ & -> & _)%(preprocess_rows raw); [|done].
    rewrite norm_row_date.
    destruct (to_datetime_cases parse_datetime (at_col r "Date"))
      as [[-> _]|(u & -> & _ & Hb)]; [done|]. by intros [= <-].
Qed.

(** Whatever [load_data] returns is a frame the pipeline can work on. *)
Lemma load_data_loaded read_excel msgs df :
  load_data' read_excel = Ok (msgs, df) → loaded df.
Proof.
  destruct (load_data_cases read_excel)
    as [(raw & df' & _ & Hpre & ->)|[->|[e ->]]]; intros [= <- <-].
  - by eapply preprocess_loaded.
  - apply sample_loaded.
  - apply sample_loaded.
Qed.

Lemma labels_filter_fmap (P Q : nat * row → Prop)
    `{!∀ r, Decision (P r)} `{!∀ r, Decision (Q r)} (f : nat * row → nat * row) rs :
  (∀ r, (f r).1 = r.1) → (∀ r, P (f r) ↔ Q r) →
  labels (filter P (f <$> rs)) = labels (filter Q rs).
Proof.
  intros Hlabel HPQ. unfold labels.
  induction rs as [|r rs IH]; [done|]. rewrite fmap_cons.
  destruct (decide (Q r)) as [Hq|Hq].
  - rewrite !filter_cons_True by (done || by apply HPQ).
    rewrite !fmap_cons, Hlabel. by f_equal.
  - rewrite !filter_cons_False by (done || by rewrite HPQ). done.
Qed.

(** C8. [load_data] never raises: it always returns, with the messages it
    showed.  When none of the candidate files exists it warns and returns
    the sample; when reading a candidate raises anything but "file not
    found", or the preprocessing of the table read raises, it shows the
    error and returns the sample. *)
Theorem load_data_never_raises read_excel :
  (∃ msgs df, load_data' read_excel = Ok (msgs, df))
  ∧ ((∀ f, f ∈ possible_files → read_excel f = Raise FileNotFoundError) →
     load_data' read_excel = Ok ([Warning not_found_warning], sample))
  ∧ (∀ before f after e,
       possible_files = (before ++ f :: after)%list →
       (∀ g, g ∈ before → read_excel g = Raise FileNotFoundError) →
       read_excel f = Raise e → e ≠ FileNotFoundError →
       load_data' read_excel = Ok ([Error (load_error e)], sample))
  ∧ (∀ raw e,
       try_files read_excel possible_files = Ok (Some raw) →
       preprocess' raw = Raise e →
       load_data' read_excel = Ok ([Error (load_error e)], sample)).
Proof.
  split; [|split; [|split]].
  - destruct (load_data_cases read_excel)
      as [(raw & df & _ & _ & ->)|[->|[e ->]]]; eauto.
  - intros Hnone. unfold load_data, load_data_try.
    by rewrite (try_files_none read_excel possible_files Hnone).
  - intros before f after e Hsplit Hbefore Hf He.
    unfold load_data, load_data_try. rewrite Hsplit.
    by rewrite (try_files_raise read_excel before f after e).
  - intros raw e. apply load_data_file_raise.
Qed.

(** C4, as the code has it. Every record [load_data] returns has a
    timestamp within bounds for a date and a text for a job title (which
    may be the empty text); and when a table was read and preprocessed, the
    records returned are, label for label, those of the table whose date
    stands for a moment pandas can hold and whose job title, when the table
    has that column, is a text: the others are dropped, and the date of a
    record returned is the moment its date cell in the table stands for. *)
Theorem load_data_rows_valid read_excel msgs df :
  load_data' read_excel = Ok (msgs, df) →
  (∀ r, r ∈ records df →
     (∃ t, at_col r "Date" = Time t ∧ timestamp_min ≤ t ≤ timestamp_max)
     ∧ (∃ s, at_col r "Job Title" = Str s))
  ∧ (∀ raw,
       try_files read_excel possible_files = Ok (Some raw) → msgs = [] →
       labels (records df)
       = labels (filter (survives parse_datetime raw) (records raw))
       ∧ ∀ r', r' ∈ records df →
           ∃ r t, r ∈ records raw ∧ r'.1 = r.1
                  ∧ survives parse_datetime raw r
                  ∧ reads_as parse_datetime (at_col r "Date") t
                  ∧ at_col r' "Date" = Time t).
Proof.
  intros Hload. split.
  - intros r Hr. destruct (load_data_loaded _ _ _ Hload) as [_ Hd Ht _ _ Hb].
    destruct (Hd r Hr) as [t Hdate]. split; [|eauto].
    exists t. split; [done|]. by apply (Hb r).
  - intros raw Hread ->.
    destruct (load_data_cases read_excel)
      as [(raw' & df' & Hread' & Hpre & Hload')|[Hload'|[e Hload']]];
      rewrite Hload' in Hload; [|done..].
    injection Hload as <-. rewrite Hread in Hread'. injection Hread' as <-.
    split.
    + apply preprocess_ok in Hpre as (_ & _ & ->).
      apply labels_filter_fmap; [done|]. intros r. apply notna_norm_row.
    + intros r' Hr'.
      destruct (preprocess_rows raw df' r' Hpre Hr') as (r & Hr & -> & Hs).
      destruct (to_datetime_cases parse_datetime (at_col r "Date"))
        as [[_ Hno]|(t & Ht & Hreads)]; [by destruct Hs as [? _]|].
      exists r, t. repeat (split; [done|]). by rewrite norm_row_date.
Qed.

Lemma flag_of_kept raw c r r' :
  at_col r' c = flag_of repr raw c r → flag_kept repr raw c r r'.
Proof.
  intros H. unfold flag_kept. rewrite H. unfold flag_of.
  destruct (has_column raw c); (split; [done|]); [|done].
  intros _. repeat split.
  - by intros s ->.
  - by intros ->.
  - by intros t ->.
  - by intros z ->.
Qed.

(** C6, as the code has it. After a file was loaded, each record comes
    from a row of the table.  Its hired and easy-apply fields are texts:
    "No" when the table has no such column; otherwise the text of the
    row's cell whatever it says, "nan" for a missing cell, and the printed
    form of any other cell.  Its job title is "Data Analyst" when the table
    has no such column, and otherwise the row's title without the white
    space at its two ends. *)
Theorem load_data_flags_and_title read_excel raw df :
  try_files read_excel possible_files = Ok (Some raw) →
  load_data' read_excel = Ok ([], df) →
  ∀ r', r' ∈ records df →
    ∃ r, r ∈ records raw ∧ r'.1 = r.1
      ∧ flag_kept repr raw "Hired" r r'
      ∧ flag_kept repr raw "Easy Apply" r r'
      ∧ (∃ s, at_col r' "Hired" = Str s)
      ∧ (∃ s, at_col r' "Easy Apply" = Str s)
      ∧ (has_column raw "Job Title" = false →
           at_col r' "Job Title" = Str "Data Analyst")
      ∧ (has_column raw "Job Title" = true →
           ∃ s t, at_col r "Job Title" = Str s ∧ at_col r' "Job Title" = Str t
                  ∧ trimmed_of s t).
Proof.
  intros Hread Hload r' Hr'.
  destruct (load_data_cases read_excel)
    as [(raw' & df' & Hread' & Hpre & Hload')|[Hload'|[e Hload']]];
    rewrite Hload' in Hload; [|done..].
  injection Hload as <-. rewrite Hread in Hread'. injection Hread' as <-.
  destruct (preprocess_rows raw df' r' Hpre Hr') as (r & Hr & -> & _ & Htitle).
  exists r. split; [done|]. split; [done|].
  split; [apply flag_of_kept, norm_row_hired|].
  split; [apply flag_of_kept, norm_row_easy|].
  rewrite norm_row_hired, norm_row_easy, norm_row_title.
  split; [apply flag_of_text|]. split; [apply flag_of_text|].
  unfold title_of. split.
  - by intros ->.
  - intros Hcol. rewrite Hcol. destruct (Htitle Hcol) as [s Hs].
    exists s, (strip s). split; [done|]. rewrite Hs. simpl.
    split; [done|apply strip_trimmed].
Qed.

End LoadData.

(** ** The filter stages *)

Lemma subframe_refl df : subframe df df.
Proof. by split. Qed.

Lemma subframe_trans a b c : subframe a b → subframe b c → subframe a c.
Proof. intros [? ?] [? ?]. split; [congruence|by etrans]. Qed.

Lemma subframe_mask df mask : subframe (getitem_mask df mask) df.
Proof. split; [done|apply getitem_mask_sublist]. Qed.

Lemma subframe_has_column out df c : subframe out df → has_column out c = has_column df c.
Proof. intros [Hcols _]. unfold has_column. by rewrite Hcols. Qed.

Lemma subframe_loaded out df : subframe out df → loaded df → loaded out.
Proof.
  intros Hsub [Hc Hd Ht Hh He Hb]. destruct Hsub as [Hcols Hrows].
  split; [by rewrite Hcols|..].
  - intros r Hr. apply Hd. by eapply elem_of_sublist.
  - intros r Hr. apply Ht. by eapply elem_of_sublist.
  - intros r Hr. apply Hh. by eapply elem_of_sublist.
  - intros r Hr. apply He. by eapply elem_of_sublist.
  - intros r t Hr. apply Hb. by eapply elem_of_sublist.
Qed.

Lemma loaded_has_column df c :
  loaded df → c ∈ ["Date"; "Job Title"; "City"; "Hired"; "Easy Apply"] →
  has_column df c = true.
Proof. intros [Hc _ _ _ _ _] Hin. apply has_column_true. auto. Qed.

Lemma loaded_datetime df :
  loaded df → forallb is_datetime ((λ r, at_col r "Date") <$> records df) = true.
Proof.
  intros [_ Hd _ _ _ _]. apply Is_true_true, forallb_True, Forall_fmap, Forall_forall.
  intros r Hr. destruct (Hd r Hr) as [t Ht]. simpl. by rewrite Ht.
Qed.

Lemma date_mask_true start stop r :
  date_mask start stop r = true ↔
  ∃ t, at_col r "Date" = Time t ∧ start ≤ date_of t ≤ stop.
Proof.
  unfold date_mask. destruct (at_col r "Date") as [| |t|].
  - split; [done|]. by intros (? & ? & _).
  - split; [done|]. by intros (? & ? & _).
  - rewrite andb_true_iff, !Z.leb_le. split.
    + intros ?. by exists t.
    + by intros (? & [= <-] & ?).
  - split; [done|]. by intros (? & ? & _).
Qed.

Lemma filter_date_spec df date_range :
  loaded df →
  ∃ out, filter_date df date_range = Ok out ∧ subframe out df
    ∧ ∀ r, r ∈ records out ↔ r ∈ records df ∧ date_ok date_range r.
Proof.
  intros Hdf.
  assert (∃ out, Ok df = Ok out ∧ subframe out df
    ∧ ∀ r, r ∈ records out ↔ r ∈ records df ∧ True) as Hskip.
  { exists df. split; [done|]. split; [apply subframe_refl|]. tauto. }
  unfold filter_date, date_ok.
  destruct date_range as [|start_date [|end_date [|]]]; [done|done| |done].
  destruct (getitem_has df "Date") as [col Hcol].
  { apply loaded_has_column; [done|in_list]. }
  rewrite Hcol. apply getitem_ok in Hcol as [_ ->]. simpl.
  unfold dt_accessor. rewrite loaded_datetime by done. simpl.
  eexists. split; [done|]. split; [apply subframe_mask|].
  intros r. by rewrite elem_of_getitem_mask, date_mask_true.
Qed.

Lemma filter_isin_spec df c selected :
  (selected ≠ [] → has_column df c = true) →
  ∃ out, filter_isin df c selected = Ok out ∧ subframe out df
    ∧ ∀ r, r ∈ records out ↔ r ∈ records df ∧ isin_ok c selected r.
Proof.
  intros Hcol. unfold filter_isin, isin_ok. destruct selected as [|v vs].
  - exists df. split; [done|]. split; [apply subframe_refl|]. tauto.
  - destruct (getitem_has df c) as [col ->]; [by apply Hcol|]. simpl.
    eexists. split; [done|]. split; [apply subframe_mask|].
    intros r. rewrite elem_of_getitem_mask. unfold isin_mask.
    rewrite bool_decide_eq_true. split; [tauto|]. by intros [? [?|?]].
Qed.

Lemma filter_eq_spec df c value :
  has_column df c = true →
  ∃ out, filter_eq df c value = Ok out ∧ subframe out df
    ∧ ∀ r, r ∈ records out ↔ r ∈ records df ∧ eq_ok c value r.
Proof.
  intros Hcol. unfold filter_eq, eq_ok. case_bool_decide as Hall.
  - destruct (getitem_has df c) as [col ->]; [done|]. simpl.
    eexists. split; [done|]. split; [apply subframe_mask|].
    intros r. rewrite elem_of_getitem_mask. unfold eq_mask.
    rewrite bool_decide_eq_true. split; [tauto|]. by intros [? [?|?]].
  - exists df. split; [done|]. split; [apply subframe_refl|].
    intros r. split; [|tauto]. intros ?. split; [done|]. left.
    by destruct (decide (value = "All")).
Qed.

(** ** The whole filter chain *)

Lemma company_selection_column df sel :
  company_selection df sel ≠ [] → has_column df "Company" = true.
Proof. unfold company_selection. by destruct (has_column df "Company"). Qed.

(** The company widget's selection filters as the company dimension asks. *)
Lemma company_selection_ok df sel r :
  isin_ok "Company" (company_selection df sel) r
  ↔ (has_column df "Company" = true → isin_ok "Company" (selected_company sel) r).
Proof.
  unfold company_selection, isin_ok. destruct (has_column df "Company").
  - tauto.
  - split; [done|]. intros _. by left.
Qed.

Lemma filtered_df_spec df sel :
  loaded df →
  ∃ out, filtered_df df sel = Ok out ∧ subframe out df
    ∧ ∀ r, r ∈ records out ↔ r ∈ records df ∧ passes df sel r.
Proof.
  intros Hdf. unfold filtered_df, passes.
  destruct (filter_date_spec df (date_range_sel sel) Hdf) as (d1 & -> & S1 & M1).
  simpl.
  destruct (filter_isin_spec d1 "Job Title" (selected_title sel))
    as (d2 & -> & S2 & M2).
  { intros _. rewrite (subframe_has_column _ _ _ S1).
    apply loaded_has_column; [done|in_list]. }
  simpl. pose proof (subframe_trans _ _ _ S2 S1) as S2'.
  destruct (filter_isin_spec d2 "City" (selected_city sel))
    as (d3 & -> & S3 & M3).
  { intros _. rewrite (subframe_has_column _ _ _ S2').
    apply loaded_has_column; [done|in_list]. }
  simpl. pose proof (subframe_trans _ _ _ S3 S2') as S3'.
  destruct (filter_isin_spec d3 "Company" (company_selection df sel))
    as (d4 & -> & S4 & M4).
  { intros Hsel. rewrite (subframe_has_column _ _ _ S3').
    by apply company_selection_column in Hsel. }
  simpl. pose proof (subframe_trans _ _ _ S4 S3') as S4'.
  destruct (filter_eq_spec d4 "Hired" (hired_filter sel))
    as (d5 & -> & S5 & M5).
  { rewrite (subframe_has_column _ _ _ S4').
    apply loaded_has_column; [done|in_list]. }
  simpl. pose proof (subframe_trans _ _ _ S5 S4') as S5'.
  destruct (filter_eq_spec d5 "Easy Apply" (easy_filter sel))
    as (d6 & -> & S6 & M6).
  { rewrite (subframe_has_column _ _ _ S5').
    apply loaded_has_column; [done|in_list]. }
  exists d6. split; [done|]. split; [by eapply subframe_trans|].
  intros r. rewrite M6, M5, M4, M3, M2, M1, company_selection_ok. tauto.
Qed.

Lemma filter_date_skipped df date_range :
  length date_range ≠ 2%nat → filter_date df date_range = Ok df.
Proof. by destruct date_range as [|? [|? [|]]]. Qed.

Lemma date_ok_skipped date_range r :
  length date_range ≠ 2%nat → date_ok date_range r.
Proof. by destruct date_range as [|? [|? [|]]]. Qed.

(** C10. When the date picker holds anything but two dates, the date filter
    is skipped: it returns the frame as it is, every record passes the date
    dimension whatever its date, and [filtered_df] is what it is with an
    empty date selection. *)
Theorem date_filter_needs_two_endpoints df sel :
  length (date_range_sel sel) ≠ 2%nat →
  filter_date df (date_range_sel sel) = Ok df
  ∧ (∀ r, date_ok (date_range_sel sel) r)
  ∧ filtered_df df sel = filtered_df df (with_dates sel []).
Proof.
  intros Hlen. split; [by apply filter_date_skipped|].
  split; [intros r; by apply date_ok_skipped|].
  unfold filtered_df. simpl. by rewrite filter_date_skipped.
Qed.

(** ** Earliest and latest date *)

Lemma series_min_le col m t :
  series_min col = Some m → Time t ∈ col → m ≤ t.
Proof.
  revert m. induction col as [|c col IH]; intros m Hm Hin.
  - by apply elem_of_nil in Hin.
  - simpl in Hm. apply elem_of_cons in Hin as [<-|Hin].
    + injection Hm as <-. destruct (series_min col); simpl; lia.
    + destruct c as [| |t'|]; try by apply IH.
      injection Hm as <-. destruct (series_min col) as [m'|] eqn:Hm'; simpl.
      * specialize (IH m' eq_refl Hin). lia.
      * exfalso. clear -Hm' Hin.
        induction col as [|c col IH]; [by apply elem_of_nil in Hin|].
        simpl in Hm'. apply elem_of_cons in Hin as [<-|Hin]; [done|].
        destruct c; auto; done.
Qed.

Lemma series_max_ge col m t :
  series_max col = Some m → Time t ∈ col → t ≤ m.
Proof.
  revert m. induction col as [|c col IH]; intros m Hm Hin.
  - by apply elem_of_nil in Hin.
  - simpl in Hm. apply elem_of_cons in Hin as [<-|Hin].
    + injection Hm as <-. destruct (series_max col); simpl; lia.
    + destruct c as [| |t'|]; try by apply IH.
      injection Hm as <-. destruct (series_max col) as [m'|] eqn:Hm'; simpl.
      * specialize (IH m' eq_refl Hin). lia.
      * exfalso. clear -Hm' Hin.
        induction col as [|c col IH]; [by apply elem_of_nil in Hin|].
        simpl in Hm'. apply elem_of_cons in Hin as [<-|Hin]; [done|].
        destruct c; auto; done.
Qed.


Lemma filter_date_two df start_date end_date :
  loaded df →
  filter_date df [start_date; end_date]
  = Ok (getitem_mask df (date_mask start_date end_date)).
Proof.
  intros Hdf. unfold filter_date.
  destruct (getitem_has df "Date") as [col Hcol].
  { apply loaded_has_column; [done|in_list]. }
  rewrite Hcol. apply getitem_ok in Hcol as [_ ->]. simpl.
  unfold dt_accessor. by rewrite loaded_datetime.
Qed.



Lemma series_min_some col t : Time t ∈ col → is_Some (series_min col).
Proof.
  induction col as [|c col IH]; intros Hin; [by apply elem_of_nil in Hin|].
  apply elem_of_cons in Hin as [<-|Hin]; [by eexists|].
  simpl. destruct c; (by eexists) || by apply IH.
Qed.

Lemma series_max_some col t : Time t ∈ col → is_Some (series_max col).
Proof.
  induction col as [|c col IH]; intros Hin; [by apply elem_of_nil in Hin|].
  apply elem_of_cons in Hin as [<-|Hin]; [by eexists|].
  simpl. destruct c; (by eexists) || by apply IH.
Qed.




(** ** Counting *)

Lemma value_counts_cons x col :
  x ≠ NaN →
  value_counts (x :: col)
  = <[x := S (default 0%nat (value_counts col !! x))]> (value_counts col).
Proof. by destruct x. Qed.

Lemma value_counts_nan col : value_counts col !! NaN = None.
Proof.
  induction col as [|x col IH]; [done|].
  destruct (decide (x = NaN)) as [->|Hx]; [done|].
  rewrite value_counts_cons by done. by rewrite lookup_insert_ne.
Qed.

Lemma value_counts_lookup col c :
  c ≠ NaN →
  value_counts col !! c
  = match length (filter (λ x, x = c) col) with
    | O => None
    | n => Some n
    end.
Proof.
  intros Hc. induction col as [|x col IH]; [done|].
  destruct (decide (x = c)) as [->|Hxc].
  - rewrite value_counts_cons by done. rewrite lookup_insert_eq.
    rewrite filter_cons_True by done. simpl. rewrite IH.
    by destruct (length (filter (λ x, x = c) col)).
  - rewrite filter_cons_False by done.
    destruct (decide (x = NaN)) as [->|Hx]; [done|].
    rewrite value_counts_cons by done. by rewrite lookup_insert_ne.
Qed.

Lemma counts_sum_insert (m : gmap cell nat) x n :
  counts_sum (<[x := n]> m) = (n + counts_sum (delete x m))%nat.
Proof.
  unfold counts_sum. rewrite <- insert_delete_eq.
  rewrite map_fold_insert_L; [done| |apply lookup_delete_eq].
  intros. lia.
Qed.

Lemma counts_sum_bump (m : gmap cell nat) x :
  counts_sum (<[x := S (default 0%nat (m !! x))]> m) = S (counts_sum m).
Proof.
  rewrite counts_sum_insert. destruct (m !! x) as [n|] eqn:Hx; simpl.
  - rewrite <- (insert_delete_id m x n Hx) at 2. rewrite counts_sum_insert.
    by rewrite delete_delete_eq.
  - by rewrite delete_id.
Qed.

Lemma counts_sum_value_counts col :
  counts_sum (value_counts col) = length (filter (λ x, x ≠ NaN) col).
Proof.
  induction col as [|x col IH]; [done|].
  destruct (decide (x = NaN)) as [->|Hx].
  - by rewrite filter_cons_False by (by intros H).
  - rewrite value_counts_cons, filter_cons_True by done.
    rewrite counts_sum_bump. simpl. by rewrite IH.
Qed.

Lemma length_filter_fmap {A B} (f : A → B) (P : B → Prop)
    `{!∀ b, Decision (P b)} (l : list A) :
  length (filter P (f <$> l)) = length (filter (λ a, P (f a)) l).
Proof.
  induction l as [|a l IH]; [done|]. rewrite fmap_cons.
  destruct (decide (P (f a))).
  - rewrite !filter_cons_True by done. simpl. by rewrite IH.
  - by rewrite !filter_cons_False.
Qed.

Lemma filter_all {A} (P : A → Prop) `{!∀ a, Decision (P a)} (l : list A) :
  (∀ a, a ∈ l → P a) → filter P l = l.
Proof.
  induction l as [|a l IH]; intros Hall; [done|].
  rewrite filter_cons_True by (apply Hall; left). f_equal. apply IH.
  intros b Hb. apply Hall. by right.
Qed.

(** ** Rates *)

Lemma Q_of_nat_le n m : (n ≤ m)%nat → (Q_of_nat n <= Q_of_nat m)%Q.
Proof. intros H. unfold Q_of_nat. rewrite <- Zle_Qle. lia. Qed.

Lemma Q_of_nat_pos n : (0 < n)%nat → (0 < Q_of_nat n)%Q.
Proof. intros H. unfold Q_of_nat. rewrite <- (Zlt_Qlt 0). lia. Qed.

Lemma pct_zero total : (pct 0 total == 0)%Q.
Proof.
  destruct total; [reflexivity|]. unfold pct, Q_of_nat at 1. simpl inject_Z at 1.
  unfold Qdiv. by rewrite !Qmult_0_l.
Qed.

Lemma pct_bounds count total :
  (count ≤ total)%nat → (0 <= pct count total)%Q ∧ (pct count total <= 100)%Q.
Proof.
  intros Hle. destruct total as [|total]; [by split|].
  unfold pct.
  assert (0 < Q_of_nat (S total))%Q as Hpos by (apply Q_of_nat_pos; lia).
  assert (0 <= Q_of_nat count / Q_of_nat (S total))%Q as H0.
  { apply Qle_shift_div_l; [done|]. rewrite Qmult_0_l.
    change 0%Q with (Q_of_nat 0). apply Q_of_nat_le. lia. }
  assert (Q_of_nat count / Q_of_nat (S total) <= 1)%Q as H1.
  { apply Qle_shift_div_r; [done|]. rewrite Qmult_1_l. by apply Q_of_nat_le. }
  split; lra.
Qed.

Lemma count_eq_le df c v : (count_eq df c v ≤ len df)%nat.
Proof. apply length_filter. Qed.

Lemma yes_pct_spec df c :
  has_column df c = true →
  (∀ r, r ∈ records df → ∃ s, at_col r c = Str s) →
  ∃ q, yes_pct df c = Ok q ∧ (q == pct (count_eq df c (Str "Yes")) (len df))%Q.
Proof.
  intros Hcol Htext. unfold yes_pct.
  destruct (getitem_has df c Hcol) as [col Hget]. rewrite Hget.
  apply getitem_ok in Hget as [_ ->]. simpl. eexists. split; [done|].
  unfold series_get, value_counts_normalize. rewrite lookup_fmap.
  rewrite value_counts_lookup by done. rewrite counts_sum_value_counts.
  rewrite !length_filter_fmap. fold (count_eq df c (Str "Yes")).
  rewrite filter_all.
  2:{ intros r Hr. destruct (Htext r Hr) as [s ->]. done. }
  fold (len df).
  pose proof (count_eq_le df c (Str "Yes")) as Hle.
  destruct (count_eq df c (Str "Yes")) as [|n]; simpl.
  - rewrite pct_zero. by rewrite Qmult_0_l.
  - unfold pct. destruct (len df); [lia|]. reflexivity.
Qed.

(** ** Jobs per day *)

Lemma py_max_1_max x : py_max_1 x = Z.max 1 (default 0 x).
Proof.
  destruct x as [d|]; simpl; [|done].
  destruct (Z.ltb_spec 1 d); lia.
Qed.

Lemma py_truediv_ok n d :
  1 ≤ d → py_truediv n d = Ok (inject_Z n / inject_Z d)%Q.
Proof.
  intros Hd. unfold py_truediv. destruct (Z.eqb_spec d 0); [lia|done].
Qed.

Lemma series_min_in col m : series_min col = Some m → Time m ∈ col.
Proof.
  revert m. induction col as [|c col IH]; intros m Hm; [done|].
  simpl in Hm. destruct c as [| |t|]; try (right; by apply IH).
  injection Hm as <-. destruct (series_min col) as [m'|]; simpl; [|left].
  destruct (Z.min_spec t m') as [[_ ->]|[_ ->]]; [left|right; by apply IH].
Qed.

Lemma series_max_in col m : series_max col = Some m → Time m ∈ col.
Proof.
  revert m. induction col as [|c col IH]; intros m Hm; [done|].
  simpl in Hm. destruct c as [| |t|]; try (right; by apply IH).
  injection Hm as <-. destruct (series_max col) as [m'|]; simpl; [|left].
  destruct (Z.max_spec t m') as [[_ ->]|[_ ->]]; [right; by apply IH|left].
Qed.

Lemma same_day_close a b :
  a ≤ b → date_of a = date_of b → 0 ≤ b - a < ns_per_day.
Proof.
  unfold date_of, ns_per_day. intros Hab Hday.
  pose proof (Z.div_mod a (86400 * 1000000000) ltac:(lia)) as Ha.
  pose proof (Z.div_mod b (86400 * 1000000000) ltac:(lia)) as Hb.
  pose proof (Z.mod_pos_bound a (86400 * 1000000000) ltac:(lia)) as Ha'.
  pose proof (Z.mod_pos_bound b (86400 * 1000000000) ltac:(lia)) as Hb'.
  rewrite Hday in Ha. lia.
Qed.

Lemma series_min_earliest df lo :
  series_min ((λ r, at_col r "Date") <$> records df) = Some lo → earliest df lo.
Proof.
  intros Hmin. split.
  - apply series_min_in, list_elem_of_fmap in Hmin as (r & Hr & Hin). eauto.
  - intros r u Hr Hu. eapply series_min_le; [done|].
    apply list_elem_of_fmap. exists r. by rewrite Hu.
Qed.

Lemma series_max_latest df hi :
  series_max ((λ r, at_col r "Date") <$> records df) = Some hi → latest df hi.
Proof.
  intros Hmax. split.
  - apply series_max_in, list_elem_of_fmap in Hmax as (r & Hr & Hin). eauto.
  - intros r u Hr Hu. eapply series_max_ge; [done|].
    apply list_elem_of_fmap. exists r. by rewrite Hu.
Qed.

Lemma in_bounds_difference lo hi :
  lo ≤ hi → in_bounds (hi - lo) = bool_decide (hi - lo ≤ timestamp_max).
Proof.
  intros Hle. unfold in_bounds.
  rewrite (proj2 (Z.leb_le timestamp_min (hi - lo)))
    by (unfold timestamp_min; lia).
  simpl. case_bool_decide; [by apply Z.leb_le|by apply Z.leb_gt; lia].
Qed.

(** Line 251 on a frame without records: [NaT - NaT] is [NaT], its days
    are [nan], and [max(1, nan)] is 1. *)
Lemma avg_jobs_per_day_empty df :
  has_column df "Date" = true → records df = [] →
  avg_jobs_per_day df = Ok (inject_Z 0 / inject_Z 1)%Q.
Proof.
  intros Hcol Hnil. unfold avg_jobs_per_day.
  destruct (getitem_has df "Date" Hcol) as [col Hget]. rewrite Hget.
  apply getitem_ok in Hget as [_ ->]. unfold len. rewrite Hnil. done.
Qed.

(** Line 251 on a frame with records: the earliest and the latest timestamp
    are subtracted, which raises when they are too far apart, and the
    records are divided by the whole days between them, or by 1. *)
Lemma avg_jobs_per_day_spec df :
  loaded df → records df ≠ [] →
  ∃ lo hi, earliest df lo ∧ latest df hi ∧ lo ≤ hi
    ∧ avg_jobs_per_day df
      = if bool_decide (hi - lo ≤ timestamp_max)
        then Ok (Q_of_nat (len df) / inject_Z (Z.max 1 ((hi - lo) / ns_per_day)))%Q
        else Raise OutOfBoundsDatetime.
Proof.
  intros Hdf Hne. unfold avg_jobs_per_day.
  destruct (getitem_has df "Date") as [col Hget].
  { apply loaded_has_column; [done|in_list]. }
  rewrite Hget. apply getitem_ok in Hget as [_ ->]. simpl.
  destruct (records df) as [|r rs] eqn:Hrs; [done|].
  destruct (loaded_date df Hdf r) as [t Ht]; [rewrite Hrs; left|].
  assert (Time t ∈ (λ r, at_col r "Date") <$> r :: rs) as Hin.
  { rewrite fmap_cons, Ht. left. }
  destruct (series_min_some _ _ Hin) as [lo Hlo].
  destruct (series_max_some _ _ Hin) as [hi Hhi].
  rewrite <- Hrs in *. rewrite Hlo, Hhi.
  assert (lo ≤ hi) as Hle.
  { eapply series_min_le; [done|]. by apply series_max_in. }
  exists lo, hi. split; [by apply series_min_earliest|].
  split; [by apply series_max_latest|]. split; [done|].
  unfold timedelta_days. rewrite in_bounds_difference by done.
  case_bool_decide; [|done]. cbn [mbind result_bind].
  rewrite py_max_1_max. cbn [default]. by rewrite py_truediv_ok by lia.
Qed.

(** ** Day of the week *)


(** ** The dashboard: load, filter, aggregate *)

Section Dashboard.

Context (parse_datetime : cell → option Z) (repr : cell → string).
Context (str_accessor_ok : list cell → bool) (rng : nat → nat → nat).

Local Abbreviation load_data' := (load_data parse_datetime repr str_accessor_ok rng).

Lemma filtered_loaded read_excel msgs df sel out :
  load_data' read_excel = Ok (msgs, df) → filtered_df df sel = Ok out →
  loaded out.
Proof.
  intros Hdf%load_data_loaded Hout.
  destruct (filtered_df_spec df sel Hdf) as (out' & Hout' & Hsub & _).
  rewrite Hout in Hout'. injection Hout' as <-. by eapply subframe_loaded.
Qed.



(** C3. On every filtered frame both rates are computed without error and
    equal count("Yes") / total * 100, read as 0 when the total is 0; both
    lie between 0 and 100, and both are 0 on the empty frame. *)
Theorem rates_spec read_excel msgs df sel out :
  load_data' read_excel = Ok (msgs, df) → filtered_df df sel = Ok out →
  ∃ h e, hired_pct out = Ok h ∧ easy_pct out = Ok e
    ∧ (h == pct (count_eq out "Hired" (Str "Yes")) (len out))%Q
    ∧ (e == pct (count_eq out "Easy Apply" (Str "Yes")) (len out))%Q
    ∧ (0 <= h)%Q ∧ (h <= 100)%Q ∧ (0 <= e)%Q ∧ (e <= 100)%Q
    ∧ (len out = 0%nat → (h == 0)%Q ∧ (e == 0)%Q).
Proof.
  intros Hdf Hout. pose proof (filtered_loaded _ _ _ _ _ Hdf Hout) as Hl.
  destruct (yes_pct_spec out "Hired") as (h & Hh & Hhq).
  { apply loaded_has_column; [done|in_list]. }
  { apply Hl. }
  destruct (yes_pct_spec out "Easy Apply") as (e & He & Heq).
  { apply loaded_has_column; [done|in_list]. }
  { apply Hl. }
  exists h, e. split; [done|]. split; [done|]. split; [done|]. split; [done|].
  destruct (pct_bounds _ _ (count_eq_le out "Hired" (Str "Yes"))) as [Hh0 Hh1].
  destruct (pct_bounds _ _ (count_eq_le out "Easy Apply" (Str "Yes"))) as [He0 He1].
  rewrite Hhq, Heq. repeat (split; [done|]).
  intros ->. by split.
Qed.


(** C7, as the code has it. On every filtered frame the jobs-per-day
    figure never raises a division error.  Without records it is 0.  With
    records, the earliest and the latest timestamp are subtracted: when
    they are no further apart than a [Timedelta] can hold, the figure is
    the number of records over max(1, whole days between the two), a
    divisor of at least 1; when they are further apart the subtraction
    raises [OutOfBoundsDatetime].  For records all posted on one day the
    figure is the number of records. *)
Theorem avg_jobs_per_day_safe read_excel msgs df sel out :
  load_data' read_excel = Ok (msgs, df) → filtered_df df sel = Ok out →
  avg_jobs_per_day out ≠ Raise ZeroDivisionError
  ∧ (records out = [] → ∃ q, avg_jobs_per_day out = Ok q ∧ (q == 0)%Q)
  ∧ (records out ≠ [] →
     ∃ lo hi, earliest out lo ∧ latest out hi ∧ lo ≤ hi
       ∧ 1 ≤ Z.max 1 ((hi - lo) / ns_per_day)
       ∧ (hi - lo ≤ timestamp_max →
          ∃ q, avg_jobs_per_day out = Ok q
            ∧ (q == Q_of_nat (len out)
                    / inject_Z (Z.max 1 ((hi - lo) / ns_per_day)))%Q)
       ∧ (timestamp_max < hi - lo →
          avg_jobs_per_day out = Raise OutOfBoundsDatetime))
  ∧ (∀ d, (∀ r, r ∈ records out →
             ∃ t, at_col r "Date" = Time t ∧ date_of t = d) →
          ∃ q, avg_jobs_per_day out = Ok q ∧ (q == Q_of_nat (len out))%Q).
Proof.
  intros Hdf Hout. pose proof (filtered_loaded _ _ _ _ _ Hdf Hout) as Hl.
  assert (has_column out "Date" = true) as Hcol
    by (apply loaded_has_column; [done|in_list]).
  assert (records out = [] → ∃ q, avg_jobs_per_day out = Ok q ∧ (q == 0)%Q)
    as Hempty.
  { intros Hnil. rewrite avg_jobs_per_day_empty by done.
    eexists. split; [done|]. reflexivity. }
  split; [|split; [done|split]].
  - destruct (records out) as [|r rs] eqn:Hrs.
    + destruct (Hempty eq_refl) as (q & -> & _). done.
    + destruct (avg_jobs_per_day_spec out Hl) as (lo & hi & _ & _ & _ & ->);
        [by rewrite Hrs|]. by case_bool_decide.
  - intros Hne.
    destruct (avg_jobs_per_day_spec out Hl Hne) as (lo & hi & Hlo & Hhi & Hle & ->).
    exists lo, hi. repeat (split; [done|]). split; [lia|]. split.
    + intros Hfit. rewrite bool_decide_eq_true_2 by done.
      eexists. split; [done|]. reflexivity.
    + intros Hfar. by rewrite bool_decide_eq_false_2 by lia.
  - intros d Hday. destruct (records out) as [|r0 rs] eqn:Hrs.
    { destruct (Hempty eq_refl) as (q & Hq & Hq0). exists q. split; [done|].
      rewrite Hq0. unfold len. by rewrite Hrs. }
    destruct (avg_jobs_per_day_spec out Hl) as (lo & hi & Hlo & Hhi & Hle & ->);
      [by rewrite Hrs|].
    destruct Hlo as [(r1 & Hr1 & Ht1) _]. destruct Hhi as [(r2 & Hr2 & Ht2) _].
    rewrite <- Hrs in Hday.
    destruct (Hday r1 Hr1) as (t1 & Ht1' & Hd1).
    destruct (Hday r2 Hr2) as (t2 & Ht2' & Hd2).
    rewrite Ht1 in Ht1'. injection Ht1' as <-.
    rewrite Ht2 in Ht2'. injection Ht2' as <-.
    pose proof (same_day_close lo hi Hle ltac:(congruence)) as Hclose.
    rewrite bool_decide_eq_true_2
      by (revert Hclose; unfold ns_per_day, timestamp_max; lia).
    rewrite Z.div_small by done. change (Z.max 1 0) with 1.
    eexists. split; [done|]. unfold Qdiv.
    change (/ inject_Z 1)%Q with 1%Q. by rewrite Qmult_1_r.
Qed.

End Dashboard.

(** ** The workbook, run through the dashboard *)

Lemma load_workbook :
  load_data parse_none repr_blank str_ok_text rng_zero read_workbook
  = Ok ([], workbook_loaded).
Proof. vm_compute. reflexivity. Qed.

Example filter_workbook : filtered_df workbook_loaded picked = Ok workbook_picked.
Proof. vm_compute. reflexivity. Qed.


Example hired_pct_workbook : hired_pct workbook_loaded = Ok (100 # 2).
Proof. vm_compute. reflexivity. Qed.

Example avg_jobs_per_day_workbook : avg_jobs_per_day workbook_loaded = Ok (2 # 1).
Proof. vm_compute. reflexivity. Qed.

(** The row of the workbook dated 2300-01-01 is dropped with the rows that
    have no date or no job title. *)
Example late_date_is_dropped :
  labels (filter (survives parse_none workbook) (records workbook)) = [0; 2]%nat.
Proof. vm_compute. reflexivity. Qed.

Lemma load_staffed :
  load_data parse_none repr_blank str_ok_text rng_zero read_staffed
  = Ok ([], staffed_loaded).
Proof. vm_compute. reflexivity. Qed.

(** The company filter at work: the record of the other company goes. *)
Example filter_staffed : filtered_df staffed_loaded google_only = Ok staffed_google.
Proof. vm_compute. reflexivity. Qed.

Lemma load_archive :
  load_data parse_none repr_blank str_ok_text rng_zero read_archive
  = Ok ([], archive_loaded).
Proof. vm_compute. reflexivity. Qed.

Lemma filter_archive_all :
  filtered_df archive_loaded (select_all (-7305) 102268) = Ok archive_loaded.
Proof. vm_compute. reflexivity. Qed.

Example load_nothing :
  load_data parse_none repr_blank str_ok_text rng_zero read_nothing
  = Ok ([Warning not_found_warning], create_sample_data rng_zero).
Proof. reflexivity. Qed.

Example load_broken :
  load_data parse_none repr_blank str_ok_text rng_zero read_broken
  = Ok ([Error (load_error (OtherError "File is not a zip file"))],
        create_sample_data rng_zero).
Proof. reflexivity. Qed.

(** ** The theorems at the workbook *)



Lemma rates_workbook :
  ∃ h e, hired_pct workbook_picked = Ok h ∧ easy_pct workbook_picked = Ok e
    ∧ (h == pct (count_eq workbook_picked "Hired" (Str "Yes")) (len workbook_picked))%Q
    ∧ (e == pct (count_eq workbook_picked "Easy Apply" (Str "Yes"))
                (len workbook_picked))%Q
    ∧ (0 <= h)%Q ∧ (h <= 100)%Q ∧ (0 <= e)%Q ∧ (e <= 100)%Q
    ∧ (len workbook_picked = 0%nat → (h == 0)%Q ∧ (e == 0)%Q).
Proof.
  apply (rates_spec parse_none repr_blank str_ok_text rng_zero
           read_workbook [] workbook_loaded picked workbook_picked).
  - vm_compute. reflexivity.
  - vm_compute. reflexivity.
Defined.


Lemma avg_jobs_per_day_workbook_picked :
  avg_jobs_per_day workbook_picked ≠ Raise ZeroDivisionError
  ∧ (records workbook_picked = [] →
     ∃ q, avg_jobs_per_day workbook_picked = Ok q ∧ (q == 0)%Q)
  ∧ (records workbook_picked ≠ [] →
     ∃ lo hi, earliest workbook_picked lo ∧ latest workbook_picked hi ∧ lo ≤ hi
       ∧ 1 ≤ Z.max 1 ((hi - lo) / ns_per_day)
       ∧ (hi - lo ≤ timestamp_max →
          ∃ q, avg_jobs_per_day workbook_picked = Ok q
            ∧ (q == Q_of_nat (len workbook_picked)
                    / inject_Z (Z.max 1 ((hi - lo) / ns_per_day)))%Q)
       ∧ (timestamp_max < hi - lo →
          avg_jobs_per_day workbook_picked = Raise OutOfBoundsDatetime))
  ∧ (∀ d, (∀ r, r ∈ records workbook_picked →
             ∃ t, at_col r "Date" = Time t ∧ date_of t = d) →
          ∃ q, avg_jobs_per_day workbook_picked = Ok q
            ∧ (q == Q_of_nat (len workbook_picked))%Q).
Proof.
  apply (avg_jobs_per_day_safe parse_none repr_blank str_ok_text rng_zero
           read_workbook [] workbook_loaded picked workbook_picked).
  - vm_compute. reflexivity.
  - vm_compute. reflexivity.
Defined.

Lemma load_workbook_rows_valid :
  (∀ r, r ∈ records workbook_loaded →
     (∃ t, at_col r "Date" = Time t ∧ timestamp_min ≤ t ≤ timestamp_max)
     ∧ (∃ s, at_col r "Job Title" = Str s))
  ∧ (∀ raw,
       try_files read_workbook possible_files = Ok (Some raw) → @nil message = [] →
       labels (records workbook_loaded)
       = labels (filter (survives parse_none raw) (records raw))
       ∧ ∀ r', r' ∈ records workbook_loaded →
           ∃ r t, r ∈ records raw ∧ r'.1 = r.1
                  ∧ survives parse_none raw r
                  ∧ reads_as parse_none (at_col r "Date") t
                  ∧ at_col r' "Date" = Time t).
Proof.
  apply (load_data_rows_valid parse_none repr_blank str_ok_text rng_zero
           read_workbook [] workbook_loaded).
  vm_compute. reflexivity.
Defined.

Lemma load_staffed_flags_and_title :
  ∃ r, r ∈ records staffed_workbook ∧ google_row.1 = r.1
    ∧ flag_kept repr_blank staffed_workbook "Hired" r google_row
    ∧ flag_kept repr_blank staffed_workbook "Easy Apply" r google_row
    ∧ (∃ s, at_col google_row "Hired" = Str s)
    ∧ (∃ s, at_col google_row "Easy Apply" = Str s)
    ∧ (has_column staffed_workbook "Job Title" = false →
         at_col google_row "Job Title" = Str "Data Analyst")
    ∧ (has_column staffed_workbook "Job Title" = true →
         ∃ s t, at_col r "Job Title" = Str s
                ∧ at_col google_row "Job Title" = Str t
                ∧ trimmed_of s t).
Proof.
  apply (load_data_flags_and_title parse_none repr_blank str_ok_text rng_zero
           read_staffed staffed_workbook staffed_loaded).
  - reflexivity.
  - vm_compute. reflexivity.
  - left.
Defined.

Lemma half_picked_skips_dates :
  filter_date workbook_loaded (date_range_sel half_picked) = Ok workbook_loaded
  ∧ (∀ r, date_ok (date_range_sel half_picked) r)
  ∧ filtered_df workbook_loaded half_picked
    = filtered_df workbook_loaded (with_dates half_picked []).
Proof.
  apply (date_filter_needs_two_endpoints workbook_loaded half_picked).
  vm_compute. discriminate.
Defined.

Lemma load_broken_falls_back :
  load_data parse_none repr_blank str_ok_text rng_zero read_broken
  = Ok ([Error (load_error (OtherError "File is not a zip file"))],
        create_sample_data rng_zero).
Proof.
  apply (proj1 (proj2 (proj2
    (load_data_never_raises parse_none repr_blank str_ok_text rng_zero read_broken)))
    ["DataAnalystjobs2023.xlsx"] "dataanalystjobs2023.xlsx"
    ["data_analyst_jobs_2023.xlsx"; "DataAnalystJobs2023.xlsx"]).
  - reflexivity.
  - intros g Hg. apply list_elem_of_singleton in Hg as ->. reflexivity.
  - reflexivity.
  - discriminate.
Defined.

(** ** Where the code departs from the claims *)

(** C4: a job title of white space only is trimmed to the empty text, which
    is not a missing value, so [dropna] keeps the record. *)
Lemma empty_title_is_kept :
  ∃ df r, load_data parse_none repr_blank str_ok_text rng_zero read_workbook
          = Ok ([], df)
    ∧ r ∈ records df
    ∧ at_col r "Date" = Time (datetime_2023_01_01 + ns_per_day)
    ∧ at_col r "Job Title" = Str "".
Proof.
  exists workbook_loaded. eexists. split; [apply load_workbook|].
  split; [right; left|]. split; reflexivity.
Qed.

(** C6: [astype(str)] keeps a text that is neither "Yes" nor "No", and
    turns a missing cell into "nan". *)
Lemma flags_are_not_coerced :
  ∃ df r, load_data parse_none repr_blank str_ok_text rng_zero read_workbook
          = Ok ([], df)
    ∧ r ∈ records df
    ∧ at_col r "Hired" = Str "Maybe"
    ∧ at_col r "Easy Apply" = Str "nan".
Proof.
  exists workbook_loaded. eexists. split; [apply load_workbook|].
  split; [right; left|]. split; reflexivity.
Qed.

(** C7: two postings three centuries apart are both kept by the loader and
    by the filter, and the jobs-per-day figure is not computed: the
    subtraction of the two timestamps raises. *)
Lemma distant_dates_raise :
  ∃ df out, load_data parse_none repr_blank str_ok_text rng_zero read_archive
            = Ok ([], df)
    ∧ filtered_df df (select_all (-7305) 102268) = Ok out
    ∧ len out = 2%nat
    ∧ avg_jobs_per_day out = Raise OutOfBoundsDatetime.
Proof.
  exists archive_loaded, archive_loaded. split; [apply load_archive|].
  split; [apply filter_archive_all|]. split; [reflexivity|].
  vm_compute. reflexivity.
Qed.


(** * The rest of the dashboard *)

(** ** The sample frame *)

Lemma nth_fmap_seq {A} (f : nat → A) n i d :
  (i < n)%nat → nth i (f <$> seq 0 n) d = f i.
Proof.
  intros Hi. rewrite nth_lookup, list_lookup_fmap.
  by rewrite lookup_seq_lt.
Qed.

Lemma nth_elem_of {A} (l : list A) i d : (i < length l)%nat → nth i l d ∈ l.
Proof.
  intros Hi. rewrite nth_lookup.
  destruct (lookup_lt_is_Some_2 l i Hi) as [x Hx]. rewrite Hx. simpl.
  by eapply list_elem_of_lookup_2.
Qed.

Section Sample.

Context (rng : nat → nat → nat).

Local Abbreviation sample := (create_sample_data rng).

Lemma choice_elem_of k options n i :
  options ≠ [] → (i < n)%nat → nth i (choice rng k options n) "" ∈ options.
Proof.
  intros Hne Hi. unfold choice. rewrite nth_fmap_seq by done.
  apply nth_elem_of. apply Nat.mod_upper_bound. by destruct options.
Qed.

Lemma randint_bounds k low high n i :
  low < high → (i < n)%nat →
  low ≤ nth i (randint rng k low high n) 0 < high.
Proof.
  intros Hlh Hi. unfold randint. rewrite nth_fmap_seq by done.
  pose proof (Z.mod_pos_bound (Z.of_nat (rng k i)) (high - low)). lia.
Qed.

Lemma date_range_nth start stop n i :
  (i < n)%nat →
  nth i (date_range start stop n) 0
  = start + Z.of_nat i * (stop - start) / (Z.of_nat n - 1).
Proof. intros Hi. unfold date_range. by rewrite nth_fmap_seq. Qed.

Lemma sample_records :
  records sample
  = (λ i, sample_row i
            (nth i (choice rng 0 job_titles n_jobs) "")
            (nth i (choice rng 1 companies n_jobs) "")
            (nth i (choice rng 2 cities n_jobs) "")
            (nth i (imap (λ i c, c +:+ ", " +:+
                                 nth (rng (4 + i) 0 mod 5)%nat sample_states "")
                         (choice rng 3 cities n_jobs)) "")
            (nth i (date_range datetime_2023_01_01 datetime_2023_12_31 n_jobs) 0)
            (nth i (choice rng (4 + n_jobs) ["Yes"; "No"] n_jobs) "")
            (nth i (choice rng (5 + n_jobs) ["Yes"; "No"] n_jobs) "")
            (nth i (randint rng (6 + n_jobs) 50000 120000 n_jobs) 0)
            (nth i (randint rng (7 + n_jobs) 70000 150000 n_jobs) 0))
    <$> seq 0 n_jobs.
Proof. reflexivity. Qed.

Lemma location_nth i :
  (i < n_jobs)%nat →
  nth i (imap (λ i c, c +:+ ", " +:+ nth (rng (4 + i) 0 mod 5)%nat sample_states "")
              (choice rng 3 cities n_jobs)) ""
  = nth i (choice rng 3 cities n_jobs) "" +:+ ", "
    +:+ nth (rng (4 + i) 0 mod 5)%nat sample_states "".
Proof.
  intros Hi. rewrite (nth_lookup (imap _ _)), list_lookup_imap.
  rewrite (nth_lookup (choice _ _ _ _)).
  unfold choice. rewrite list_lookup_fmap, lookup_seq_lt by done. done.
Qed.

Lemma sample_not_empty : empty sample = false.
Proof. unfold empty. rewrite sample_records. done. Qed.

(** X1. The sample has [n_jobs] = 1000 records, labelled 0 to 999 in this
    order, under the nine columns of the source, and it is not empty. *)
Theorem sample_shape :
  len sample = 1000%nat
  ∧ labels (records sample) = seq 0 1000
  ∧ columns sample
    = [ "Job Title"; "Company"; "City"; "Job Location"; "Date"; "Hired";
        "Easy Apply"; "Salary_Min"; "Salary_Max" ]
  ∧ empty sample = false.
Proof.
  assert (labels (records sample) = seq 0 n_jobs) as Hlabels.
  { unfold labels. rewrite sample_records, <- list_fmap_compose.
    apply list_fmap_id. }
  split; [|split; [done|split; [done|]]].
  - unfold len. rewrite sample_records, length_fmap. apply length_seq.
  - unfold empty. rewrite sample_records. done.
Qed.

Lemma sample_record_at r :
  r ∈ records sample →
  ∃ i, (i < n_jobs)%nat ∧ records sample !! i = Some r ∧ r.1 = i.
Proof.
  rewrite sample_records. intros (i & -> & Hi)%list_elem_of_fmap.
  apply elem_of_seq in Hi. exists i. split; [lia|]. split; [|done].
  rewrite list_lookup_fmap, lookup_seq_lt by lia. done.
Qed.

(** X2. Whatever the generator draws, every record of the sample has a job
    title, a company and a city from the three vocabularies, a job location
    made of a city of the vocabulary, a comma and a blank, and one of the
    five state codes, hired and easy-apply flags that are "Yes" or "No", a
    minimum salary from 50000 up to 119999 and a maximum salary from 70000
    up to 149999. *)
Theorem sample_values r :
  r ∈ records sample →
  (∃ s, at_col r "Job Title" = Str s ∧ s ∈ job_titles)
  ∧ (∃ s, at_col r "Company" = Str s ∧ s ∈ companies)
  ∧ (∃ s, at_col r "City" = Str s ∧ s ∈ cities)
  ∧ (∃ c st, at_col r "Job Location" = Str (c +:+ ", " +:+ st)
       ∧ c ∈ cities ∧ st ∈ sample_states)
  ∧ (at_col r "Hired" = Str "Yes" ∨ at_col r "Hired" = Str "No")
  ∧ (at_col r "Easy Apply" = Str "Yes" ∨ at_col r "Easy Apply" = Str "No")
  ∧ (∃ z, at_col r "Salary_Min" = Int z ∧ 50000 ≤ z < 120000)
  ∧ (∃ z, at_col r "Salary_Max" = Int z ∧ 70000 ≤ z < 150000).
Proof.
  rewrite sample_records. intros (i & -> & Hi)%list_elem_of_fmap.
  apply elem_of_seq in Hi. assert (i < n_jobs)%nat as Hlt by lia.
  unfold sample_row.
  repeat split.
  - eexists. split; [apply at_col_insert_eq|]. by apply choice_elem_of.
  - eexists. rewrite !at_col_insert_ne by done.
    split; [apply at_col_insert_eq|]. by apply choice_elem_of.
  - eexists. rewrite !at_col_insert_ne by done.
    split; [apply at_col_insert_eq|]. by apply choice_elem_of.
  - eexists _, _. rewrite !at_col_insert_ne by done. rewrite at_col_insert_eq.
    rewrite location_nth by done. split; [done|]. split.
    + by apply choice_elem_of.
    + apply nth_elem_of. by apply Nat.mod_upper_bound.
  - rewrite !at_col_insert_ne by done. rewrite at_col_insert_eq.
    pose proof (choice_elem_of (4 + n_jobs) ["Yes"; "No"] n_jobs i
                  ltac:(done) Hlt) as Hin.
    apply elem_of_cons in Hin as [->|Hin]; [by left|].
    apply list_elem_of_singleton in Hin as ->. by right.
  - rewrite !at_col_insert_ne by done. rewrite at_col_insert_eq.
    pose proof (choice_elem_of (5 + n_jobs) ["Yes"; "No"] n_jobs i
                  ltac:(done) Hlt) as Hin.
    apply elem_of_cons in Hin as [->|Hin]; [by left|].
    apply list_elem_of_singleton in Hin as ->. by right.
  - eexists. rewrite !at_col_insert_ne by done.
    split; [apply at_col_insert_eq|]. by apply randint_bounds.
  - eexists. rewrite !at_col_insert_ne by done.
    split; [apply at_col_insert_eq|]. by apply randint_bounds.
Qed.

Lemma sample_date_at i :
  (i < n_jobs)%nat →
  ∃ r, records sample !! i = Some r ∧ r.1 = i
    ∧ at_col r "Date"
      = Time (datetime_2023_01_01 + Z.of_nat i * (364 * ns_per_day) / 999).
Proof.
  intros Hi. rewrite sample_records. eexists.
  rewrite list_lookup_fmap, lookup_seq_lt by done. split; [done|].
  split; [done|]. unfold sample_row.
  rewrite !at_col_insert_ne by done. rewrite at_col_insert_eq.
  by rewrite date_range_nth.
Qed.

(** X3. The dates of the sample run through 2023 in record order: the
    first record is posted on 2023-01-01, the last on 2023-12-31, every
    record between the two, and a later record is never posted before an
    earlier one. *)
Theorem sample_dates :
  (∀ i, (i < 1000)%nat →
     ∃ r t, records sample !! i = Some r ∧ at_col r "Date" = Time t
       ∧ datetime_2023_01_01 ≤ t ≤ datetime_2023_12_31)
  ∧ (∃ r, records sample !! 0%nat = Some r
       ∧ at_col r "Date" = Time datetime_2023_01_01)
  ∧ (∃ r, records sample !! 999%nat = Some r
       ∧ at_col r "Date" = Time datetime_2023_12_31)
  ∧ (∀ i j ri rj ti tj,
       (i ≤ j)%nat →
       records sample !! i = Some ri → records sample !! j = Some rj →
       at_col ri "Date" = Time ti → at_col rj "Date" = Time tj →
       ti ≤ tj).
Proof.
  split; [|split; [|split]].
  - intros i Hi. destruct (sample_date_at i Hi) as (r & Hr & _ & Hd).
    exists r. eexists. split; [done|]. split; [done|].
    unfold datetime_2023_01_01, datetime_2023_12_31, ns_per_day.
    assert (0 ≤ Z.of_nat i * (364 * (86400 * 1000000000)) / 999
            ≤ 364 * (86400 * 1000000000)) as Hq.
    { split.
      - apply Z.div_pos; lia.
      - apply Z.div_le_upper_bound; lia. }
    lia.
  - destruct (sample_date_at 0) as (r & Hr & _ & Hd); [unfold n_jobs; lia|].
    exists r. split; [done|]. rewrite Hd. f_equal.
  - destruct (sample_date_at 999) as (r & Hr & _ & Hd); [unfold n_jobs; lia|].
    exists r. split; [done|]. rewrite Hd. f_equal.
  - intros i j ri rj ti tj Hij Hi Hj Hti Htj.
    assert (j < n_jobs)%nat as Hjn.
    { apply lookup_lt_Some in Hj. rewrite sample_records, length_fmap, length_seq in Hj.
      done. }
    destruct (sample_date_at i ltac:(lia)) as (ri' & Hi' & _ & Hdi).
    destruct (sample_date_at j Hjn) as (rj' & Hj' & _ & Hdj).
    rewrite Hi in Hi'. injection Hi' as <-. rewrite Hj in Hj'. injection Hj' as <-.
    rewrite Hti in Hdi. injection Hdi as ->. rewrite Htj in Hdj. injection Hdj as ->.
    apply Z.add_le_mono_l. apply Z.div_le_mono; [lia|].
    unfold ns_per_day. nia.
Qed.

End Sample.

(** ** Splitting at the comma *)

Lemma split_no_sep sep s : has_char sep s = false → split sep s = [s].
Proof.
  induction s as [|a s IH]; [done|]. simpl.
  intros [Ha Hs]%orb_false_iff. rewrite Ha, (IH Hs). done.
Qed.

Lemma split_at_first sep a b :
  has_char sep a = false →
  split sep (a +:+ String sep b) = a :: split sep b.
Proof.
  induction a as [|c a IH]; simpl.
  - intros _. by rewrite bool_decide_eq_true_2.
  - intros [Hc Ha]%orb_false_iff. rewrite Hc, (IH Ha). done.
Qed.

(** ** More on the loader *)

Section LoaderMore.

Context (parse_datetime : cell → option Z) (repr : cell → string).
Context (str_accessor_ok : list cell → bool) (rng : nat → nat → nat).

Local Abbreviation preprocess' := (preprocess parse_datetime repr str_accessor_ok).
Local Abbreviation load_data' := (load_data parse_datetime repr str_accessor_ok rng).
Local Abbreviation sample := (create_sample_data rng).

Lemma norm_row_city raw r :
  at_col (norm_row parse_datetime repr raw r) "City"
  = (if has_column raw "Job Location"
     then split_first_cell (at_col r "Job Location")
     else Str "Unknown").
Proof.
  destruct r as [i m]. unfold norm_row. cbn [fst snd].
  rewrite !at_col_insert_ne by done. rewrite at_col_insert_eq.
  unfold city_of. by rewrite !at_col_insert_ne.
Qed.

(** X4. The candidate files are tried in their fixed order and the first
    one that reads decides: when every candidate before it is missing, its
    table is the one preprocessed and returned (or, when preprocessing it
    raises, the one whose error is shown with the sample), whatever the
    later candidates hold. *)
Theorem first_readable_file_wins read_excel before f after table :
  possible_files = (before ++ f :: after)%list →
  (∀ g, g ∈ before → read_excel g = Raise FileNotFoundError) →
  read_excel f = Ok table →
  try_files read_excel possible_files = Ok (Some table)
  ∧ load_data' read_excel
    = match preprocess' table with
      | Ok df => Ok ([], df)
      | Raise e => Ok ([Error (load_error e)], sample)
      end.
Proof.
  intros Hsplit Hbefore Hf.
  assert (try_files read_excel possible_files = Ok (Some table)) as Hread.
  { rewrite Hsplit. clear Hsplit. induction before as [|g before IH]; simpl.
    - by rewrite Hf.
    - rewrite (Hbefore g) by left. apply IH. intros h Hh. apply Hbefore. by right. }
  split; [done|].
  destruct (preprocess' table) as [df|e] eqn:Hpre.
  - by apply load_data_file with (raw := table).
  - by apply load_data_file_raise with (raw := table).
Qed.

(** X5. After a file was loaded, the city of a record is what stands before
    the first comma of its job location, white space kept: a location
    without a comma is the city as a whole, a cell that is not a text gives
    a missing city, and a table without the column gives "Unknown". *)
Theorem load_data_city read_excel raw df r' :
  try_files read_excel possible_files = Ok (Some raw) →
  load_data' read_excel = Ok ([], df) →
  r' ∈ records df →
  ∃ r, r ∈ records raw ∧ r'.1 = r.1
    ∧ (has_column raw "Job Location" = false → at_col r' "City" = Str "Unknown")
    ∧ (has_column raw "Job Location" = true →
         (∀ a b, at_col r "Job Location" = Str (a +:+ "," +:+ b) →
                 has_char "," a = false → at_col r' "City" = Str a)
         ∧ (∀ s, at_col r "Job Location" = Str s →
                 has_char "," s = false → at_col r' "City" = Str s)
         ∧ ((∀ s, at_col r "Job Location" ≠ Str s) → at_col r' "City" = NaN)).
Proof.
  intros Hread Hload Hr'.
  destruct (load_data_cases parse_datetime repr str_accessor_ok rng read_excel)
    as [(raw' & df' & Hread' & Hpre & Hload')|[Hload'|[e Hload']]];
    rewrite Hload' in Hload; [|done..].
  injection Hload as <-. rewrite Hread in Hread'. injection Hread' as <-.
  destruct (preprocess_rows _ _ _ raw df' r' Hpre Hr') as (r & Hr & -> & _).
  exists r. split; [done|]. split; [done|].
  rewrite !(norm_row_city raw r). split; [by intros ->|]. intros ->.
  split; [|split].
  - intros a b -> Ha. simpl. change ("," +:+ b) with (String "," b).
    by rewrite split_at_first.
  - intros s -> Hs. simpl. by rewrite split_no_sep.
  - intros Hno. destruct (at_col r "Job Location") as [|s| |]; try done.
    by destruct (Hno s).
Qed.

(** X6. [load_data] returns an empty frame only for a file that was read
    and preprocessed without error and none of whose rows has both a date
    that stands for a moment pandas can hold and a job title: the sample it
    falls back to is never empty. *)
Theorem load_data_empty_only_from_file read_excel msgs df :
  load_data' read_excel = Ok (msgs, df) → empty df = true →
  msgs = []
  ∧ ∃ raw, try_files read_excel possible_files = Ok (Some raw)
      ∧ preprocess' raw = Ok df
      ∧ ∀ r, r ∈ records raw → ¬ survives parse_datetime raw r.
Proof.
  intros Hload Hempty.
  destruct (load_data_cases parse_datetime repr str_accessor_ok rng read_excel)
    as [(raw & df' & Hread & Hpre & Hload')|[Hload'|[e Hload']]];
    rewrite Hload' in Hload; injection Hload as <- <-.
  - split; [done|]. exists raw. split; [done|]. split; [done|].
    pose proof (preprocess_loaded _ _ _ _ _ Hpre) as Hl.
    apply preprocess_ok in Hpre as (_ & _ & Hrec).
    assert (records df' = []) as Hnil.
    { unfold empty in Hempty.
      pose proof (loaded_columns _ Hl "Date" ltac:(in_list)) as Hc.
      destruct (columns df'); [by apply elem_of_nil in Hc|].
      by destruct (records df'). }
    intros r Hr Hs. apply notna_norm_row with (repr := repr) in Hs.
    rewrite Hnil in Hrec. symmetry in Hrec.
    eapply (filter_nil_not_elem_of _ _ _ Hrec); [exact Hs|].
    by apply list_elem_of_fmap_2.
  - by rewrite sample_not_empty in Hempty.
  - by rewrite sample_not_empty in Hempty.
Qed.

End LoaderMore.

(** ** Ordering texts *)

Lemma str_lt_trans a b c : str_lt a b → str_lt b c → str_lt a c.
Proof.
  unfold str_lt, String.ltb. intros Hab Hbc.
  destruct (String.compare a b) eqn:Eab; try done.
  destruct (String.compare b c) eqn:Ebc; try done.
  apply OrderedTypeEx.String_as_OT.cmp_lt in Eab, Ebc.
  pose proof (OrderedTypeEx.String_as_OT.lt_trans _ _ _ Eab Ebc) as Hac.
  apply OrderedTypeEx.String_as_OT.cmp_lt in Hac.
  unfold OrderedTypeEx.String_as_OT.cmp in Hac. by rewrite Hac.
Qed.

Lemma compare_refl a : String.compare a a = Eq.
Proof. by apply (OrderedTypeEx.String_as_OT.cmp_eq a a). Qed.

Lemma str_lt_irrefl a : ¬ str_lt a a.
Proof.
  unfold str_lt, String.ltb.
  by rewrite compare_refl.
Qed.

Lemma leb_cases a b : String.leb a b = true ↔ a = b ∨ str_lt a b.
Proof.
  unfold str_lt, String.leb, String.ltb.
  destruct (String.compare a b) eqn:E.
  - apply String.compare_eq_iff in E. split; [by left|done].
  - split; [by right|done].
  - split; [done|]. intros [->|?]; [|done].
    by rewrite compare_refl in E.
Qed.

Lemma leb_false_lt a b : String.leb a b = false → str_lt b a.
Proof.
  unfold str_lt, String.leb, String.ltb. rewrite (String.compare_antisym a b).
  by destruct (String.compare b a).
Qed.

Lemma insert_sorted_perm s l : insert_sorted s l ≡ₚ s :: l.
Proof.
  induction l as [|x l IH]; [done|]. simpl.
  destruct (String.leb s x); [done|]. rewrite IH. apply Permutation_swap.
Qed.

Lemma sort_strings_perm l : sort_strings l ≡ₚ l.
Proof.
  induction l as [|s l IH]; [done|]. simpl.
  rewrite insert_sorted_perm. by rewrite IH.
Qed.

Lemma insert_sorted_strict s l :
  s ∉ l → StronglySorted str_lt l → StronglySorted str_lt (insert_sorted s l).
Proof.
  intros Hs Hl. induction Hl as [|x l Hl IH Hx]; simpl.
  - repeat constructor.
  - apply not_elem_of_cons in Hs as [Hsx Hsl].
    destruct (String.leb s x) eqn:Hle.
    + apply leb_cases in Hle as [->|Hlt]; [done|].
      constructor; [by constructor|]. constructor; [done|].
      eapply Forall_impl; [exact Hx|]. intros y Hy. by eapply str_lt_trans.
    + apply leb_false_lt in Hle. constructor; [by apply IH|].
      rewrite insert_sorted_perm. by constructor.
Qed.

Lemma sort_strings_strict l : NoDup l → StronglySorted str_lt (sort_strings l).
Proof.
  induction 1 as [|s l Hs Hl IH]; simpl; [constructor|].
  apply insert_sorted_strict; [|done]. by rewrite sort_strings_perm.
Qed.

(** ** Distinct values *)

Lemma elem_of_unique {A} `{EqDecision A} (col : list A) x : x ∈ unique col ↔ x ∈ col.
Proof.
  induction col as [|c col IH]; [done|]. simpl.
  rewrite !elem_of_cons, list_elem_of_filter, IH.
  destruct (decide (x = c)) as [->|Hne]; [tauto|]. tauto.
Qed.

Lemma NoDup_unique {A} `{EqDecision A} (col : list A) : NoDup (unique col).
Proof.
  induction col as [|c col IH]; simpl; [constructor|].
  constructor.
  - rewrite list_elem_of_filter. by intros [? _].
  - by apply NoDup_filter.
Qed.

Lemma omap_as_text_texts (l : list cell) :
  (∀ c, c ∈ l → ∃ s, c = Str s) → Str <$> omap as_text l = l.
Proof.
  induction l as [|c l IH]; intros Hall; [done|].
  destruct (Hall c) as [s ->]; [left|]. simpl. f_equal.
  apply IH. intros c' Hc'. apply Hall. by right.
Qed.

Lemma NoDup_omap_as_text (l : list cell) : NoDup l → NoDup (omap as_text l).
Proof.
  induction 1 as [|c l Hc Hl IH]; simpl; [constructor|].
  destruct c as [|s| |]; simpl; try done.
  constructor; [|done]. rewrite list_elem_of_omap.
  intros (c' & Hin & Hs). destruct c'; try done. injection Hs as ->. by apply Hc.
Qed.

Lemma forallb_is_text (l : list cell) :
  forallb is_text l = true ↔ ∀ c, c ∈ l → ∃ s, c = Str s.
Proof.
  rewrite <- Is_true_true, forallb_True, Forall_forall.
  split; intros H c Hc; specialize (H c Hc).
  - destruct c; try done. eauto.
  - by destruct H as [s ->].
Qed.

(** ** The sidebar options *)

Section SidebarProofs.

Context (parse_datetime : cell → option Z) (repr : cell → string).
Context (str_accessor_ok : list cell → bool) (rng : nat → nat → nat).
Context (sorted_without_text : list cell → result (list cell)).
Context (type_error_text : list cell → string).

Local Abbreviation load_data' := (load_data parse_datetime repr str_accessor_ok rng).
Local Abbreviation options' := (sidebar_options sorted_without_text type_error_text).

Lemma sidebar_options_texts df c :
  has_column df c = true →
  (∀ r, r ∈ records df → ∃ s, at_col r c = Str s) →
  ∃ opts, options' df c = Ok (Str <$> opts)
    ∧ StronglySorted str_lt opts
    ∧ ∀ s, s ∈ opts ↔ ∃ r, r ∈ records df ∧ at_col r c = Str s.
Proof.
  intros Hcol Htext. unfold sidebar_options.
  destruct (getitem_has df c Hcol) as [col Hget]. rewrite Hget.
  apply getitem_ok in Hget as [_ ->]. simpl.
  assert (∀ x, x ∈ unique ((λ r, at_col r c) <$> records df) → ∃ s, x = Str s)
    as Hall.
  { intros x Hx. apply elem_of_unique, list_elem_of_fmap in Hx as (r & -> & Hr).
    by apply Htext. }
  unfold py_sorted. rewrite (proj2 (forallb_is_text _) Hall).
  eexists. split; [done|]. split.
  - apply sort_strings_strict, NoDup_omap_as_text, NoDup_unique.
  - intros s. rewrite sort_strings_perm, list_elem_of_omap. split.
    + intros (x & Hx & Hs).
      apply elem_of_unique, list_elem_of_fmap in Hx as (r & -> & Hr).
      exists r. split; [done|]. revert Hs.
      destruct (at_col r c); simpl; intros Hs; by simplify_eq.
    + intros (r & Hr & Hs). exists (Str s). split; [|done].
      apply elem_of_unique, list_elem_of_fmap. exists r. by rewrite Hs.
Qed.

(** X7. On every frame the loader returns, the job-title options of the
    sidebar are built without error; they are the job titles that occur in
    the frame, each once, in strictly ascending order. *)
Theorem title_options_sorted read_excel msgs df :
  load_data' read_excel = Ok (msgs, df) →
  ∃ opts, options' df "Job Title" = Ok (Str <$> opts)
    ∧ StronglySorted str_lt opts
    ∧ ∀ s, s ∈ opts ↔ ∃ r, r ∈ records df ∧ at_col r "Job Title" = Str s.
Proof.
  intros Hdf%load_data_loaded. apply sidebar_options_texts.
  - apply loaded_has_column; [done|in_list].
  - apply Hdf.
Qed.

(** X8. When one record of the frame has a text for a city and another a
    value that is not a text (a missing city, as a file row without a job
    location gives), building the city options raises: [sorted] cannot
    compare the two. *)
Theorem city_options_raise df r1 r2 s :
  has_column df "City" = true →
  r1 ∈ records df → r2 ∈ records df →
  at_col r1 "City" = Str s → is_text (at_col r2 "City") = false →
  ∃ col, getitem df "City" = Ok col
    ∧ options' df "City" = Raise (OtherError (type_error_text (unique col))).
Proof.
  intros Hcol Hr1 Hr2 H1 H2. unfold sidebar_options.
  destruct (getitem_has df "City" Hcol) as [col Hget]. rewrite Hget.
  exists col. split; [done|].
  apply getitem_ok in Hget as [_ ->]. simpl. unfold py_sorted.
  assert (at_col r1 "City" ∈ unique ((λ r, at_col r "City") <$> records df))
    as Hin1.
  { apply elem_of_unique, list_elem_of_fmap. eauto. }
  assert (at_col r2 "City" ∈ unique ((λ r, at_col r "City") <$> records df))
    as Hin2.
  { apply elem_of_unique, list_elem_of_fmap. eauto. }
  destruct (forallb is_text (unique _)) eqn:Hall.
  - apply forallb_is_text with (c := at_col r2 "City") in Hall as [s' Hs']; [|done].
    by rewrite Hs' in H2.
  - destruct (existsb is_text (unique _)) eqn:Hex; [done|].
    exfalso. apply not_true_iff_false in Hex. apply Hex.
    apply existsb_exists. exists (at_col r1 "City").
    split; [by apply list_elem_of_In|]. by rewrite H1.
Qed.


End SidebarProofs.

(** ** Filtering again, and filtering everything away *)

Lemma filter_date_id df date_range :
  loaded df → (∀ r, r ∈ records df → date_ok date_range r) →
  filter_date df date_range = Ok df.
Proof.
  intros Hdf Hall.
  destruct date_range as [|s [|e [|]]]; try done.
  rewrite filter_date_two by done. f_equal. apply getitem_mask_all.
  intros r Hr. apply date_mask_true. by apply (Hall r Hr).
Qed.

Lemma filter_isin_id df c selected :
  (selected ≠ [] → has_column df c = true) →
  (∀ r, r ∈ records df → isin_ok c selected r) →
  filter_isin df c selected = Ok df.
Proof.
  intros Hcol Hall. unfold filter_isin. destruct selected as [|v vs]; [done|].
  destruct (getitem_has df c) as [col ->]; [by apply Hcol|]. simpl.
  f_equal. apply getitem_mask_all. intros r Hr. unfold isin_mask.
  apply bool_decide_eq_true. by destruct (Hall r Hr).
Qed.

Lemma filter_eq_id df c value :
  has_column df c = true →
  (∀ r, r ∈ records df → eq_ok c value r) →
  filter_eq df c value = Ok df.
Proof.
  intros Hcol Hall. unfold filter_eq. case_bool_decide as Hv; [|done].
  destruct (getitem_has df c Hcol) as [col ->]. simpl.
  f_equal. apply getitem_mask_all. intros r Hr. unfold eq_mask.
  apply bool_decide_eq_true. by destruct (Hall r Hr).
Qed.

Lemma filtered_df_id df sel :
  loaded df → (∀ r, r ∈ records df → passes df sel r) →
  filtered_df df sel = Ok df.
Proof.
  intros Hdf Hall. unfold filtered_df.
  rewrite filter_date_id; [|done|intros r Hr; apply (Hall r Hr)]. simpl.
  rewrite filter_isin_id; cycle 1.
  { intros _. apply loaded_has_column; [done|in_list]. }
  { intros r Hr. apply (Hall r Hr). }
  simpl. rewrite filter_isin_id; cycle 1.
  { intros _. apply loaded_has_column; [done|in_list]. }
  { intros r Hr. apply (Hall r Hr). }
  simpl. rewrite filter_isin_id; cycle 1.
  { apply company_selection_column. }
  { intros r Hr. apply company_selection_ok. apply (Hall r Hr). }
  simpl. rewrite filter_eq_id; cycle 1.
  { apply loaded_has_column; [done|in_list]. }
  { intros r Hr. apply (Hall r Hr). }
  simpl. apply filter_eq_id.
  - apply loaded_has_column; [done|in_list].
  - intros r Hr. apply (Hall r Hr).
Qed.

Lemma passes_subframe out df sel r :
  subframe out df → passes df sel r → passes out sel r.
Proof.
  intros Hsub. unfold passes.
  by rewrite (subframe_has_column out df "Company" Hsub).
Qed.

Lemma filter_none {A} (P : A → Prop) `{!∀ a, Decision (P a)} (l : list A) :
  (∀ a, a ∈ l → ¬ P a) → filter P l = [].
Proof.
  induction l as [|a l IH]; intros Hall; [done|].
  rewrite filter_cons_False by (apply Hall; left). apply IH.
  intros b Hb. apply Hall. by right.
Qed.

Lemma pct_full n : (0 < n)%nat → (pct n n == 100)%Q.
Proof.
  intros Hn. destruct n as [|n]; [lia|]. unfold pct.
  assert (0 < Q_of_nat (S n))%Q as Hpos by (apply Q_of_nat_pos; lia).
  field. intros H0. rewrite H0 in Hpos. by apply Qlt_irrefl in Hpos.
Qed.

Section FilterMore.

Context (parse_datetime : cell → option Z) (repr : cell → string).
Context (str_accessor_ok : list cell → bool) (rng : nat → nat → nat).

Local Abbreviation load_data' := (load_data parse_datetime repr str_accessor_ok rng).

(** X10. Filtering is idempotent: applying the same selection to a filtered
    frame returns that frame unchanged. *)
Theorem filtered_df_idempotent read_excel msgs df sel out :
  load_data' read_excel = Ok (msgs, df) → filtered_df df sel = Ok out →
  filtered_df out sel = Ok out.
Proof.
  intros Hdf%load_data_loaded Hout.
  destruct (filtered_df_spec df sel Hdf) as (out' & Hout' & Hsub & Hmem).
  rewrite Hout in Hout'. injection Hout' as <-.
  apply filtered_df_id; [by eapply subframe_loaded|].
  intros r [_ Hp]%Hmem. by eapply passes_subframe.
Qed.


(** X12. With the hired filter on "Yes" the hired rate of a non-empty
    result is 100; with the hired filter on any other value but "All" it
    is 0. *)
Theorem hired_filter_fixes_rate read_excel msgs df sel out :
  load_data' read_excel = Ok (msgs, df) → filtered_df df sel = Ok out →
  hired_filter sel ≠ "All" →
  ∃ h, hired_pct out = Ok h
    ∧ (hired_filter sel = "Yes" → records out ≠ [] → (h == 100)%Q)
    ∧ (hired_filter sel ≠ "Yes" → (h == 0)%Q).
Proof.
  intros Hdf%load_data_loaded Hout Hall.
  destruct (filtered_df_spec df sel Hdf) as (out' & Hout' & Hsub & Hmem).
  rewrite Hout in Hout'. injection Hout' as <-.
  pose proof (subframe_loaded _ _ Hsub Hdf) as Hl.
  destruct (yes_pct_spec out "Hired") as (h & Hh & Hq).
  { apply loaded_has_column; [done|in_list]. }
  { apply Hl. }
  exists h. split; [done|].
  assert (∀ r, r ∈ records out → at_col r "Hired" = Str (hired_filter sel)) as Hv.
  { intros r (_ & _ & _ & _ & _ & [?|?] & _)%Hmem; done. }
  rewrite Hq. split.
  - intros Hyes Hne. unfold count_eq. rewrite filter_all.
    + apply pct_full. unfold len. destruct (records out); [done|simpl; lia].
    + intros r Hr. by rewrite (Hv r Hr), Hyes.
  - intros Hno. unfold count_eq.
    rewrite filter_none; [apply pct_zero|].
    intros r Hr. rewrite (Hv r Hr). intros [= Heq]. by apply Hno.
Qed.

End FilterMore.

(** ** The indicators *)

Lemma sublist_same_length {A} (l1 l2 : list A) :
  l1 `sublist_of` l2 → length l1 = length l2 → l1 = l2.
Proof.
  induction 1 as [|x l1 l2 Hsub IH|x l1 l2 Hsub IH]; simpl; intros Hlen.
  - done.
  - f_equal. apply IH. lia.
  - apply sublist_length in Hsub. lia.
Qed.

Lemma subframe_same_length out df :
  subframe out df → len out = len df → out = df.
Proof.
  intros [Hcols Hrows] Hlen. destruct out, df. simpl in *. f_equal; [done|].
  by apply sublist_same_length.
Qed.

Section Indicators.

Context (parse_datetime : cell → option Z) (repr : cell → string).
Context (str_accessor_ok : list cell → bool) (rng : nat → nat → nat).

Local Abbreviation load_data' := (load_data parse_datetime repr str_accessor_ok rng).

(** X13. On every filtered frame the indicator block shows the "no
    matches" warning for an empty result and computes nothing.  For a
    result with records it raises when the earliest and the latest
    timestamp are further apart than a [Timedelta] can hold (the
    jobs-per-day figure), and only then; otherwise the total is the number
    of records kept, the three changes are shown together, exactly when the
    filter removed a record (they are all absent exactly when the result is
    the whole frame), and the change of the total is then negative: the
    number of records removed. *)
Theorem key_indicators_deltas read_excel msgs df sel out :
  load_data' read_excel = Ok (msgs, df) → filtered_df df sel = Ok out →
  (records out = [] →
   key_indicators df out = Ok (inl (Warning no_matches_warning)))
  ∧ (records out ≠ [] →
     ∃ lo hi, earliest out lo ∧ latest out hi ∧ lo ≤ hi
       ∧ (timestamp_max < hi - lo →
          key_indicators df out = Raise OutOfBoundsDatetime)
       ∧ (hi - lo ≤ timestamp_max →
          ∃ k, key_indicators df out = Ok (inr k)
            ∧ total_jobs k = len out
            ∧ (total_delta k = None ↔ out = df)
            ∧ (hired_delta k = None ↔ out = df)
            ∧ (easy_delta k = None ↔ out = df)
            ∧ (∀ d, total_delta k = Some d →
                    d < 0 ∧ d = Z.of_nat (len out) - Z.of_nat (len df)))).
Proof.
  intros Hdf%load_data_loaded Hout.
  destruct (filtered_df_spec df sel Hdf) as (out' & Hout' & Hsub & Hmem).
  rewrite Hout in Hout'. injection Hout' as <-.
  pose proof (subframe_loaded _ _ Hsub Hdf) as Hl.
  split.
  { intros Hnil. unfold key_indicators, len. by rewrite Hnil. }
  intros Hne.
  destruct (avg_jobs_per_day_spec out Hl Hne) as (lo & hi & Hlo & Hhi & Hle & Havg).
  exists lo, hi. repeat (split; [done|]).
  assert (len out ≠ 0%nat) as Hlen.
  { unfold len. by destruct (records out). }
  destruct (yes_pct_spec out "Hired") as (h & Hh & _);
    [apply loaded_has_column; [done|in_list]|apply Hl|].
  destruct (yes_pct_spec out "Easy Apply") as (e & He & _);
    [apply loaded_has_column; [done|in_list]|apply Hl|].
  destruct (yes_pct_spec df "Hired") as (bh & Hbh & _);
    [apply loaded_has_column; [done|in_list]|apply Hdf|].
  destruct (yes_pct_spec df "Easy Apply") as (be & Hbe & _);
    [apply loaded_has_column; [done|in_list]|apply Hdf|].
  assert (len out = len df ↔ out = df) as Hsame.
  { split; [by apply subframe_same_length|by intros ->]. }
  pose proof (sublist_length _ _ (proj2 Hsub)) as Hlen'.
  fold (len out) (len df) in Hlen'.
  unfold key_indicators. rewrite bool_decide_eq_false_2 by done.
  unfold hired_pct, easy_pct, delta_pct. rewrite Hh, He, Havg, Hbh, Hbe.
  split.
  - intros Hfar. rewrite (bool_decide_eq_false_2 (hi - lo ≤ timestamp_max)) by lia.
    by destruct (bool_decide (len out ≠ len df)).
  - intros Hfit. rewrite (bool_decide_eq_true_2 (hi - lo ≤ timestamp_max)) by done.
    destruct (bool_decide (len out ≠ len df)) eqn:Hd;
      [apply bool_decide_eq_true in Hd|apply bool_decide_eq_false in Hd];
      (eexists; split; [done|]; cbn [total_jobs total_delta hired_delta easy_delta]).
    + split; [done|]. rewrite <- Hsame.
      repeat (split; [split; [done|by intros ?]|]).
      intros d [= <-]. lia.
    + assert (len out = len df) as Heq by (by destruct (decide (len out = len df))).
      rewrite <- Hsame. repeat (split; [done|]). done.
Qed.

End Indicators.

(** ** Counting by groups *)

Lemma length_filter_split {A} (P : A → Prop) `{!∀ a, Decision (P a)} (l : list A) :
  length l = (length (filter P l) + length (filter (λ a, ¬ P a) l))%nat.
Proof.
  induction l as [|a l IH]; [done|]. destruct (decide (P a)).
  - rewrite filter_cons_True, (filter_cons_False (λ a, ¬ P a)) by tauto.
    simpl. lia.
  - rewrite filter_cons_False, (filter_cons_True (λ a, ¬ P a)) by tauto.
    simpl. lia.
Qed.

(** The sizes of the groups of a list add up to its length, when every key
    of the list is among the groups and no group is named twice. *)
Lemma sum_group_sizes {A K} `{EqDecision K} (key : A → K) (ks : list K) (l : list A) :
  NoDup ks → (∀ x, x ∈ l → key x ∈ ks) →
  sum_list ((λ k, length (filter (λ x, key x = k) l)) <$> ks) = length l.
Proof.
  intros Hnd. revert l. induction Hnd as [|k ks Hk Hnd IH]; intros l Hall.
  - destruct l as [|x l]; [done|]. exfalso.
    apply (elem_of_nil (key x)). apply Hall. left.
  - rewrite fmap_cons. simpl.
    rewrite (length_filter_split (λ x, key x = k) l). f_equal.
    rewrite <- (IH (filter (λ x, ¬ key x = k) l)).
    + f_equal. apply list_fmap_ext. intros _ k' Hk'%list_elem_of_lookup_2.
      rewrite list_filter_filter. f_equal. apply list_filter_iff.
      intros x. split; [|tauto]. intros Hx. split; [done|].
      intros Hx'. apply Hk. by rewrite <- Hx', Hx.
    + intros x [Hne Hx]%list_elem_of_filter.
      specialize (Hall x Hx). apply elem_of_cons in Hall as [?|?]; done.
Qed.

(** ** The cross-tabulation *)

Lemma texts_of_column df c :
  (∀ r, r ∈ records df → ∃ s, at_col r c = Str s) →
  forallb is_text ((λ r, at_col r c) <$> records df) = true
  ∧ omap as_text ((λ r, at_col r c) <$> records df) = text_at c <$> records df.
Proof.
  intros Htext. split.
  - apply forallb_is_text. intros x (r & -> & Hr)%list_elem_of_fmap. by apply Htext.
  - induction (records df) as [|r rs IH]; [done|].
    rewrite !fmap_cons. destruct (Htext r) as [s Hs]; [left|].
    simpl. unfold text_at at 1. rewrite Hs. simpl. f_equal.
    apply IH. intros r' Hr'. apply Htext. by right.
Qed.

Lemma text_at_eq c r s :
  (∃ s', at_col r c = Str s') → text_at c r = s ↔ at_col r c = Str s.
Proof. intros [s' Hs']. unfold text_at. rewrite Hs'. split; congruence. Qed.

Lemma list_filter_iff_elem {A} (P Q : A → Prop)
    `{!∀ a, Decision (P a)} `{!∀ a, Decision (Q a)} (l : list A) :
  (∀ a, a ∈ l → P a ↔ Q a) → filter P l = filter Q l.
Proof.
  induction l as [|a l IH]; intros Hall; [done|].
  assert (filter P l = filter Q l) as Hl.
  { apply IH. intros b Hb. apply Hall. by right. }
  destruct (decide (P a)) as [Hp|Hp].
  - rewrite !filter_cons_True by (done || by apply Hall; [left|]). by f_equal.
  - rewrite !filter_cons_False; [done| |done].
    intros Hq. apply Hp. apply Hall; [left|done].
Qed.

Lemma fmap_fst_tagged {A B} (g : A → B) (l : list A) :
  ((λ a, (a, g a)) <$> l).*1 = l.
Proof. induction l as [|a l IH]; [done|]. simpl. by f_equal. Qed.

Lemma zip_fmap_same {A B C} (f : A → B) (g : A → C) (l : list A) :
  zip (f <$> l) (g <$> l) = (λ a, (f a, g a)) <$> l.
Proof. induction l as [|a l IH]; [done|]. simpl. f_equal. exact IH. Qed.

Lemma sorted_unique_spec (l : list string) :
  StronglySorted str_lt (sort_strings (unique l))
  ∧ NoDup (sort_strings (unique l))
  ∧ ∀ s, s ∈ sort_strings (unique l) ↔ s ∈ l.
Proof.
  split; [apply sort_strings_strict, NoDup_unique|]. split.
  - rewrite sort_strings_perm. apply NoDup_unique.
  - intros s. by rewrite sort_strings_perm, elem_of_unique.
Qed.

Section CrosstabProofs.

Context (parse_datetime : cell → option Z) (repr : cell → string).
Context (str_accessor_ok : list cell → bool) (rng : nat → nat → nat).
Context (crosstab_other :
  list cell → list cell → result (list (string * list (string * Q)))).

Local Abbreviation load_data' := (load_data parse_datetime repr str_accessor_ok rng).
Local Abbreviation crosstab' := (crosstab_pct crosstab_other).

(** The table that [crosstab] builds on a frame whose flags are texts. *)
Lemma crosstab_pct_spec df :
  loaded df →
  let index := sort_strings (unique (text_at "Easy Apply" <$> records df)) in
  let cols := sort_strings (unique (text_at "Hired" <$> records df)) in
  crosstab' df
  = Ok ((λ e, (e, (λ h, (h, (Q_of_nat (count_both df e h)
                             / Q_of_nat (count_eq df "Easy Apply" (Str e))
                             * 100)%Q)) <$> cols)) <$> index).
Proof.
  intros Hdf index cols. unfold crosstab_pct.
  destruct (getitem_has df "Easy Apply") as [easy Heasy];
    [apply loaded_has_column; [done|in_list]|].
  destruct (getitem_has df "Hired") as [hired Hhired];
    [apply loaded_has_column; [done|in_list]|].
  rewrite Heasy, Hhired. simpl.
  apply getitem_ok in Heasy as [_ ->]. apply getitem_ok in Hhired as [_ ->].
  destruct (texts_of_column df "Easy Apply" (loaded_easy df Hdf)) as [-> ->].
  destruct (texts_of_column df "Hired" (loaded_hired df Hdf)) as [-> ->].
  simpl. f_equal. unfold crosstab_texts. fold index cols.
  rewrite zip_fmap_same.
  assert (∀ e h, length (filter (λ p, p = (e, h))
                    ((λ a, (text_at "Easy Apply" a, text_at "Hired" a))
                       <$> records df))
                 = count_both df e h) as Hcount.
  { intros e h. rewrite length_filter_fmap. unfold count_both. f_equal.
    apply list_filter_iff_elem. intros r Hr. simpl.
    rewrite <- (text_at_eq "Easy Apply" r e) by (by apply (loaded_easy df Hdf)).
    rewrite <- (text_at_eq "Hired" r h) by (by apply (loaded_hired df Hdf)).
    split; [by intros [= -> ->]|by intros [-> ->]]. }
  apply list_fmap_ext. intros _ e _. cbv zeta. f_equal.
  assert (sum_list ((λ h, count_both df e h) <$> cols)
          = count_eq df "Easy Apply" (Str e)) as Htotal.
  { unfold count_both, count_eq.
    rewrite <- (sum_group_sizes (text_at "Hired") cols
                  (filter (λ r, at_col r "Easy Apply" = Str e) (records df))).
    - f_equal. apply list_fmap_ext. intros _ h _. rewrite list_filter_filter.
      f_equal. apply list_filter_iff_elem. intros r Hr.
      rewrite (text_at_eq "Hired" r h) by (by apply (loaded_hired df Hdf)). tauto.
    - apply sorted_unique_spec.
    - intros r [_ Hr]%list_elem_of_filter. apply sorted_unique_spec.
      by apply list_elem_of_fmap_2. }
  rewrite <- Htotal.
  apply list_fmap_ext. intros _ h _. rewrite Hcount. do 5 f_equal.
  apply list_fmap_ext. intros _ h' _. apply Hcount.
Qed.

Lemma length_filter_impl {A} (P Q : A → Prop)
    `{!∀ a, Decision (P a)} `{!∀ a, Decision (Q a)} (l : list A) :
  (∀ a, P a → Q a) → (length (filter P l) ≤ length (filter Q l))%nat.
Proof.
  intros Himpl. induction l as [|a l IH]; [done|].
  destruct (decide (P a)) as [Hp|Hp].
  - rewrite (filter_cons_True P), (filter_cons_True Q) by auto. simpl. lia.
  - rewrite (filter_cons_False P) by done.
    destruct (decide (Q a)).
    + rewrite (filter_cons_True Q) by done. simpl. lia.
    + by rewrite (filter_cons_False Q).
Qed.

Lemma count_both_le df e h :
  (count_both df e h ≤ count_eq df "Easy Apply" (Str e))%nat.
Proof. unfold count_both, count_eq. apply length_filter_impl. tauto. Qed.

Lemma count_easy_pos df e :
  (∃ r, r ∈ records df ∧ at_col r "Easy Apply" = Str e) →
  (0 < count_eq df "Easy Apply" (Str e))%nat.
Proof.
  intros (r & Hr & He). unfold count_eq.
  assert (r ∈ filter (λ r, at_col r "Easy Apply" = Str e) (records df)) as Hin.
  { by apply list_elem_of_filter. }
  destruct (filter _ (records df)); [by apply elem_of_nil in Hin|simpl; lia].
Qed.

(** X14. On every filtered frame the cross-tabulation is built without
    error.  In the row of an easy-apply value, the entry for a hired value
    is the number of records with both values over the number of records
    with the easy-apply value, times 100: the divisor is not 0, the entry
    lies between 0 and 100, and the numbers of records behind the entries
    of the row add up to the divisor, so that no record of the row is left
    out or counted twice. *)
Theorem crosstab_row_counts read_excel msgs df sel out :
  load_data' read_excel = Ok (msgs, df) → filtered_df df sel = Ok out →
  ∃ table, crosstab' out = Ok table
    ∧ ∀ e row, (e, row) ∈ table →
        (0 < count_eq out "Easy Apply" (Str e))%nat
        ∧ sum_list (count_both out e <$> row.*1)
          = count_eq out "Easy Apply" (Str e)
        ∧ ∀ h q, (h, q) ∈ row →
            q = (Q_of_nat (count_both out e h)
                 / Q_of_nat (count_eq out "Easy Apply" (Str e)) * 100)%Q
            ∧ (count_both out e h ≤ count_eq out "Easy Apply" (Str e))%nat
            ∧ (0 <= q)%Q ∧ (q <= 100)%Q.
Proof.
  intros Hdf%load_data_loaded Hout.
  destruct (filtered_df_spec df sel Hdf) as (out' & Hout' & Hsub & _).
  rewrite Hout in Hout'. injection Hout' as <-.
  pose proof (subframe_loaded _ _ Hsub Hdf) as Hl.
  eexists. split; [by apply crosstab_pct_spec|].
  intros e row (e' & [= <- ->] & He)%list_elem_of_fmap.
  apply (proj1 (proj2 (proj2 (sorted_unique_spec _)) e)) in He.
  apply list_elem_of_fmap in He as (r & He & Hr).
  symmetry in He. apply text_at_eq in He; [|by apply (loaded_easy out Hl)].
  assert (0 < count_eq out "Easy Apply" (Str e))%nat as Hpos.
  { apply count_easy_pos. eauto. }
  split; [done|]. split.
  - rewrite fmap_fst_tagged. unfold count_both, count_eq.
    rewrite <- (sum_group_sizes (text_at "Hired")
                  (sort_strings (unique (text_at "Hired" <$> records out)))
                  (filter (λ r, at_col r "Easy Apply" = Str e) (records out))).
    + f_equal. apply list_fmap_ext. intros _ h _. rewrite list_filter_filter.
      f_equal. apply list_filter_iff_elem. intros r' Hr'.
      rewrite (text_at_eq "Hired" r' h) by (by apply (loaded_hired out Hl)). tauto.
    + apply sorted_unique_spec.
    + intros r' [_ Hr']%list_elem_of_filter. apply sorted_unique_spec.
      by apply list_elem_of_fmap_2.
  - intros h q (h' & [= <- ->] & _)%list_elem_of_fmap. split; [done|].
    pose proof (count_both_le out e h) as Hle. split; [done|].
    pose proof (pct_bounds _ _ Hle) as Hb. unfold pct in Hb.
    by destruct (count_eq out "Easy Apply" (Str e)); [lia|].
Qed.

(** X15. The cross-tabulation has one row for each easy-apply value and, in
    every row, one column for each hired value that occurs in the filtered
    frame, rows and columns in strictly ascending order: a hired value no
    record has (as "Yes" under the hired filter "No") has no column. *)
Theorem crosstab_labels read_excel msgs df sel out :
  load_data' read_excel = Ok (msgs, df) → filtered_df df sel = Ok out →
  ∃ table, crosstab' out = Ok table
    ∧ StronglySorted str_lt table.*1
    ∧ (∀ e, e ∈ table.*1 ↔ ∃ r, r ∈ records out ∧ at_col r "Easy Apply" = Str e)
    ∧ ∀ e row, (e, row) ∈ table →
        StronglySorted str_lt row.*1
        ∧ ∀ h, h ∈ row.*1 ↔ ∃ r, r ∈ records out ∧ at_col r "Hired" = Str h.
Proof.
  intros Hdf%load_data_loaded Hout.
  destruct (filtered_df_spec df sel Hdf) as (out' & Hout' & Hsub & _).
  rewrite Hout in Hout'. injection Hout' as <-.
  pose proof (subframe_loaded _ _ Hsub Hdf) as Hl.
  assert (∀ c, (∀ r, r ∈ records out → ∃ s, at_col r c = Str s) →
    ∀ s, s ∈ sort_strings (unique (text_at c <$> records out))
         ↔ ∃ r, r ∈ records out ∧ at_col r c = Str s) as Hmem.
  { intros c Htext s.
    rewrite (proj2 (proj2 (sorted_unique_spec _))), list_elem_of_fmap.
    split; intros (r & Hs & Hr); exists r.
    - split; [done|]. symmetry in Hs. by apply text_at_eq in Hs; [|apply Htext].
    - split; [|done]. symmetry. by apply text_at_eq; [apply Htext|]. }
  eexists. split; [by apply crosstab_pct_spec|].
  rewrite fmap_fst_tagged.
  split; [apply sorted_unique_spec|]. split; [apply Hmem, Hl|].
  intros e row (e' & [= <- ->] & _)%list_elem_of_fmap.
  rewrite fmap_fst_tagged.
  split; [apply sorted_unique_spec|apply Hmem, Hl].
Qed.

End CrosstabProofs.

(** ** The days of the week add up *)



Section DailyTotal.

Context (parse_datetime : cell → option Z) (repr : cell → string).
Context (str_accessor_ok : list cell → bool) (rng : nat → nat → nat).

Local Abbreviation load_data' := (load_data parse_datetime repr str_accessor_ok rng).


End DailyTotal.

(** ** The summary statistics *)

Lemma label_count_spec df c label :
  has_column df c = true →
  label_count df c label = Ok (count_eq df c (Str label)).
Proof.
  intros Hcol. unfold label_count.
  destruct (getitem_has df c Hcol) as [col Hget]. rewrite Hget.
  apply getitem_ok in Hget as [_ ->]. simpl. f_equal.
  unfold series_get. rewrite value_counts_lookup by done.
  rewrite length_filter_fmap. fold (count_eq df c (Str label)).
  by destruct (count_eq df c (Str label)).
Qed.

Lemma label_pct_spec df c label :
  has_column df c = true →
  (∀ r, r ∈ records df → ∃ s, at_col r c = Str s) →
  ∃ q, label_pct df c label = Ok q
    ∧ (q == pct (count_eq df c (Str label)) (len df))%Q.
Proof.
  intros Hcol Htext. unfold label_pct.
  destruct (getitem_has df c Hcol) as [col Hget]. rewrite Hget.
  apply getitem_ok in Hget as [_ ->]. simpl. eexists. split; [done|].
  unfold series_get, value_counts_normalize. rewrite lookup_fmap.
  rewrite value_counts_lookup by done. rewrite counts_sum_value_counts.
  rewrite !length_filter_fmap. fold (count_eq df c (Str label)).
  rewrite filter_all.
  2:{ intros r Hr. destruct (Htext r Hr) as [s ->]. done. }
  fold (len df).
  pose proof (count_eq_le df c (Str label)) as Hle.
  destruct (count_eq df c (Str label)) as [|n]; simpl.
  - rewrite pct_zero. by rewrite Qmult_0_l.
  - unfold pct. destruct (len df); [lia|]. reflexivity.
Qed.

Lemma length_filter_or {A} (P Q : A → Prop)
    `{!∀ a, Decision (P a)} `{!∀ a, Decision (Q a)} (l : list A) :
  (∀ a, P a → Q a → False) →
  length (filter (λ a, P a ∨ Q a) l)
  = (length (filter P l) + length (filter Q l))%nat.
Proof.
  intros Hdisj. induction l as [|a l IH]; [done|].
  destruct (decide (P a)) as [Hp|Hp]; destruct (decide (Q a)) as [Hq|Hq].
  - by destruct (Hdisj a).
  - rewrite (filter_cons_True (λ a, P a ∨ Q a)), (filter_cons_True P),
      (filter_cons_False Q) by tauto. simpl. lia.
  - rewrite (filter_cons_True (λ a, P a ∨ Q a)), (filter_cons_False P),
      (filter_cons_True Q) by tauto. simpl. lia.
  - rewrite (filter_cons_False (λ a, P a ∨ Q a)), (filter_cons_False P),
      (filter_cons_False Q) by tauto. done.
Qed.

Lemma length_filter_full {A} (P : A → Prop) `{!∀ a, Decision (P a)} (l : list A) :
  length (filter P l) = length l ↔ ∀ a, a ∈ l → P a.
Proof.
  split.
  - intros Hlen a Ha. destruct (decide (P a)) as [|Hn]; [done|].
    pose proof (length_filter_lt P l a Ha Hn). lia.
  - intros Hall. by rewrite filter_all.
Qed.

(** The "Yes" and the "No" records of a column of texts. *)
Lemma yes_no_split df c :
  (∀ r, r ∈ records df → ∃ s, at_col r c = Str s) →
  (count_eq df c (Str "Yes") + count_eq df c (Str "No") ≤ len df)%nat
  ∧ ((count_eq df c (Str "Yes") + count_eq df c (Str "No"))%nat = len df
     ↔ ∀ r, r ∈ records df → at_col r c = Str "Yes" ∨ at_col r c = Str "No").
Proof.
  intros Htext. unfold count_eq, len.
  rewrite <- (length_filter_or (λ r, at_col r c = Str "Yes")
                (λ r, at_col r c = Str "No")) by congruence.
  split; [apply length_filter|apply length_filter_full].
Qed.

Section Summary.

Context (parse_datetime : cell → option Z) (repr : cell → string).
Context (str_accessor_ok : list cell → bool) (rng : nat → nat → nat).

Local Abbreviation load_data' := (load_data parse_datetime repr str_accessor_ok rng).

(** X17. On every filtered frame the hiring statistics are computed without
    error. "Hired" and "Not Hired" count the records whose hired field is
    "Yes" and "No", each with its share of all records in percent, between
    0 and 100; together the two counts never exceed the number of records,
    and they cover all records exactly when every hired field is "Yes" or
    "No", which a loaded file need not satisfy. *)
Theorem hiring_stats_cover read_excel msgs df sel out :
  load_data' read_excel = Ok (msgs, df) → filtered_df df sel = Ok out →
  ∃ st, hiring_stats out = Ok st
    ∧ (stat_hired st).1 = count_eq out "Hired" (Str "Yes")
    ∧ (stat_not_hired st).1 = count_eq out "Hired" (Str "No")
    ∧ ((stat_hired st).1 + (stat_not_hired st).1 ≤ len out)%nat
    ∧ (((stat_hired st).1 + (stat_not_hired st).1)%nat = len out
       ↔ ∀ r, r ∈ records out →
              at_col r "Hired" = Str "Yes" ∨ at_col r "Hired" = Str "No")
    ∧ ((stat_hired st).2 == pct (stat_hired st).1 (len out))%Q
    ∧ ((stat_not_hired st).2 == pct (stat_not_hired st).1 (len out))%Q
    ∧ (0 <= (stat_hired st).2)%Q ∧ ((stat_hired st).2 <= 100)%Q
    ∧ (0 <= (stat_not_hired st).2)%Q ∧ ((stat_not_hired st).2 <= 100)%Q.
Proof.
  intros Hdf%load_data_loaded Hout.
  destruct (filtered_df_spec df sel Hdf) as (out' & Hout' & Hsub & _).
  rewrite Hout in Hout'. injection Hout' as <-.
  pose proof (subframe_loaded _ _ Hsub Hdf) as Hl.
  assert (has_column out "Hired" = true) as Hch
    by (apply loaded_has_column; [done|in_list]).
  assert (has_column out "Easy Apply" = true) as Hce
    by (apply loaded_has_column; [done|in_list]).
  destruct (label_pct_spec out "Hired" "Yes" Hch (loaded_hired out Hl))
    as (hy & Hhy & Qhy).
  destruct (label_pct_spec out "Hired" "No" Hch (loaded_hired out Hl))
    as (hn & Hhn & Qhn).
  destruct (label_pct_spec out "Easy Apply" "Yes" Hce (loaded_easy out Hl))
    as (ey & Hey & _).
  destruct (label_pct_spec out "Easy Apply" "No" Hce (loaded_easy out Hl))
    as (en & Hen & _).
  unfold hiring_stats. rewrite !label_count_spec by done.
  rewrite Hhy, Hhn, Hey, Hen. simpl.
  eexists. split; [done|]. simpl. split; [done|]. split; [done|].
  destruct (yes_no_split out "Hired" (loaded_hired out Hl)) as [Hle Hiff].
  split; [done|]. split; [done|]. split; [done|]. split; [done|].
  destruct (pct_bounds _ _ (count_eq_le out "Hired" (Str "Yes"))) as [Hy0 Hy1].
  destruct (pct_bounds _ _ (count_eq_le out "Hired" (Str "No"))) as [Hn0 Hn1].
  rewrite Qhy, Qhn. done.
Qed.

End Summary.

(** ** The calendar, on known dates *)

Example civil_epoch : civil_from_days 0 = (1970, 1).
Proof. reflexivity. Qed.

Example civil_new_year_2023 : civil_from_days 19358 = (2023, 1).
Proof. reflexivity. Qed.

Example civil_last_day_2023 : civil_from_days 19722 = (2023, 12).
Proof. reflexivity. Qed.

Example civil_leap_day_2024 : civil_from_days 19782 = (2024, 2).
Proof. reflexivity. Qed.

Example civil_march_2024 : civil_from_days 19783 = (2024, 3).
Proof. reflexivity. Qed.

Example civil_leap_day_2000 : civil_from_days 11016 = (2000, 2).
Proof. reflexivity. Qed.

Example civil_before_epoch : civil_from_days (-1) = (1969, 12).
Proof. reflexivity. Qed.

Example civil_february_1900 : civil_from_days (-25509) = (1900, 2).
Proof. reflexivity. Qed.

Example civil_march_1900 : civil_from_days (-25508) = (1900, 3).
Proof. reflexivity. Qed.

Example month_start_december_2023 :
  month_to_timestamp (to_period_month datetime_2023_12_31) = 19692 * ns_per_day.
Proof. reflexivity. Qed.

Example months_round_trip_1900_2100 :
  forallb (λ p, to_period_month (month_to_timestamp p) =? p) (seqZ (-840) 2412) = true.
Proof. vm_compute. reflexivity. Qed.

(** ** Ordering months *)





(** ** The monthly trend *)










Section Monthly.

Context (parse_datetime : cell → option Z) (repr : cell → string).
Context (str_accessor_ok : list cell → bool) (rng : nat → nat → nat).

Local Abbreviation load_data' := (load_data parse_datetime repr str_accessor_ok rng).


End Monthly.

(** ** The columns of the table *)

Lemma find_none_all {A} (f : A → bool) (l : list A) :
  (∀ a, a ∈ l → f a = false) → List.find f l = None.
Proof.
  induction l as [|a l IH]; intros Hall; [done|]. simpl.
  rewrite (Hall a) by left. apply IH. intros b Hb. apply Hall. by right.
Qed.

Lemma at_col_restrict (r : nat * row) (cols : list string) c :
  at_col (r.1, filter (λ kv, kv.1 ∈ cols) r.2) c
  = if bool_decide (c ∈ cols) then at_col r c else NaN.
Proof.
  unfold at_col. simpl. rewrite map_lookup_filter.
  destruct (r.2 !! c) as [v|]; simpl.
  - case_guard; case_bool_decide; simpl in *; done.
  - by case_bool_decide.
Qed.

(** X19. When a frame has the five columns the loader sets, cutting the
    table down to its key columns never raises [KeyError]: the result has
    the columns Date, Job Title, City, Hired, Easy Apply, with Company put
    third exactly when the frame has a company column; it keeps every
    record with its label and its cells under these columns, and shows
    nothing under any other column. *)
Theorem display_columns_key df :
  (∀ c, c ∈ ["Date"; "Job Title"; "City"; "Hired"; "Easy Apply"] →
        has_column df c = true) →
  ∃ shown, display_columns df false = Ok shown
    ∧ columns shown
      = (if has_column df "Company"
         then ["Date"; "Job Title"; "Company"; "City"; "Hired"; "Easy Apply"]
         else ["Date"; "Job Title"; "City"; "Hired"; "Easy Apply"])
    ∧ labels (records shown) = labels (records df)
    ∧ ∀ i r, records df !! i = Some r →
        ∃ r', records shown !! i = Some r' ∧ r'.1 = r.1
          ∧ ∀ c, at_col r' c = if bool_decide (c ∈ columns shown) then at_col r c
                               else NaN.
Proof.
  intros Hcols. unfold display_columns, getitem_columns.
  rewrite find_none_all.
  - eexists. split; [done|]. simpl. split; [|split].
    + unfold key_columns. by destruct (has_column df "Company").
    + unfold labels. rewrite <- list_fmap_compose. by apply list_fmap_ext.
    + intros i r Hr. eexists. rewrite list_lookup_fmap, Hr. simpl.
      split; [done|]. split; [done|]. intros c. apply at_col_restrict.
  - intros c Hc. apply negb_false_iff. unfold key_columns in Hc.
    destruct (has_column df "Company") eqn:Hcomp.
    + unfold py_insert in Hc. simpl in Hc.
      repeat (apply elem_of_cons in Hc as [->|Hc];
              [first [exact Hcomp|apply Hcols; in_list]|]).
      by apply elem_of_nil in Hc.
    + by apply Hcols.
Qed.

(** ** Several job titles *)

Section Disjunction.

Context (parse_datetime : cell → option Z) (repr : cell → string).
Context (str_accessor_ok : list cell → bool) (rng : nat → nat → nat).

Local Abbreviation load_data' := (load_data parse_datetime repr str_accessor_ok rng).

(** X20. Within the job-title dimension the selection is a disjunction:
    with the other dimensions unchanged, the records kept for two lists of
    titles put together are exactly those kept for the first list or for
    the second. *)
Theorem selected_titles_are_alternatives read_excel msgs df sel t1 t2 out1 out2 out :
  load_data' read_excel = Ok (msgs, df) →
  t1 ≠ [] → t2 ≠ [] →
  filtered_df df (with_titles sel t1) = Ok out1 →
  filtered_df df (with_titles sel t2) = Ok out2 →
  filtered_df df (with_titles sel (t1 ++ t2)%list) = Ok out →
  ∀ r, r ∈ records out ↔ r ∈ records out1 ∨ r ∈ records out2.
Proof.
  intros Hdf%load_data_loaded H1 H2 Hout1 Hout2 Hout r.
  destruct (filtered_df_spec df (with_titles sel t1) Hdf) as (o1 & Ho1 & _ & M1).
  destruct (filtered_df_spec df (with_titles sel t2) Hdf) as (o2 & Ho2 & _ & M2).
  destruct (filtered_df_spec df (with_titles sel (t1 ++ t2)%list) Hdf)
    as (o & Ho & _ & M).
  rewrite Hout1 in Ho1. injection Ho1 as <-.
  rewrite Hout2 in Ho2. injection Ho2 as <-.
  rewrite Hout in Ho. injection Ho as <-.
  rewrite M, M1, M2. unfold passes, with_titles, company_selection, isin_ok. simpl.
  rewrite elem_of_app.
  assert ((t1 ++ t2)%list ≠ []) as H12 by (by destruct t1).
  tauto.
Qed.

End Disjunction.

(** ** The further theorems at the examples *)

Lemma sample_values_first :
  (∃ s, at_col sample_first "Job Title" = Str s ∧ s ∈ job_titles)
  ∧ (∃ s, at_col sample_first "Company" = Str s ∧ s ∈ companies)
  ∧ (∃ s, at_col sample_first "City" = Str s ∧ s ∈ cities)
  ∧ (∃ c st, at_col sample_first "Job Location" = Str (c +:+ ", " +:+ st)
       ∧ c ∈ cities ∧ st ∈ sample_states)
  ∧ (at_col sample_first "Hired" = Str "Yes" ∨ at_col sample_first "Hired" = Str "No")
  ∧ (at_col sample_first "Easy Apply" = Str "Yes"
     ∨ at_col sample_first "Easy Apply" = Str "No")
  ∧ (∃ z, at_col sample_first "Salary_Min" = Int z ∧ 50000 ≤ z < 120000)
  ∧ (∃ z, at_col sample_first "Salary_Max" = Int z ∧ 70000 ≤ z < 150000).
Proof.
  apply (sample_values rng_zero sample_first).
  rewrite sample_records. apply list_elem_of_fmap. exists 0%nat.
  split; [vm_compute; reflexivity|]. apply elem_of_seq. unfold n_jobs. lia.
Defined.

Lemma fourth_file_wins :
  try_files read_blank possible_files = Ok (Some blank_workbook)
  ∧ load_data parse_none repr_blank str_ok_text rng_zero read_blank
    = match preprocess parse_none repr_blank str_ok_text blank_workbook with
      | Ok df => Ok ([], df)
      | Raise e => Ok ([Error (load_error e)], create_sample_data rng_zero)
      end.
Proof.
  apply (first_readable_file_wins parse_none repr_blank str_ok_text rng_zero
           read_blank
           ["DataAnalystjobs2023.xlsx"; "dataanalystjobs2023.xlsx";
            "data_analyst_jobs_2023.xlsx"]
           "DataAnalystJobs2023.xlsx" [] blank_workbook).
  - reflexivity.
  - intros g Hg. repeat (apply elem_of_cons in Hg as [->|Hg]; [reflexivity|]).
    by apply elem_of_nil in Hg.
  - reflexivity.
Defined.

Lemma austin_city :
  ∃ r, r ∈ records workbook ∧ austin_row.1 = r.1
    ∧ (has_column workbook "Job Location" = false
       → at_col austin_row "City" = Str "Unknown")
    ∧ (has_column workbook "Job Location" = true →
         (∀ a b, at_col r "Job Location" = Str (a +:+ "," +:+ b) →
                 has_char "," a = false → at_col austin_row "City" = Str a)
         ∧ (∀ s, at_col r "Job Location" = Str s →
                 has_char "," s = false → at_col austin_row "City" = Str s)
         ∧ ((∀ s, at_col r "Job Location" ≠ Str s) → at_col austin_row "City" = NaN)).
Proof.
  apply (load_data_city parse_none repr_blank str_ok_text rng_zero
           read_workbook workbook workbook_loaded austin_row).
  - reflexivity.
  - vm_compute. reflexivity.
  - left.
Defined.

Lemma blank_workbook_loads_empty :
  @nil message = []
  ∧ ∃ raw, try_files read_blank possible_files = Ok (Some raw)
      ∧ preprocess parse_none repr_blank str_ok_text raw
        = Ok {| columns := workbook_columns ++ ["City"]; records := [] |}
      ∧ ∀ r, r ∈ records raw → ¬ survives parse_none raw r.
Proof.
  apply (load_data_empty_only_from_file parse_none repr_blank str_ok_text rng_zero
           read_blank [] {| columns := workbook_columns ++ ["City"]; records := [] |}).
  - vm_compute. reflexivity.
  - reflexivity.
Defined.

Lemma workbook_title_options :
  ∃ opts, sidebar_options sorted_unused type_error_float_str workbook_loaded "Job Title"
          = Ok (Str <$> opts)
    ∧ StronglySorted str_lt opts
    ∧ ∀ s, s ∈ opts ↔
           ∃ r, r ∈ records workbook_loaded ∧ at_col r "Job Title" = Str s.
Proof.
  apply (title_options_sorted parse_none repr_blank str_ok_text rng_zero
           sorted_unused type_error_float_str read_workbook []).
  vm_compute. reflexivity.
Defined.

Lemma patchy_city_options_raise :
  ∃ col, getitem patchy_loaded "City" = Ok col
    ∧ sidebar_options sorted_unused type_error_float_str patchy_loaded "City"
      = Raise (OtherError (type_error_float_str (unique col))).
Proof.
  apply (city_options_raise sorted_unused type_error_float_str patchy_loaded
           austin_row nowhere_row "Austin").
  - reflexivity.
  - left.
  - right. left.
  - reflexivity.
  - reflexivity.
Defined.

Example load_patchy :
  load_data parse_none repr_blank str_ok_text rng_zero read_patchy
  = Ok ([], patchy_loaded).
Proof. vm_compute. reflexivity. Qed.


Lemma workbook_filter_twice : filtered_df workbook_picked picked = Ok workbook_picked.
Proof.
  apply (filtered_df_idempotent parse_none repr_blank str_ok_text rng_zero
           read_workbook [] workbook_loaded picked workbook_picked).
  - vm_compute. reflexivity.
  - vm_compute. reflexivity.
Defined.


Lemma workbook_hired_only :
  ∃ h, hired_pct workbook_picked = Ok h
    ∧ (hired_filter picked = "Yes" → records workbook_picked ≠ [] → (h == 100)%Q)
    ∧ (hired_filter picked ≠ "Yes" → (h == 0)%Q).
Proof.
  apply (hired_filter_fixes_rate parse_none repr_blank str_ok_text rng_zero
           read_workbook [] workbook_loaded picked workbook_picked).
  - vm_compute. reflexivity.
  - vm_compute. reflexivity.
  - discriminate.
Defined.

Lemma workbook_indicators :
  (records workbook_picked = [] →
   key_indicators workbook_loaded workbook_picked
   = Ok (inl (Warning no_matches_warning)))
  ∧ (records workbook_picked ≠ [] →
     ∃ lo hi, earliest workbook_picked lo ∧ latest workbook_picked hi ∧ lo ≤ hi
       ∧ (timestamp_max < hi - lo →
          key_indicators workbook_loaded workbook_picked
          = Raise OutOfBoundsDatetime)
       ∧ (hi - lo ≤ timestamp_max →
          ∃ k, key_indicators workbook_loaded workbook_picked = Ok (inr k)
            ∧ total_jobs k = len workbook_picked
            ∧ (total_delta k = None ↔ workbook_picked = workbook_loaded)
            ∧ (hired_delta k = None ↔ workbook_picked = workbook_loaded)
            ∧ (easy_delta k = None ↔ workbook_picked = workbook_loaded)
            ∧ (∀ d, total_delta k = Some d →
                    d < 0 ∧ d = Z.of_nat (len workbook_picked)
                                - Z.of_nat (len workbook_loaded)))).
Proof.
  apply (key_indicators_deltas parse_none repr_blank str_ok_text rng_zero
           read_workbook [] workbook_loaded picked workbook_picked).
  - vm_compute. reflexivity.
  - vm_compute. reflexivity.
Defined.

(** Two postings three centuries apart: the indicator block raises. *)
Example archive_indicators_raise :
  key_indicators archive_loaded archive_loaded = Raise OutOfBoundsDatetime.
Proof. vm_compute. reflexivity. Qed.

Example workbook_total_delta :
  ∃ k, key_indicators workbook_loaded workbook_picked = Ok (inr k)
    ∧ total_jobs k = 1%nat ∧ total_delta k = Some (-1).
Proof. eexists. split; [vm_compute; reflexivity|]. by split. Qed.

Lemma workbook_crosstab_rows :
  ∃ table, crosstab_pct crosstab_unused workbook_loaded = Ok table
    ∧ ∀ e row, (e, row) ∈ table →
        (0 < count_eq workbook_loaded "Easy Apply" (Str e))%nat
        ∧ sum_list (count_both workbook_loaded e <$> row.*1)
          = count_eq workbook_loaded "Easy Apply" (Str e)
        ∧ ∀ h q, (h, q) ∈ row →
            q = (Q_of_nat (count_both workbook_loaded e h)
                 / Q_of_nat (count_eq workbook_loaded "Easy Apply" (Str e)) * 100)%Q
            ∧ (count_both workbook_loaded e h
               ≤ count_eq workbook_loaded "Easy Apply" (Str e))%nat
            ∧ (0 <= q)%Q ∧ (q <= 100)%Q.
Proof.
  apply (crosstab_row_counts parse_none repr_blank str_ok_text rng_zero
           crosstab_unused read_workbook [] workbook_loaded
           (select_all 19358 19359) workbook_loaded).
  - vm_compute. reflexivity.
  - vm_compute. reflexivity.
Defined.

Lemma workbook_crosstab_labels :
  ∃ table, crosstab_pct crosstab_unused workbook_picked = Ok table
    ∧ StronglySorted str_lt table.*1
    ∧ (∀ e, e ∈ table.*1 ↔
            ∃ r, r ∈ records workbook_picked ∧ at_col r "Easy Apply" = Str e)
    ∧ ∀ e row, (e, row) ∈ table →
        StronglySorted str_lt row.*1
        ∧ ∀ h, h ∈ row.*1 ↔
               ∃ r, r ∈ records workbook_picked ∧ at_col r "Hired" = Str h.
Proof.
  apply (crosstab_labels parse_none repr_blank str_ok_text rng_zero
           crosstab_unused read_workbook [] workbook_loaded picked workbook_picked).
  - vm_compute. reflexivity.
  - vm_compute. reflexivity.
Defined.


Lemma workbook_hiring_stats :
  ∃ st, hiring_stats workbook_loaded = Ok st
    ∧ (stat_hired st).1 = count_eq workbook_loaded "Hired" (Str "Yes")
    ∧ (stat_not_hired st).1 = count_eq workbook_loaded "Hired" (Str "No")
    ∧ ((stat_hired st).1 + (stat_not_hired st).1 ≤ len workbook_loaded)%nat
    ∧ (((stat_hired st).1 + (stat_not_hired st).1)%nat = len workbook_loaded
       ↔ ∀ r, r ∈ records workbook_loaded →
              at_col r "Hired" = Str "Yes" ∨ at_col r "Hired" = Str "No")
    ∧ ((stat_hired st).2 == pct (stat_hired st).1 (len workbook_loaded))%Q
    ∧ ((stat_not_hired st).2 == pct (stat_not_hired st).1 (len workbook_loaded))%Q
    ∧ (0 <= (stat_hired st).2)%Q ∧ ((stat_hired st).2 <= 100)%Q
    ∧ (0 <= (stat_not_hired st).2)%Q ∧ ((stat_not_hired st).2 <= 100)%Q.
Proof.
  apply (hiring_stats_cover parse_none repr_blank str_ok_text rng_zero
           read_workbook [] workbook_loaded (select_all 19358 19359) workbook_loaded).
  - vm_compute. reflexivity.
  - vm_compute. reflexivity.
Defined.


Example monthly_data_workbook :
  monthly_data workbook_loaded = Ok [(19358 * ns_per_day, 2%nat)].
Proof. vm_compute. reflexivity. Qed.

(** A posting of 1677-09-25 is loaded and kept, and the monthly trend
    raises: 1677-09-01 is no timestamp. *)
Example load_early :
  load_data parse_none repr_blank str_ok_text rng_zero read_early
  = Ok ([], early_loaded).
Proof. vm_compute. reflexivity. Qed.

Example early_month_raises :
  filtered_df early_loaded (select_all (-106748) (-106748)) = Ok early_loaded
  ∧ monthly_sizes early_loaded = Ok [(-3508, 1%nat)]
  ∧ monthly_data early_loaded = Raise OutOfBoundsDatetime.
Proof. vm_compute. by repeat split. Qed.

Lemma workbook_display_columns :
  ∃ shown, display_columns workbook_loaded false = Ok shown
    ∧ columns shown
      = (if has_column workbook_loaded "Company"
         then ["Date"; "Job Title"; "Company"; "City"; "Hired"; "Easy Apply"]
         else ["Date"; "Job Title"; "City"; "Hired"; "Easy Apply"])
    ∧ labels (records shown) = labels (records workbook_loaded)
    ∧ ∀ i r, records workbook_loaded !! i = Some r →
        ∃ r', records shown !! i = Some r' ∧ r'.1 = r.1
          ∧ ∀ c, at_col r' c = if bool_decide (c ∈ columns shown) then at_col r c
                               else NaN.
Proof.
  apply (display_columns_key workbook_loaded).
  intros c Hc.
  repeat (apply elem_of_cons in Hc as [->|Hc]; [reflexivity|]).
  by apply elem_of_nil in Hc.
Defined.

Lemma workbook_two_titles :
  austin_row ∈ records workbook_loaded
  ↔ austin_row ∈ records workbook_picked ∨ austin_row ∈ records workbook_denver.
Proof.
  apply (selected_titles_are_alternatives parse_none repr_blank str_ok_text rng_zero
           read_workbook [] workbook_loaded (select_all 19358 19359)
           [Str "Data Analyst"] [Str ""] workbook_picked workbook_denver
           workbook_loaded).
  - vm_compute. reflexivity.
  - discriminate.
  - discriminate.
  - vm_compute. reflexivity.
  - vm_compute. reflexivity.
  - vm_compute. reflexivity.
Defined.
